(** * Rhinovate backend: operation planning, scoring, disclosure and warp guards

    A shallow embedding of [backend/beauty_rules.py] (class
    [BeautyRulesEngine]), of the control structure of
    [backend/image_processor.py] (class [ImageProcessor]) and of the
    [/analyze] endpoint of [backend/main.py].

    Numbers.  Python [float] values are embedded twice.

    - [Binary64] holds the planner and the recommendations over the
      IEEE 754 binary64 numbers of the kernel: a decimal literal denotes
      the nearest binary64 number and every operation is rounded, as in
      Python.  Which tier or regime an input falls in can turn on the
      last bit of a computed value (at the ratio 0.8625 the excess over
      the ideal 0.75 is computed as 0.15000000000000013, above the 0.15
      it equals in decimal arithmetic), so the statements on the regimes
      of the planner and on the disclosure of a plan are made there.
    - [BeautyRulesEngine], [ImageProcessor] and [Main] take numbers as
      exact rationals [Q]: decimal literals denote the rational they
      spell, arithmetic is exact, and [int(x)] is truncation toward
      zero.  The statements made there are on the structure of a plan,
      on bounds, on monotonicity and on guards; the exact sum of the
      harmony score can differ from the rounded one by one next to an
      integer, and every concrete evaluation is taken away from such a
      boundary.

    Dictionaries.  The measurement record and the operation records are
    Python dicts with a fixed set of keys read through [dict.get(key,
    default)]; they are modelled by records of optional fields, and
    [dict.get] by [get]. *)

From Stdlib Require Import QArith Qabs Qminmax Qround ZArith List Bool Lia Lqa.
From Stdlib Require Import String Ascii DecimalString Sorted Permutation.
From Stdlib Require Import Floats.

(* A decimal literal of a float denotes the nearest binary64 number. *)
Set Warnings "-inexact-float".
Import ListNotations.

Open Scope Q_scope.

(** ** Python built-ins used by the code *)

Module Py.

(** [d.get(key, default)] on an optional field. *)
Definition get {A : Type} (field : option A) (default : A) : A :=
  match field with
  | Some v => v
  | None => default
  end.

(** [x < y] and [x > y] on numbers. *)
Definition lt (x y : Q) : bool := negb (Qle_bool y x).
Definition gt (x y : Q) : bool := lt y x.
Definition le (x y : Q) : bool := Qle_bool x y.
Definition ge (x y : Q) : bool := Qle_bool y x.

(** [x == y] on numbers. *)
Definition eq (x y : Q) : bool := Qeq_bool x y.

(** [min(a, b)]: the first argument unless the second is strictly
    smaller; [max(a, b)]: the first unless the second is strictly larger. *)
Definition min (a b : Q) : Q := if lt b a then b else a.
Definition max (a b : Q) : Q := if gt b a then b else a.

Definition minZ (a b : Z) : Z := if (b <? a)%Z then b else a.
Definition maxZ (a b : Z) : Z := if (b >? a)%Z then b else a.

(** [abs(x)]. *)
Definition abs (x : Q) : Q := Qabs x.

(** [int(x)] on a float: truncation toward zero. *)
Definition int (x : Q) : Z := Z.quot (Qnum x) (Z.pos (Qden x)).

(** [round(x)] on a float, as the specification uses the word: the
    nearest integer (ties to even, as Python 3 does). *)
Definition round (x : Q) : Z :=
  let f := Qfloor x in
  let r := x - inject_Z f in
  if lt r (1 # 2) then f
  else if lt (1 # 2) r then (f + 1)%Z
  else if Z.even f then f else (f + 1)%Z.

(** [sub in s] on strings. *)
Fixpoint contains (sub s : string) : bool :=
  String.prefix sub s ||
  match s with
  | EmptyString => false
  | String _ s' => contains sub s'
  end.

(** [sep.join(parts)]. *)
Definition join (sep : string) (parts : list string) : string :=
  String.concat sep parts.

(** [str(n)] / [f"{n}"] on an integer. *)
Definition str_int (n : Z) : string :=
  NilZero.string_of_int (Z.to_int n).

(** [lst.sort(key=key)]: Python's sort is stable.  It is modelled by a
    stable insertion sort: an element is placed in front of the first
    later element whose key is not smaller, so that on equal keys the
    earlier element stays in front. *)
Section Sort.
Context {A : Type} (key : A -> Z).

Fixpoint insert (x : A) (l : list A) : list A :=
  match l with
  | [] => [x]
  | y :: l' =>
      if (key x <=? key y)%Z then x :: y :: l'
      else y :: insert x l'
  end.

Fixpoint sort (l : list A) : list A :=
  match l with
  | [] => []
  | x :: l' => insert x (sort l')
  end.
End Sort.

End Py.

(** ** Data model *)

(** An operation dict.  The planner writes [region], [type], [priority]
    and the parameters of the operation's type; every reader goes through
    [dict.get]. *)
Record Operation : Type := mkOperation {
  region : option string;
  type : option string;
  amount : option Q;
  factor : option Q;
  mm : option Q;
  current : option Q;
  target : option Q;
  priority : option Z
}.

(** The dict under the key ["facial_thirds"]. *)
Record FacialThirds : Type := mkFacialThirds {
  upper : option Q;
  middle : option Q;
  lower : option Q
}.

(** The measurement dict given to the planner and to the scorer. *)
Record Measurements : Type := mkMeasurements {
  symmetry_score : option Q;
  nose_to_ipd_ratio : option Q;
  jaw_asymmetry : option Q;
  chin_projection : option Q;
  facial_thirds : option FacialThirds
}.

(** ** [beauty_rules.py] *)

Module BeautyRulesEngine.

(** [self.BEAUTY_RULES], one module per top-level key. *)
Module BEAUTY_RULES.
Module global.
Definition target_symmetry : Q := 0.9.
Definition max_symmetry_delta : Q := 0.15.
End global.
Module nose.
Definition max_reduction : Q := 0.30.
Definition ideal_nose_to_ipd : Q := 0.75.
Definition tip_refinement : Q := 0.15.
Definition bridge_refinement : Q := 0.10.
End nose.
Module chin.
Definition max_projection_increase : Q := 0.3.
Definition max_projection_decrease : Q := 0.2.
End chin.
Module jaw.
Definition max_narrowing : Q := 0.2.
Definition max_asymmetry_correction : Q := 2.0.
End jaw.
Module lips.
Definition max_augmentation : Q := 0.35.
End lips.
Module facial_thirds.
Definition ideal_upper : Q := 0.33.
Definition ideal_middle : Q := 0.33.
Definition ideal_lower : Q := 0.34.
Definition tolerance : Q := 0.05.
End facial_thirds.
End BEAUTY_RULES.

(** The dict literals of the planner. *)
Definition op_symmetry (delta : Q) : Operation :=
  mkOperation (Some "face"%string) (Some "symmetry"%string)
    (Some delta) None None None None (Some 1%Z).

Definition op_nose (kind : string) (f : Q) : Operation :=
  mkOperation (Some "nose"%string) (Some kind)
    None (Some f) None None None (Some 2%Z).

Definition op_jaw (correction : Q) : Operation :=
  mkOperation (Some "jaw"%string) (Some "balance"%string)
    None None (Some correction) None None (Some 3%Z).

Definition op_chin (a : Q) : Operation :=
  mkOperation (Some "chin"%string) (Some "enhance"%string)
    (Some a) None None None None (Some 4%Z).

Definition op_third (third_name : string) (cur ideal : Q) : Operation :=
  mkOperation (Some "face"%string)
    (Some ("adjust_" ++ third_name ++ "_third")%string)
    None None None (Some cur) (Some ideal) (Some 5%Z).

(** One turn of the loop of [_analyze_facial_thirds]: the list of
    operations after the third [(get_third, third_name, ideal)]. *)
Definition check_third (ft : FacialThirds) (operations : list Operation)
    (third : (FacialThirds -> option Q) * string * Q) : list Operation :=
  let '(get_third, third_name, ideal) := third in
  let cur := Py.get (get_third ft) ideal in
  let deviation := Py.abs (cur - ideal) in
  if Py.gt deviation BEAUTY_RULES.facial_thirds.tolerance
  then operations ++ [op_third third_name cur ideal]
  else operations.

Definition _analyze_facial_thirds (ft : FacialThirds) : list Operation :=
  fold_left (check_third ft)
    [ (upper, "upper"%string, BEAUTY_RULES.facial_thirds.ideal_upper);
      (middle, "middle"%string, BEAUTY_RULES.facial_thirds.ideal_middle);
      (lower, "lower"%string, BEAUTY_RULES.facial_thirds.ideal_lower) ]
    [].

(** Truth value of the facial-thirds dict: a dict is true when it has a
    key. *)
Definition thirds_truthy (ft : FacialThirds) : bool :=
  match upper ft, middle ft, lower ft with
  | None, None, None => false
  | _, _, _ => true
  end.

(** The five blocks of [plan_changes]; each takes the list built so far
    and returns it with its operations appended. *)
Definition plan_symmetry (m : Measurements) (operations : list Operation)
    : list Operation :=
  let current_symmetry := Py.get (symmetry_score m) 1.0 in
  let target_symmetry := BEAUTY_RULES.global.target_symmetry in
  if Py.lt current_symmetry target_symmetry then
    let delta := Py.min (target_symmetry - current_symmetry)
                        BEAUTY_RULES.global.max_symmetry_delta in
    operations ++ [op_symmetry delta]
  else operations.

Definition plan_nose (m : Measurements) (operations : list Operation)
    : list Operation :=
  let nose_ratio := Py.get (nose_to_ipd_ratio m) 1.0 in
  let ideal_nose_ratio := BEAUTY_RULES.nose.ideal_nose_to_ipd in
  if Py.gt nose_ratio ideal_nose_ratio then
    let excess := nose_ratio / ideal_nose_ratio - 1.0 in
    let shrink_factor := Py.min excess BEAUTY_RULES.nose.max_reduction in
    let operations :=
      operations ++ [op_nose "shrink_width" (1 - shrink_factor)] in
    let operations :=
      if Py.gt shrink_factor 0.15
      then operations ++
           [op_nose "refine_tip" (1 - BEAUTY_RULES.nose.tip_refinement)]
      else operations in
    if Py.gt shrink_factor 0.12
    then operations ++
         [op_nose "refine_bridge" (1 - BEAUTY_RULES.nose.bridge_refinement)]
    else operations
  else if Py.lt nose_ratio (ideal_nose_ratio * 0.85) then
    (operations
       ++ [op_nose "refine_tip"
             (1 - BEAUTY_RULES.nose.tip_refinement * 0.5)])
       ++ [op_nose "refine_bridge"
             (1 - BEAUTY_RULES.nose.bridge_refinement * 0.5)]
  else
    operations
      ++ [op_nose "refine_tip" (1 - BEAUTY_RULES.nose.tip_refinement * 0.7)].

Definition plan_jaw (m : Measurements) (operations : list Operation)
    : list Operation :=
  let jaw_asymmetry := Py.get (jaw_asymmetry m) 0 in
  let max_correction := BEAUTY_RULES.jaw.max_asymmetry_correction in
  if Py.gt jaw_asymmetry 1.0 then
    let correction := Py.min jaw_asymmetry max_correction in
    operations ++ [op_jaw correction]
  else operations.

Definition plan_chin (m : Measurements) (operations : list Operation)
    : list Operation :=
  let chin_projection := Py.get (chin_projection m) 0 in
  if Py.gt chin_projection 0 then
    if Py.lt chin_projection 20
    then operations ++ [op_chin 0.15]
    else operations
  else operations.

Definition plan_thirds (m : Measurements) (operations : list Operation)
    : list Operation :=
  let facial_thirds := Py.get (facial_thirds m) (mkFacialThirds None None None) in
  if thirds_truthy facial_thirds then
    let thirds_ops := _analyze_facial_thirds facial_thirds in
    operations ++ thirds_ops
  else operations.

(** The list before the final sort. *)
Definition planned (m : Measurements) : list Operation :=
  plan_thirds m (plan_chin m (plan_jaw m (plan_nose m (plan_symmetry m [])))).

(** The sort key [lambda x: x.get("priority", 99)]. *)
Definition priority_key (x : Operation) : Z := Py.get (priority x) 99%Z.

Definition plan_changes (m : Measurements) : list Operation :=
  Py.sort priority_key (planned m).

(** *** [get_readable_recommendations] *)

(** The two float format specifications of the f-strings are taken as
    given: [fmt_1f x] is [f"{x:.1f}"] and [fmt_pct x] is [f"{x:.1%}"]. *)
Section Recommendations.
Variable fmt_1f : Q -> string.
Variable fmt_pct : Q -> string.

Local Open Scope string_scope.

(** The right arrow of the facial-thirds captions (U+2192 in UTF-8). *)
Definition arrow : string :=
  String (ascii_of_nat 226)
    (String (ascii_of_nat 134) (String (ascii_of_nat 146) EmptyString)).

Definition text_symmetry (percentage : Z) : string :=
  "Facial Symmetry Correction: Balance left/right facial features "
  ++ "(" ++ Py.str_int percentage
  ++ "% AI-enhanced symmetry adjustment) - improves overall facial harmony".

Definition text_shrink_width (reduction : Z) : string :=
  Py.str_int reduction ++ "% overall nasal width reduction".

Definition text_refine_tip : string :=
  "nasal tip refinement and definition".

Definition text_refine_bridge : string := "nasal bridge narrowing".

Definition text_jaw (mm : Q) : string :=
  "Jawline Contouring: Correct jaw asymmetry "
  ++ "(" ++ fmt_1f mm
  ++ "mm lateral adjustment) - improves facial symmetry and balance".

Definition text_chin (percentage : Z) : string :=
  "Chin Enhancement: Increase chin projection "
  ++ "(" ++ Py.str_int percentage
  ++ "% forward projection) - improves profile definition".

Definition text_upper_botox (cur tgt change_pct : Q) : string :=
  "Upper Third Optimization: Minimal Botox brow lift effect "
  ++ "(" ++ fmt_pct cur ++ " " ++ arrow ++ " " ++ fmt_pct tgt
  ++ ", ~" ++ fmt_1f change_pct ++ "% change) - "
  ++ "very subtle, Botox can only lift brows 1-3mm maximum".

Definition text_upper_surgery (cur tgt : Q) : string :=
  "Upper Third Optimization: Requires surgical brow lift or forehead reduction "
  ++ "(" ++ fmt_pct cur ++ " " ++ arrow ++ " " ++ fmt_pct tgt
  ++ ") - beyond Botox capability, would need surgery".

Definition text_middle (cur tgt change_pct : Q) : string :=
  "Middle Third Enhancement: Cheek/midface augmentation with dermal fillers "
  ++ "(" ++ fmt_pct cur ++ " " ++ arrow ++ " " ++ fmt_pct tgt
  ++ ", ~" ++ fmt_1f change_pct ++ "% change) - "
  ++ "adds volume and forward projection to midface (NOT achievable with Botox alone)".

Definition text_lower (cur tgt : Q) : string :=
  "Lower Third Optimization: Combined jaw and chin contouring "
  ++ "(" ++ fmt_pct cur ++ " " ++ arrow ++ " " ++ fmt_pct tgt
  ++ ") - complements existing chin enhancement procedures".

Definition text_rhinoplasty (nose_desc : string) : string :=
  "Comprehensive Rhinoplasty: " ++ nose_desc ++ " - "
  ++ "creates more refined, elegant nasal proportions for enhanced facial harmony".

Definition text_balanced : list string :=
  [ "Your facial features are already well-balanced!";
    "No enhancements recommended - your facial harmony is optimal" ].

(** The caption of a facial-third operation (the branch
    [region == "face" and "third" in op_type]). *)
Definition third_caption (op : Operation) (op_type : string) : string :=
  let cur := Py.get (current op) 0%Q in
  let tgt := Py.get (target op) 0%Q in
  let deviation := (tgt - cur)%Q in
  let change_pct := (Py.abs deviation * 100)%Q in
  if Py.contains "upper" op_type then
    if Py.le (Py.abs deviation) 0.02%Q
    then text_upper_botox cur tgt change_pct
    else text_upper_surgery cur tgt
  else if Py.contains "middle" op_type then
    text_middle cur tgt change_pct
  else text_lower cur tgt.

(** The body of the loop over [operations]; the state is the pair of
    the lists [recommendations] and [nose_ops]. *)
Definition describe (st : list string * list string) (op : Operation)
    : list string * list string :=
  let '(recommendations, nose_ops) := st in
  let region := Py.get (region op) EmptyString in
  let op_type := Py.get (type op) EmptyString in
  if (region =? "face") && (op_type =? "symmetry") then
    let amount := Py.get (amount op) 0%Q in
    let percentage :=
      if Py.gt amount 0%Q then Py.int (amount * 100)%Q else 0%Z in
    ((recommendations ++ [text_symmetry percentage])%list, nose_ops)
  else if region =? "nose" then
    if op_type =? "shrink_width" then
      let factor := Py.get (factor op) 1.0%Q in
      let reduction := Py.int ((1 - factor) * 100)%Q in
      (recommendations, (nose_ops ++ [text_shrink_width reduction])%list)
    else if op_type =? "refine_tip" then
      (recommendations, (nose_ops ++ [text_refine_tip])%list)
    else if op_type =? "refine_bridge" then
      (recommendations, (nose_ops ++ [text_refine_bridge])%list)
    else st
  else if (region =? "jaw") && (op_type =? "balance") then
    let mm := Py.get (mm op) 0%Q in
    ((recommendations ++ [text_jaw mm])%list, nose_ops)
  else if (region =? "chin") && (op_type =? "enhance") then
    let amount := Py.get (amount op) 0%Q in
    let percentage := Py.int (amount * 100)%Q in
    ((recommendations ++ [text_chin percentage])%list, nose_ops)
  else if (region =? "face") && Py.contains "third" op_type then
    ((recommendations ++ [third_caption op op_type])%list, nose_ops)
  else st.

Definition get_readable_recommendations (operations : list Operation)
    : list string :=
  let '(recommendations, nose_ops) :=
    fold_left describe operations ([], []) in
  let recommendations :=
    match nose_ops with
    | [] => recommendations
    | _ :: _ =>
        let nose_desc := Py.join ", " nose_ops in
        text_rhinoplasty nose_desc :: recommendations
    end in
  match recommendations with
  | [] => text_balanced
  | _ :: _ => recommendations
  end.
End Recommendations.

(** *** [get_procedure_labels] *)

(** The body of the loop over [operations]; the state is the list
    [labels]. *)
Definition label (labels : list string) (op : Operation) : list string :=
  let region := Py.get (region op) EmptyString in
  let op_type := Py.get (type op) EmptyString in
  if (region =? "nose")%string then
    if (op_type =? "shrink_width")%string then
      (labels ++ ["Comprehensive rhinoplasty (AI)"%string])
        ++ ["Nasal width reduction (AI)"%string]
    else if (op_type =? "refine_tip")%string then
      labels ++ ["Tip refinement & definition (AI)"%string]
    else if (op_type =? "refine_bridge")%string then
      labels ++ ["Bridge narrowing & refinement (AI)"%string]
    else labels
  else if (region =? "jaw")%string then
    if (op_type =? "balance")%string
    then labels ++ ["Jawline contouring (AI)"%string]
    else labels
  else if (region =? "chin")%string then
    if (op_type =? "enhance")%string
    then labels ++ ["Chin augmentation (filler simulation)"%string]
    else labels
  else if (region =? "face")%string && (op_type =? "symmetry")%string then
    labels ++ ["Facial symmetry correction (AI)"%string]
  else labels.

Definition get_procedure_labels (operations : list Operation) : list string :=
  fold_left label operations [].

(** *** [calculate_harmony_score] *)

(** The fifth sub-score, from [num_operations = len(operations)]. *)
Definition operations_score (num_operations : Z) : Q :=
  if (num_operations =? 0)%Z then 1.0
  else if (num_operations =? 1)%Z then 0.85
  else if (num_operations =? 2)%Z then 0.70
  else Py.max 0.5 (1.0 - inject_Z (num_operations - 2) * 0.1).

(** The list [scores] of [(name, score, weight)] entries. *)
Definition harmony_scores (m : Measurements) (operations : list Operation)
    : list (string * Q * Q) :=
  let symmetry_score := Py.get (symmetry_score m) 0.8 in
  let ideal_nose_ratio := BEAUTY_RULES.nose.ideal_nose_to_ipd in
  let nose_ratio := Py.get (nose_to_ipd_ratio m) ideal_nose_ratio in
  let nose_deviation := Py.abs (nose_ratio - ideal_nose_ratio) / ideal_nose_ratio in
  let nose_score := Py.max 0 (1 - nose_deviation * 2) in
  let jaw_asymmetry := Py.get (jaw_asymmetry m) 0 in
  let max_asymmetry := 10.0 in
  let jaw_score := Py.max 0 (1 - jaw_asymmetry / max_asymmetry) in
  let chin_projection := Py.get (chin_projection m) 0 in
  let chin_score :=
    if Py.gt chin_projection 0 then Py.min 1.0 (chin_projection / 20.0)
    else 0.7 in
  let num_operations := Z.of_nat (List.length operations) in
  [ ("symmetry"%string, symmetry_score, 0.40);
    ("nose_proportion"%string, nose_score, 0.20);
    ("jaw_balance"%string, jaw_score, 0.15);
    ("chin_projection"%string, chin_score, 0.10);
    ("enhancement_potential"%string, operations_score num_operations, 0.15) ].

(** [sum(score * weight for _, score, weight in scores)]. *)
Definition total_score (scores : list (string * Q * Q)) : Q :=
  fold_left (fun acc entry => let '(_, score, weight) := entry in
                              acc + score * weight) scores 0.

Definition calculate_harmony_score (m : Measurements)
    (operations : list Operation) : Z :=
  let harmony_score := Py.int (total_score (harmony_scores m operations) * 100) in
  Py.maxZ 0 (Py.minZ 100 harmony_score).

End BeautyRulesEngine.

(** ** Binary64 arithmetic

    The comparisons and [min], [max], [abs] of Python on [float]
    values, over the IEEE 754 binary64 numbers of the kernel.  A
    comparison with a NaN is false, as in Python. *)

Module Py64.

Definition lt (x y : float) : bool := PrimFloat.ltb x y.
Definition gt (x y : float) : bool := PrimFloat.ltb y x.
Definition le (x y : float) : bool := PrimFloat.leb x y.
Definition ge (x y : float) : bool := PrimFloat.leb y x.

Definition min (a b : float) : float := if lt b a then b else a.
Definition max (a b : float) : float := if gt b a then b else a.

Definition abs (x : float) : float := PrimFloat.abs x.

(** [int(x)]: the integer part of a finite float, toward zero.  On an
    infinity or a NaN, where Python raises, the value here is 0; the
    planner writes neither as an amount or a factor. *)
Definition int (x : float) : Z :=
  match Prim2SF x with
  | S754_finite s m e =>
      let n := Z.shiftl (Z.pos m) e in
      if s then (- n)%Z else n
  | _ => 0%Z
  end.

End Py64.

(** ** [beauty_rules.py] in binary64: the planner and the recommendations

    The same functions as in [BeautyRulesEngine], with every number a
    binary64 float and every operation rounded as Python rounds it.  The
    statements that turn on which side of a threshold a computed value
    falls are made on this embedding. *)

Module Binary64.

Local Open Scope float_scope.

(** An operation dict.  The planner writes [region], [type], [priority]
    and the parameters of the operation's type; every reader goes through
    [dict.get]. *)
Record Operation : Type := mkOperation {
  region : option string;
  type : option string;
  amount : option float;
  factor : option float;
  mm : option float;
  current : option float;
  target : option float;
  priority : option Z
}.

(** The dict under the key ["facial_thirds"]. *)
Record FacialThirds : Type := mkFacialThirds {
  upper : option float;
  middle : option float;
  lower : option float
}.

(** The measurement dict given to the planner and to the scorer. *)
Record Measurements : Type := mkMeasurements {
  symmetry_score : option float;
  nose_to_ipd_ratio : option float;
  jaw_asymmetry : option float;
  chin_projection : option float;
  facial_thirds : option FacialThirds
}.


Module BeautyRulesEngine.

(** [self.BEAUTY_RULES], one module per top-level key. *)
Module BEAUTY_RULES.
Module global.
Definition target_symmetry : float := 0.9.
Definition max_symmetry_delta : float := 0.15.
End global.
Module nose.
Definition max_reduction : float := 0.30.
Definition ideal_nose_to_ipd : float := 0.75.
Definition tip_refinement : float := 0.15.
Definition bridge_refinement : float := 0.10.
End nose.
Module chin.
Definition max_projection_increase : float := 0.3.
Definition max_projection_decrease : float := 0.2.
End chin.
Module jaw.
Definition max_narrowing : float := 0.2.
Definition max_asymmetry_correction : float := 2.0.
End jaw.
Module lips.
Definition max_augmentation : float := 0.35.
End lips.
Module facial_thirds.
Definition ideal_upper : float := 0.33.
Definition ideal_middle : float := 0.33.
Definition ideal_lower : float := 0.34.
Definition tolerance : float := 0.05.
End facial_thirds.
End BEAUTY_RULES.

(** The dict literals of the planner. *)
Definition op_symmetry (delta : float) : Operation :=
  mkOperation (Some "face"%string) (Some "symmetry"%string)
    (Some delta) None None None None (Some 1%Z).

Definition op_nose (kind : string) (f : float) : Operation :=
  mkOperation (Some "nose"%string) (Some kind)
    None (Some f) None None None (Some 2%Z).

Definition op_jaw (correction : float) : Operation :=
  mkOperation (Some "jaw"%string) (Some "balance"%string)
    None None (Some correction) None None (Some 3%Z).

Definition op_chin (a : float) : Operation :=
  mkOperation (Some "chin"%string) (Some "enhance"%string)
    (Some a) None None None None (Some 4%Z).

Definition op_third (third_name : string) (cur ideal : float) : Operation :=
  mkOperation (Some "face"%string)
    (Some ("adjust_" ++ third_name ++ "_third")%string)
    None None None (Some cur) (Some ideal) (Some 5%Z).

(** One turn of the loop of [_analyze_facial_thirds]: the list of
    operations after the third [(get_third, third_name, ideal)]. *)
Definition check_third (ft : FacialThirds) (operations : list Operation)
    (third : (FacialThirds -> option float) * string * float) : list Operation :=
  let '(get_third, third_name, ideal) := third in
  let cur := Py.get (get_third ft) ideal in
  let deviation := Py64.abs (cur - ideal) in
  if Py64.gt deviation BEAUTY_RULES.facial_thirds.tolerance
  then operations ++ [op_third third_name cur ideal]
  else operations.

Definition _analyze_facial_thirds (ft : FacialThirds) : list Operation :=
  fold_left (check_third ft)
    [ (upper, "upper"%string, BEAUTY_RULES.facial_thirds.ideal_upper);
      (middle, "middle"%string, BEAUTY_RULES.facial_thirds.ideal_middle);
      (lower, "lower"%string, BEAUTY_RULES.facial_thirds.ideal_lower) ]
    [].

(** Truth value of the facial-thirds dict: a dict is true when it has a
    key. *)
Definition thirds_truthy (ft : FacialThirds) : bool :=
  match upper ft, middle ft, lower ft with
  | None, None, None => false
  | _, _, _ => true
  end.

(** The five blocks of [plan_changes]; each takes the list built so far
    and returns it with its operations appended. *)
Definition plan_symmetry (m : Measurements) (operations : list Operation)
    : list Operation :=
  let current_symmetry := Py.get (symmetry_score m) 1.0 in
  let target_symmetry := BEAUTY_RULES.global.target_symmetry in
  if Py64.lt current_symmetry target_symmetry then
    let delta := Py64.min (target_symmetry - current_symmetry)
                        BEAUTY_RULES.global.max_symmetry_delta in
    operations ++ [op_symmetry delta]
  else operations.

Definition plan_nose (m : Measurements) (operations : list Operation)
    : list Operation :=
  let nose_ratio := Py.get (nose_to_ipd_ratio m) 1.0 in
  let ideal_nose_ratio := BEAUTY_RULES.nose.ideal_nose_to_ipd in
  if Py64.gt nose_ratio ideal_nose_ratio then
    let excess := nose_ratio / ideal_nose_ratio - 1.0 in
    let shrink_factor := Py64.min excess BEAUTY_RULES.nose.max_reduction in
    let operations :=
      operations ++ [op_nose "shrink_width" (1 - shrink_factor)] in
    let operations :=
      if Py64.gt shrink_factor 0.15
      then operations ++
           [op_nose "refine_tip" (1 - BEAUTY_RULES.nose.tip_refinement)]
      else operations in
    if Py64.gt shrink_factor 0.12
    then operations ++
         [op_nose "refine_bridge" (1 - BEAUTY_RULES.nose.bridge_refinement)]
    else operations
  else if Py64.lt nose_ratio (ideal_nose_ratio * 0.85) then
    (operations
       ++ [op_nose "refine_tip"
             (1 - BEAUTY_RULES.nose.tip_refinement * 0.5)])
       ++ [op_nose "refine_bridge"
             (1 - BEAUTY_RULES.nose.bridge_refinement * 0.5)]
  else
    operations
      ++ [op_nose "refine_tip" (1 - BEAUTY_RULES.nose.tip_refinement * 0.7)].

Definition plan_jaw (m : Measurements) (operations : list Operation)
    : list Operation :=
  let jaw_asymmetry := Py.get (jaw_asymmetry m) 0 in
  let max_correction := BEAUTY_RULES.jaw.max_asymmetry_correction in
  if Py64.gt jaw_asymmetry 1.0 then
    let correction := Py64.min jaw_asymmetry max_correction in
    operations ++ [op_jaw correction]
  else operations.

Definition plan_chin (m : Measurements) (operations : list Operation)
    : list Operation :=
  let chin_projection := Py.get (chin_projection m) 0 in
  if Py64.gt chin_projection 0 then
    if Py64.lt chin_projection 20
    then operations ++ [op_chin 0.15]
    else operations
  else operations.

Definition plan_thirds (m : Measurements) (operations : list Operation)
    : list Operation :=
  let facial_thirds := Py.get (facial_thirds m) (mkFacialThirds None None None) in
  if thirds_truthy facial_thirds then
    let thirds_ops := _analyze_facial_thirds facial_thirds in
    operations ++ thirds_ops
  else operations.

(** The list before the final sort. *)
Definition planned (m : Measurements) : list Operation :=
  plan_thirds m (plan_chin m (plan_jaw m (plan_nose m (plan_symmetry m [])))).

(** The sort key [lambda x: x.get("priority", 99)]. *)
Definition priority_key (x : Operation) : Z := Py.get (priority x) 99%Z.

Definition plan_changes (m : Measurements) : list Operation :=
  Py.sort priority_key (planned m).

(** *** [get_readable_recommendations] *)

(** The two float format specifications of the f-strings are taken as
    given: [fmt_1f x] is [f"{x:.1f}"] and [fmt_pct x] is [f"{x:.1%}"]. *)
Section Recommendations.
Variable fmt_1f : float -> string.
Variable fmt_pct : float -> string.

Local Open Scope string_scope.

(** The right arrow of the facial-thirds captions (U+2192 in UTF-8). *)
Definition arrow : string :=
  String (ascii_of_nat 226)
    (String (ascii_of_nat 134) (String (ascii_of_nat 146) EmptyString)).

Definition text_symmetry (percentage : Z) : string :=
  "Facial Symmetry Correction: Balance left/right facial features "
  ++ "(" ++ Py.str_int percentage
  ++ "% AI-enhanced symmetry adjustment) - improves overall facial harmony".

Definition text_shrink_width (reduction : Z) : string :=
  Py.str_int reduction ++ "% overall nasal width reduction".

Definition text_refine_tip : string :=
  "nasal tip refinement and definition".

Definition text_refine_bridge : string := "nasal bridge narrowing".

Definition text_jaw (mm : float) : string :=
  "Jawline Contouring: Correct jaw asymmetry "
  ++ "(" ++ fmt_1f mm
  ++ "mm lateral adjustment) - improves facial symmetry and balance".

Definition text_chin (percentage : Z) : string :=
  "Chin Enhancement: Increase chin projection "
  ++ "(" ++ Py.str_int percentage
  ++ "% forward projection) - improves profile definition".

Definition text_upper_botox (cur tgt change_pct : float) : string :=
  "Upper Third Optimization: Minimal Botox brow lift effect "
  ++ "(" ++ fmt_pct cur ++ " " ++ arrow ++ " " ++ fmt_pct tgt
  ++ ", ~" ++ fmt_1f change_pct ++ "% change) - "
  ++ "very subtle, Botox can only lift brows 1-3mm maximum".

Definition text_upper_surgery (cur tgt : float) : string :=
  "Upper Third Optimization: Requires surgical brow lift or forehead reduction "
  ++ "(" ++ fmt_pct cur ++ " " ++ arrow ++ " " ++ fmt_pct tgt
  ++ ") - beyond Botox capability, would need surgery".

Definition text_middle (cur tgt change_pct : float) : string :=
  "Middle Third Enhancement: Cheek/midface augmentation with dermal fillers "
  ++ "(" ++ fmt_pct cur ++ " " ++ arrow ++ " " ++ fmt_pct tgt
  ++ ", ~" ++ fmt_1f change_pct ++ "% change) - "
  ++ "adds volume and forward projection to midface (NOT achievable with Botox alone)".

Definition text_lower (cur tgt : float) : string :=
  "Lower Third Optimization: Combined jaw and chin contouring "
  ++ "(" ++ fmt_pct cur ++ " " ++ arrow ++ " " ++ fmt_pct tgt
  ++ ") - complements existing chin enhancement procedures".

Definition text_rhinoplasty (nose_desc : string) : string :=
  "Comprehensive Rhinoplasty: " ++ nose_desc ++ " - "
  ++ "creates more refined, elegant nasal proportions for enhanced facial harmony".

Definition text_balanced : list string :=
  [ "Your facial features are already well-balanced!";
    "No enhancements recommended - your facial harmony is optimal" ].

(** The caption of a facial-third operation (the branch
    [region == "face" and "third" in op_type]). *)
Definition third_caption (op : Operation) (op_type : string) : string :=
  let cur := Py.get (current op) 0%float in
  let tgt := Py.get (target op) 0%float in
  let deviation := (tgt - cur)%float in
  let change_pct := (Py64.abs deviation * 100)%float in
  if Py.contains "upper" op_type then
    if Py64.le (Py64.abs deviation) 0.02%float
    then text_upper_botox cur tgt change_pct
    else text_upper_surgery cur tgt
  else if Py.contains "middle" op_type then
    text_middle cur tgt change_pct
  else text_lower cur tgt.

(** The body of the loop over [operations]; the state is the pair of
    the lists [recommendations] and [nose_ops]. *)
Definition describe (st : list string * list string) (op : Operation)
    : list string * list string :=
  let '(recommendations, nose_ops) := st in
  let region := Py.get (region op) EmptyString in
  let op_type := Py.get (type op) EmptyString in
  if (region =? "face") && (op_type =? "symmetry") then
    let amount := Py.get (amount op) 0%float in
    let percentage :=
      if Py64.gt amount 0%float then Py64.int (amount * 100)%float else 0%Z in
    ((recommendations ++ [text_symmetry percentage])%list, nose_ops)
  else if region =? "nose" then
    if op_type =? "shrink_width" then
      let factor := Py.get (factor op) 1.0%float in
      let reduction := Py64.int ((1 - factor) * 100)%float in
      (recommendations, (nose_ops ++ [text_shrink_width reduction])%list)
    else if op_type =? "refine_tip" then
      (recommendations, (nose_ops ++ [text_refine_tip])%list)
    else if op_type =? "refine_bridge" then
      (recommendations, (nose_ops ++ [text_refine_bridge])%list)
    else st
  else if (region =? "jaw") && (op_type =? "balance") then
    let mm := Py.get (mm op) 0%float in
    ((recommendations ++ [text_jaw mm])%list, nose_ops)
  else if (region =? "chin") && (op_type =? "enhance") then
    let amount := Py.get (amount op) 0%float in
    let percentage := Py64.int (amount * 100)%float in
    ((recommendations ++ [text_chin percentage])%list, nose_ops)
  else if (region =? "face") && Py.contains "third" op_type then
    ((recommendations ++ [third_caption op op_type])%list, nose_ops)
  else st.

Definition get_readable_recommendations (operations : list Operation)
    : list string :=
  let '(recommendations, nose_ops) :=
    fold_left describe operations ([], []) in
  let recommendations :=
    match nose_ops with
    | [] => recommendations
    | _ :: _ =>
        let nose_desc := Py.join ", " nose_ops in
        text_rhinoplasty nose_desc :: recommendations
    end in
  match recommendations with
  | [] => text_balanced
  | _ :: _ => recommendations
  end.
End Recommendations.

End BeautyRulesEngine.

End Binary64.

(** ** [image_processor.py] *)

Module ImageProcessor.

(** The shape drawn into a mask before it is blurred. *)
Inductive MaskShape : Type :=
| Ellipse (center axes : Z * Z)
| Polygon (points : list (Z * Z))
| Rectangle (corner1 corner2 : Z * Z).

(** What the code takes from OpenCV, NumPy and the file system.  The
    pixel pipelines are kept abstract; each method stands for the calls
    named in its comment, with the geometry the code computes as
    arguments. *)
Class Cv2 (Image : Type) : Type := {
  (** [image.shape[:2]], as [(height, width)]. *)
  shape : Image -> N * N;
  (** mask of the shape, [GaussianBlur] with the kernel size,
      [getPerspectiveTransform(src, dst)], [warpPerspective], and
      [image * (1 - mask) + warped * mask] as [uint8]. *)
  perspective_blend :
    Image -> MaskShape -> Z -> list (Q * Q) -> list (Q * Q) -> Image;
  (** the same with [warpAffine] by the translation [(0, dy)] and the
      mask scaled by [strength]. *)
  translate_blend : Image -> MaskShape -> Z -> Z -> Q -> Image;
  (** [flip] and [addWeighted] of the columns [inner_left:inner_right],
      written back under the mask. *)
  mirror_blend : Image -> MaskShape -> Z -> Z -> Z -> Q -> Image;
  (** what [cv2.imread] returns for a file holding the image after
      [cv2.imwrite(path, image, [IMWRITE_JPEG_QUALITY, 95])]. *)
  jpeg : Image -> Image;
  (** [Path(path).stem]. *)
  stem : string -> string
}.

(** The images [cv2.imread] finds, by path; [None] where it returns
    [None]. *)
Definition Files (Image : Type) : Type := string -> option Image.

Definition write {Image : Type} (files : Files Image) (path : string)
    (image : Image) : Files Image :=
  fun p => if String.eqb p path then Some image else files p.

Section Renderers.
Context {Image : Type} {cv : Cv2 Image}.

Definition height (image : Image) : Z := Z.of_N (fst (shape image)).
Definition width (image : Image) : Z := Z.of_N (snd (shape image)).

(** A point of an [np.float32] array built from integers. *)
Definition pt (x y : Z) : Q * Q := (inject_Z x, inject_Z y).

(** [points.astype(int)]. *)
Definition astype_int (points : list (Q * Q)) : list (Z * Z) :=
  map (fun p => (Py.int (fst p), Py.int (snd p))) points.

(** [mid_width] and [new_mid_width] are computed by the code and never
    read; they are left out. *)
Definition _shrink_nose_width (image : Image) (operation : Operation)
    : Image :=
  let factor := Py.get (factor operation) 0.9 in
  if Py.ge factor 1.0 || Py.lt factor 0.70 then image else
  let height := height image in
  let width := width image in
  let nose_center_x := (width / 2)%Z in
  let nose_center_y := Py.int (inject_Z height * 0.35) in
  let nose_width := Py.int (inject_Z width * 0.16) in
  let nose_height := Py.int (inject_Z height * 0.20) in
  let bridge_width := nose_width in
  let tip_width := Py.int (inject_Z nose_width * 0.80) in
  let src_points :=
    [ pt (nose_center_x - bridge_width / 2) (nose_center_y - nose_height / 2);
      pt (nose_center_x + bridge_width / 2) (nose_center_y - nose_height / 2);
      pt (nose_center_x + tip_width / 2) (nose_center_y + nose_height / 2);
      pt (nose_center_x - tip_width / 2) (nose_center_y + nose_height / 2) ]%Z in
  let reduction_multiplier := 1.0 - (1.0 - factor) * 1.2 in
  let new_bridge_width := Py.int (inject_Z bridge_width * reduction_multiplier) in
  let new_tip_width := Py.int (inject_Z tip_width * reduction_multiplier) in
  let width_diff := (bridge_width - new_bridge_width)%Z in
  if (width_diff <? 2)%Z then image else
  let dst_points :=
    [ pt (nose_center_x - new_bridge_width / 2) (nose_center_y - nose_height / 2);
      pt (nose_center_x + new_bridge_width / 2) (nose_center_y - nose_height / 2);
      pt (nose_center_x + new_tip_width / 2) (nose_center_y + nose_height / 2);
      pt (nose_center_x - new_tip_width / 2) (nose_center_y + nose_height / 2) ]%Z in
  let avg_width := ((new_bridge_width + new_tip_width) / 2)%Z in
  perspective_blend image
    (Ellipse (nose_center_x, nose_center_y)
             (avg_width / 2 + 10, nose_height / 2 + 12)%Z)
    19 src_points dst_points.

(** The rectangle of half-width [w / 2] and half-height [h / 2] around
    [(cx, cy)], in the corner order of the code. *)
Definition box (cx cy w h : Z) : list (Q * Q) :=
  [ pt (cx - w / 2) (cy - h / 2); pt (cx + w / 2) (cy - h / 2);
    pt (cx + w / 2) (cy + h / 2); pt (cx - w / 2) (cy + h / 2) ]%Z.

Definition _refine_nose_tip (image : Image) (operation : Operation)
    : Image :=
  let factor := Py.get (factor operation) 0.85 in
  if Py.ge factor 1.0 || Py.lt factor 0.80 then image else
  let height := height image in
  let width := width image in
  let nose_center_x := (width / 2)%Z in
  let nose_tip_y := Py.int (inject_Z height * 0.45) in
  let tip_width := Py.int (inject_Z width * 0.08) in
  let tip_height := Py.int (inject_Z height * 0.10) in
  let src_points := box nose_center_x nose_tip_y tip_width tip_height in
  let new_tip_width := Py.int (inject_Z tip_width * factor) in
  if (new_tip_width >=? tip_width)%Z then image else
  let dst_points := box nose_center_x nose_tip_y new_tip_width tip_height in
  perspective_blend image
    (Ellipse (nose_center_x, nose_tip_y)
             (new_tip_width / 2 + 5, tip_height / 2 + 5)%Z)
    13 src_points dst_points.

Definition _refine_nose_bridge (image : Image) (operation : Operation)
    : Image :=
  let factor := Py.get (factor operation) 0.90 in
  if Py.ge factor 1.0 || Py.lt factor 0.85 then image else
  let height := height image in
  let width := width image in
  let nose_center_x := (width / 2)%Z in
  let bridge_y := Py.int (inject_Z height * 0.28) in
  let bridge_width := Py.int (inject_Z width * 0.10) in
  let bridge_height := Py.int (inject_Z height * 0.12) in
  let src_points := box nose_center_x bridge_y bridge_width bridge_height in
  let new_bridge_width := Py.int (inject_Z bridge_width * factor) in
  if (new_bridge_width >=? bridge_width)%Z then image else
  let dst_points := box nose_center_x bridge_y new_bridge_width bridge_height in
  perspective_blend image
    (Ellipse (nose_center_x, bridge_y)
             (new_bridge_width / 2 + 4, bridge_height / 2 + 4)%Z)
    11 src_points dst_points.

(** The quadrilateral with the columns [left], [right] and the rows
    [top], [bottom], in the corner order of the code. *)
Definition quad (left right top bottom : Q) : list (Q * Q) :=
  [ (left, top); (right, top); (right, bottom); (left, bottom) ].

Definition _balance_jaw (image : Image) (operation : Operation) : Image :=
  let mm_correction := Py.get (mm operation) 0 in
  if Py.eq mm_correction 0 || Py.gt mm_correction 2.0 then image else
  let height := height image in
  let width := width image in
  let face_width_estimate := inject_Z width * 0.6 in
  let pixel_correction := Py.int (mm_correction * face_width_estimate / 100) in
  if (Z.abs pixel_correction <? 2)%Z then image else
  let jaw_y := Py.int (inject_Z height * 0.7) in
  let jaw_height := Py.int (inject_Z height * 0.2) in
  let jaw_center_x := (width / 2)%Z in
  let jaw_side_width := Py.int (inject_Z width * 0.2) in
  let '(jaw_left, jaw_right) :=
    if (pixel_correction >? 0)%Z
    then (jaw_center_x, Py.minZ (jaw_center_x + jaw_side_width) width)
    else (Py.maxZ 0 (jaw_center_x - jaw_side_width), jaw_center_x) in
  let src_points :=
    quad (inject_Z jaw_left) (inject_Z jaw_right)
         (inject_Z jaw_y) (inject_Z (jaw_y + jaw_height)) in
  let shift := inject_Z (Z.abs pixel_correction) * 0.7 in
  let dst_points :=
    if (pixel_correction >? 0)%Z
    then quad (inject_Z jaw_left + shift) (inject_Z jaw_right - shift)
              (inject_Z jaw_y) (inject_Z (jaw_y + jaw_height))
    else quad (inject_Z jaw_left - shift) (inject_Z jaw_right + shift)
              (inject_Z jaw_y) (inject_Z (jaw_y + jaw_height)) in
  perspective_blend image (Polygon (astype_int src_points)) 21
    src_points dst_points.

Definition _improve_symmetry (image : Image) (operation : Operation)
    : Image :=
  let amount := Py.get (amount operation) 0 in
  if Py.eq amount 0 || Py.gt amount 0.15 then image else
  let height := height image in
  let width := width image in
  let face_center_x := (width / 2)%Z in
  let face_center_y := (height / 2)%Z in
  let face_region_width := Py.int (inject_Z width * 0.6) in
  let face_region_height := Py.int (inject_Z height * 0.7) in
  let inner_left :=
    Py.int (inject_Z face_center_x - inject_Z face_region_width * 0.25) in
  let inner_right :=
    Py.int (inject_Z face_center_x + inject_Z face_region_width * 0.25) in
  if (inner_left >? 0)%Z && (inner_right <? width)%Z then
    let blend_strength := Py.min (amount * 0.4) 0.2 in
    mirror_blend image
      (Ellipse (face_center_x, face_center_y)
               (face_region_width / 2, face_region_height / 2)%Z)
      25 inner_left inner_right blend_strength
  else image.

Definition _enhance_chin (image : Image) (operation : Operation) : Image :=
  let amount := Py.get (amount operation) 0 in
  if Py.eq amount 0 || Py.gt amount 0.2 then image else
  let height := height image in
  let width := width image in
  let chin_start_y := Py.int (inject_Z height * 0.75) in
  let chin_height := Py.int (inject_Z height * 0.15) in
  let chin_center_x := (width / 2)%Z in
  let chin_width := Py.int (inject_Z width * 0.4) in
  let src_points :=
    [ pt (chin_center_x - chin_width / 2) chin_start_y;
      pt (chin_center_x + chin_width / 2) chin_start_y;
      pt (chin_center_x + chin_width / 2) (chin_start_y + chin_height);
      pt (chin_center_x - chin_width / 2) (chin_start_y + chin_height) ]%Z in
  let stretch_y := Py.int (inject_Z chin_height * amount * 0.5) in
  if (stretch_y <? 1)%Z then image else
  let dst_points :=
    [ pt (chin_center_x - chin_width / 2) chin_start_y;
      pt (chin_center_x + chin_width / 2) chin_start_y;
      pt (chin_center_x + chin_width / 2) (chin_start_y + chin_height + stretch_y);
      pt (chin_center_x - chin_width / 2) (chin_start_y + chin_height + stretch_y) ]%Z in
  perspective_blend image (Polygon (astype_int dst_points)) 15
    src_points dst_points.

(** [upper_start], [upper_end] and the [face_height] argument are never
    read. *)
Definition _adjust_upper_third (image : Image) (deviation : Q) : Image :=
  let height := height image in
  let width := width image in
  let max_botox_effect := 0.02 in
  if Py.gt (Py.abs deviation) max_botox_effect then image else
  if Py.lt (Py.abs deviation) 0.01 then image else
  let brow_lift_y := Py.int (inject_Z height * 0.25) in
  let lift_amount := Py.int (Py.abs deviation * inject_Z height * 0.3) in
  if (lift_amount <? 1)%Z then image else
  let brow_region_height := Py.int (inject_Z height * 0.08) in
  translate_blend image
    (Rectangle (0, brow_lift_y - brow_region_height / 2)
               (width, brow_lift_y + brow_region_height / 2))%Z
    15 (- lift_amount)%Z 0.4.

Definition _adjust_middle_third (image : Image) (deviation : Q) : Image :=
  let height := height image in
  let width := width image in
  let middle_start := Py.int (inject_Z height * 0.33) in
  let middle_end := Py.int (inject_Z height * 0.66) in
  if Py.lt (Py.abs deviation) 0.02 then image else
  let center_x := (width / 2)%Z in
  let cheek_width := Py.int (inject_Z width * 0.35) in
  let cheek_center_y := ((middle_start + middle_end) / 2)%Z in
  if Py.gt deviation 0 then
    let src_points :=
      [ pt (center_x - cheek_width / 2) middle_start;
        pt (center_x + cheek_width / 2) middle_start;
        pt (center_x + cheek_width / 2) middle_end;
        pt (center_x - cheek_width / 2) middle_end ]%Z in
    let projection := Py.int (Py.abs deviation * inject_Z width * 0.15) in
    let dst_points :=
      [ pt (center_x - cheek_width / 2 - projection / 3) middle_start;
        pt (center_x + cheek_width / 2 + projection / 3) middle_start;
        pt (center_x + cheek_width / 2 + projection / 4) middle_end;
        pt (center_x - cheek_width / 2 - projection / 4) middle_end ]%Z in
    perspective_blend image
      (Ellipse (center_x, cheek_center_y)
               (cheek_width / 2 + 10, (middle_end - middle_start) / 2 + 5)%Z)
      23 src_points dst_points
  else image.

Definition _adjust_lower_third (image : Image) (deviation : Q) : Image :=
  let height := height image in
  let width := width image in
  let lower_start := Py.int (inject_Z height * 0.66) in
  let lower_end := height in
  let lower_height := (lower_end - lower_start)%Z in
  if Py.lt (Py.abs deviation) 0.02 then image else
  let stretch_factor := 1.0 + deviation * 0.6 in
  let new_height := Py.int (inject_Z lower_height * stretch_factor) in
  if (Z.abs (new_height - lower_height) <? 3)%Z then image else
  let src_points :=
    [ pt 0 lower_start; pt width lower_start;
      pt width lower_end; pt 0 lower_end ] in
  let new_end := Py.minZ (lower_start + new_height) height in
  let dst_points :=
    [ pt 0 lower_start; pt width lower_start;
      pt width new_end; pt 0 new_end ] in
  perspective_blend image (Polygon (astype_int dst_points)) 23
    src_points dst_points.

Definition _adjust_facial_third (image : Image) (operation : Operation)
    : Image :=
  let op_type := Py.get (type operation) EmptyString in
  let current := Py.get (current operation) 0 in
  let target := Py.get (target operation) 0 in
  let deviation := target - current in
  if Py.lt (Py.abs deviation) 0.01 then image else
  if Py.contains "upper" op_type then _adjust_upper_third image deviation
  else if Py.contains "middle" op_type then _adjust_middle_third image deviation
  else if Py.contains "lower" op_type then _adjust_lower_third image deviation
  else image.

(** The checks after the dispatch only print. *)
Definition _apply_single_operation (image : Image) (operation : Operation)
    : Image :=
  let region := Py.get (region operation) EmptyString in
  let op_type := Py.get (type operation) EmptyString in
  if (region =? "nose")%string && (op_type =? "shrink_width")%string then
    _shrink_nose_width image operation
  else if (region =? "nose")%string && (op_type =? "refine_tip")%string then
    _refine_nose_tip image operation
  else if (region =? "nose")%string && (op_type =? "refine_bridge")%string then
    _refine_nose_bridge image operation
  else if (region =? "jaw")%string && (op_type =? "balance")%string then
    _balance_jaw image operation
  else if (region =? "face")%string && (op_type =? "symmetry")%string then
    _improve_symmetry image operation
  else if (region =? "chin")%string && (op_type =? "enhance")%string then
    _enhance_chin image operation
  else if (region =? "face")%string && Py.contains "third" op_type then
    _adjust_facial_third image operation
  else image.

(** [self.upload_dir / f"after_{original_name}.jpg"], as a string. *)
Definition output_path_of (original_path : string) : string :=
  ("uploads/after_" ++ stem original_path ++ ".jpg")%string.

Definition _save_processed_image (files : Files Image) (image : Image)
    (original_path : string) : string * Files Image :=
  let output_path := output_path_of original_path in
  (output_path, write files output_path (jpeg image)).

(** [apply_operations] reads and writes image files: the files are
    passed in and returned.  The debug output and the pixel statistics
    it prints are left out. *)
Definition apply_operations (files : Files Image) (image_path : string)
    (operations : list Operation) : option string * Files Image :=
  match operations with
  | [] => (None, files)
  | _ :: _ =>
      match files image_path with
      | None => (None, files)
      | Some image =>
          let processed_image :=
            fold_left _apply_single_operation operations image in
          let '(output_path, files) :=
            _save_processed_image files processed_image image_path in
          (Some output_path, files)
      end
  end.
End Renderers.

End ImageProcessor.

(** ** [face_analysis.py]: the control flow of [analyze_face] *)

Module FaceAnalyzer.

(** What the analyzer takes from MediaPipe and NumPy: the face mesh of
    an image ([None] when [multi_face_landmarks] is empty) and the
    measurement dict computed from the landmarks by norms and means. *)
Class FaceMesh (Image Landmarks : Type) : Type := {
  process : Image -> option Landmarks;
  _calculate_measurements : Landmarks -> N * N -> Measurements
}.

Section AnalyzeFace.
Context {Image Landmarks : Type}.
Context {cv : ImageProcessor.Cv2 Image} {mesh : FaceMesh Image Landmarks}.

Definition analyze_face (files : ImageProcessor.Files Image)
    (image_path : string) : option Landmarks * Measurements :=
  match files image_path with
  | None => (None, mkMeasurements None None None None None)
  | Some image =>
      match process image with
      | None => (None, mkMeasurements None None None None None)
      | Some landmarks =>
          (Some landmarks,
           _calculate_measurements landmarks (ImageProcessor.shape image))
      end
  end.
End AnalyzeFace.

End FaceAnalyzer.

(** ** [main.py]: the [/analyze] endpoint *)

Module Main.

(** The exceptions the body of the endpoint can raise. *)
Inductive Exception : Type :=
| HTTPException (status_code : Z) (detail : string)
| AttributeError
| KeyError (key : string)
| OSError (path : string).

(** The uploaded file: its declared content type ([None] when the
    client sent none), its name, and what [cv2.imread] makes of its
    bytes. *)
Record UploadFile (Image : Type) : Type := mkUploadFile {
  content_type : option string;
  filename : string;
  file : option Image
}.

Arguments content_type {Image} _.
Arguments filename {Image} _.
Arguments file {Image} _.

Module AnalyzeResponse.
Record t : Type := mk {
  symmetry_score : Q;
  facial_harmony_score : Z;
  measurements : Measurements;
  recommendations : list string;
  operations : list Operation;
  before_url : option string;
  after_url : option string
}.
End AnalyzeResponse.

(** [Path(p).name]: the part after the last slash. *)
Fixpoint path_name_from (rest : string) (p : string) : string :=
  match p with
  | EmptyString => rest
  | String c p' =>
      if Ascii.eqb c "/"%char then path_name_from p' p'
      else path_name_from rest p'
  end.

Definition path_name (p : string) : string := path_name_from p p.

(** [str(UPLOAD_DIR / name)] and [f"/uploads/{name}"], for a name
    without path separators. *)
Definition upload_path (name : string) : string := ("uploads/" ++ name)%string.
Definition upload_url (name : string) : string := ("/uploads/" ++ name)%string.

(** The files as [cv2.imread] sees them after a write, an unlink and a
    rename. *)
Definition store {Image : Type} (files : ImageProcessor.Files Image)
    (path : string) (content : option Image) : ImageProcessor.Files Image :=
  fun p => if String.eqb p path then content else files p.

Definition unlink {Image : Type} (files : ImageProcessor.Files Image)
    (path : string) : ImageProcessor.Files Image :=
  store files path None.

Definition rename {Image : Type} (files : ImageProcessor.Files Image)
    (old new : string) : ImageProcessor.Files Image :=
  fun p => if String.eqb p new then files old
           else if String.eqb p old then None
           else files p.

Section AnalyzeFace.
Context {Image Landmarks : Type}.
Context {cv : ImageProcessor.Cv2 Image}.
Context {mesh : FaceAnalyzer.FaceMesh Image Landmarks}.
Variable fmt_1f : Q -> string.
Variable fmt_pct : Q -> string.

(** [str(e)], as the handler formats it. *)
Variable str_exception : Exception -> string.

(** Whether a file can be created at a path.  [open(file_path, "wb")]
    and [os.rename(..., new)] raise an [OSError] when it cannot: the
    directory of the path is missing, as for an upload whose name holds
    a path separator, or it cannot be written. *)
Variable can_create : string -> bool.

(** The body of the [try] block: what it returns or raises, the files
    it leaves, and whether [file_path] was bound when it ended. *)
Definition analyze_face_try (files : ImageProcessor.Files Image)
    (upload : UploadFile Image)
    : (AnalyzeResponse.t + Exception) * ImageProcessor.Files Image * bool :=
  match content_type upload with
  | None => (inr AttributeError, files, false)
  | Some declared =>
      if negb (String.prefix "image/" declared) then
        (inr (HTTPException 400 "File must be an image"), files, false)
      else
        let file_path := upload_path ("temp_" ++ filename upload) in
        if negb (can_create file_path) then
          (inr (OSError file_path), files, true)
        else
        let files := store files file_path (file upload) in
        let '(landmarks, measurements) :=
          FaceAnalyzer.analyze_face files file_path in
        match landmarks with
        | None =>
            (inr (HTTPException 400 "No face detected in image"), files, true)
        | Some _ =>
            let operations := BeautyRulesEngine.plan_changes measurements in
            let recommendations :=
              BeautyRulesEngine.get_readable_recommendations
                fmt_1f fmt_pct operations in
            let facial_harmony_score :=
              BeautyRulesEngine.calculate_harmony_score
                measurements operations in
            let '(after_path, after_url, files) :=
              match operations with
              | [] => (None, None, files)
              | _ :: _ =>
                  let '(after_path, files) :=
                    ImageProcessor.apply_operations files file_path operations in
                  match after_path with
                  | Some p =>
                      if negb (String.eqb p EmptyString)
                      then (after_path, Some (upload_url (path_name p)), files)
                      else (after_path, None, files)
                  | None => (None, None, files)
                  end
              end in
            let before_url := upload_url (path_name file_path) in
            let before_path := upload_path ("before_" ++ filename upload) in
            let moved :=
              match after_path with
              | Some p =>
                  if negb (String.eqb p EmptyString)
                     && negb (String.eqb p file_path)
                  then
                    if can_create before_path
                    then inl (upload_url ("before_" ++ filename upload),
                              rename files file_path before_path)
                    else inr (OSError before_path)
                  else inl (before_url, files)
              | None => inl (before_url, files)
              end in
            match moved with
            | inr e => (inr e, files, true)
            | inl (before_url, files) =>
                match symmetry_score measurements with
                | None => (inr (KeyError "symmetry_score"), files, true)
                | Some symmetry =>
                    (inl (AnalyzeResponse.mk symmetry facial_harmony_score
                            measurements recommendations operations
                            (Some before_url) after_url),
                     files, true)
                end
            end
        end
  end.

(** The endpoint: the [except Exception] handler removes the temporary
    file when [file_path] is bound and it exists, and raises a 500 for
    whatever was raised.  [cv2.imwrite] is taken to succeed, as in
    [ImageProcessor]. *)
Definition analyze_face (files : ImageProcessor.Files Image)
    (upload : UploadFile Image)
    : (AnalyzeResponse.t + Exception) * ImageProcessor.Files Image :=
  let '(result, files, bound) := analyze_face_try files upload in
  match result with
  | inl response => (inl response, files)
  | inr e =>
      let files :=
        if bound
        then unlink files (upload_path ("temp_" ++ filename upload))
        else files in
      (inr (HTTPException 500
              ("Analysis failed: " ++ str_exception e)), files)
  end.
End AnalyzeFace.

End Main.

Import BeautyRulesEngine.

(** ** Vocabulary of the statements *)

(** Order by sort key, and the test for one key. *)
Definition key_le {A : Type} (key : A -> Z) (a b : A) : Prop :=
  (key a <= key b)%Z.

Definition has_key {A : Type} (key : A -> Z) (p : Z) (a : A) : bool :=
  (key a =? p)%Z.

(** Operations of one region, and of one type. *)
Definition in_region (r : string) (op : Operation) : bool :=
  String.eqb (Py.get (region op) EmptyString) r.

Definition of_type (t : string) (op : Operation) : bool :=
  String.eqb (Py.get (type op) EmptyString) t.

(** What each tier of the planner emits on its own. *)
Definition symmetry_ops (m : Measurements) : list Operation := plan_symmetry m [].
Definition nose_ops (m : Measurements) : list Operation := plan_nose m [].
Definition jaw_ops (m : Measurements) : list Operation := plan_jaw m [].
Definition chin_ops (m : Measurements) : list Operation := plan_chin m [].
Definition thirds_ops (m : Measurements) : list Operation := plan_thirds m [].

(** The measurement dict with the key ["symmetry_score"] set. *)
Definition with_symmetry (m : Measurements) (s : Q) : Measurements :=
  mkMeasurements (Some s) (nose_to_ipd_ratio m) (jaw_asymmetry m)
    (chin_projection m) (facial_thirds m).

(** Measurement dicts used as test inputs. *)
Definition no_measurements : Measurements :=
  mkMeasurements None None None None None.

Definition ideal_thirds : FacialThirds :=
  mkFacialThirds (Some 0.33) (Some 0.33) (Some 0.34).

Definition scenario_A : Measurements :=
  mkMeasurements (Some 0.95) (Some 0.75) (Some 0) (Some 0) (Some ideal_thirds).

(** The measurement dict with every key present. *)
Definition measured (s r j c u mi lo : Q) : Measurements :=
  mkMeasurements (Some s) (Some r) (Some j) (Some c)
    (Some (mkFacialThirds (Some u) (Some mi) (Some lo))).

(** A facial-thirds operation as the planner writes it: one of the three
    thirds with its ideal, and a deviation beyond the tolerance. *)
Definition third_op (op : Operation) : Prop :=
  exists third_name cur ideal,
    op = op_third third_name cur ideal
    /\ In (third_name, ideal)
          [("upper", 0.33); ("middle", 0.33); ("lower", 0.34)]%string
    /\ 0.05 < Qabs (cur - ideal).

(** The score as the specification words it, for a record with the four
    scored keys present and [n] operations: five sub-scores, their
    weighted sum times 100, rounded, then clamped to [0, 100]. *)
Definition spec_enhancement (n : nat) : Q :=
  match n with
  | O => 1.0
  | 1%nat => 0.85
  | 2%nat => 0.70
  | _ => Qmax 0.5 (1.0 - inject_Z (Z.of_nat n - 2) * 0.1)
  end.

Definition spec_weighted_sum (s r j c : Q) (n : nat) : Q :=
  0.40 * s
  + 0.20 * Qmax 0 (1 - 2 * Qabs (r - 0.75) / 0.75)
  + 0.15 * Qmax 0 (1 - j / 10)
  + 0.10 * (if Qlt_le_dec 0 c then Qmin 1 (c / 20) else 0.7)
  + 0.15 * spec_enhancement n.

Definition clamp (lo hi x : Z) : Z := Z.max lo (Z.min hi x).

Definition spec_harmony_score (s r j c : Q) (n : nat) : Z :=
  clamp 0 100 (Py.round (100 * spec_weighted_sum s r j c n)).

(** A test double for the OpenCV pipelines: an image is its shape
    together with the calls made on it so far, with their geometry. *)
Inductive Call : Type :=
| CallPerspective (mask : ImageProcessor.MaskShape) (ksize : Z)
    (src dst : list (Q * Q))
| CallTranslate (mask : ImageProcessor.MaskShape) (ksize dy : Z) (strength : Q)
| CallMirror (mask : ImageProcessor.MaskShape)
    (ksize inner_left inner_right : Z) (blend_strength : Q)
| CallJpeg.

Record Traced : Type := mkTraced {
  traced_shape : N * N;
  calls : list Call
}.

Definition trace (image : Traced) (call : Call) : Traced :=
  mkTraced (traced_shape image) (calls image ++ [call]).

#[export] Instance traced_cv2 : ImageProcessor.Cv2 Traced := {|
  ImageProcessor.shape := traced_shape;
  ImageProcessor.perspective_blend image mask ksize src dst :=
    trace image (CallPerspective mask ksize src dst);
  ImageProcessor.translate_blend image mask ksize dy strength :=
    trace image (CallTranslate mask ksize dy strength);
  ImageProcessor.mirror_blend image mask ksize inner_left inner_right strength :=
    trace image (CallMirror mask ksize inner_left inner_right strength);
  ImageProcessor.jpeg image := trace image CallJpeg;
  ImageProcessor.stem path := path
|}.

(** A fresh image of 1000 rows and 1000 columns. *)
Definition photo : Traced := mkTraced (1000%N, 1000%N) [].

(** Operation dicts holding one parameter. *)
Definition with_factor (region type : string) (f : Q) : Operation :=
  mkOperation (Some region) (Some type) None (Some f) None None None None.

Definition with_mm (x : Q) : Operation :=
  mkOperation (Some "jaw"%string) (Some "balance"%string)
    None None (Some x) None None None.

Definition with_amount (region type : string) (a : Q) : Operation :=
  mkOperation (Some region) (Some type) (Some a) None None None None None.

(** What the specification says of one operation in the disclosure
    list: it has a sentence of its own, or it gives one phrase of the
    merged rhinoplasty sentence, or it is not disclosed. *)
Inductive Disclosure : Type :=
| OwnSentence (sentence : string)
| RhinoplastyPhrase (phrase : string)
| Undisclosed.

Section Disclosure.
Variable fmt_1f : Q -> string.
Variable fmt_pct : Q -> string.

Local Open Scope string_scope.

Definition disclosure (op : Operation) : Disclosure :=
  let r := Py.get (region op) EmptyString in
  let t := Py.get (type op) EmptyString in
  if r =? "nose" then
    if t =? "shrink_width" then
      RhinoplastyPhrase
        (text_shrink_width (Py.int ((1 - Py.get (factor op) 1.0) * 100)%Q))
    else if t =? "refine_tip" then RhinoplastyPhrase text_refine_tip
    else if t =? "refine_bridge" then RhinoplastyPhrase text_refine_bridge
    else Undisclosed
  else if r =? "face" then
    if t =? "symmetry" then
      let a := Py.get (amount op) 0%Q in
      OwnSentence
        (text_symmetry (if Py.gt a 0%Q then Py.int (a * 100)%Q else 0%Z))
    else if Py.contains "third" t then
      OwnSentence (third_caption fmt_1f fmt_pct op t)
    else Undisclosed
  else if (r =? "jaw") && (t =? "balance") then
    OwnSentence (text_jaw fmt_1f (Py.get (mm op) 0%Q))
  else if (r =? "chin") && (t =? "enhance") then
    OwnSentence (text_chin (Py.int (Py.get (amount op) 0 * 100)%Q))
  else Undisclosed.

Definition own_sentence (op : Operation) : list string :=
  match disclosure op with
  | OwnSentence sentence => [sentence]
  | _ => []
  end.

Definition rhinoplasty_phrase (op : Operation) : list string :=
  match disclosure op with
  | RhinoplastyPhrase phrase => [phrase]
  | _ => []
  end.

(** The sentences, and the phrases, of a list of operations, in list
    order. *)
Definition sentences (ops : list Operation) : list string :=
  flat_map own_sentence ops.

Definition phrases (ops : list Operation) : list string :=
  flat_map rhinoplasty_phrase ops.
End Disclosure.

(** The parameter windows of the planner's operations. *)
Definition symmetry_window (op : Operation) : Prop :=
  exists a, amount op = Some a /\ 0 < a /\ a <= 0.15.

Definition jaw_window (op : Operation) : Prop :=
  exists x, mm op = Some x /\ 1.0 < x /\ x <= 2.0.

Definition nose_window (op : Operation) : Prop :=
  exists f,
    factor op = Some f
    /\ ((of_type "shrink_width" op = true /\ 0.70 <= f /\ f < 1.0)
        \/ (of_type "refine_tip" op = true /\ 0.80 <= f /\ f < 1.0)
        \/ (of_type "refine_bridge" op = true /\ 0.85 <= f /\ f < 1.0)).

(** An operation whose region no branch of the code names. *)
Definition unknown_region (op : Operation) : Prop :=
  let r := Py.get (region op) EmptyString in
  r <> "face"%string /\ r <> "nose"%string
  /\ r <> "jaw"%string /\ r <> "chin"%string.

(** An operation dict with a region and a type only. *)
Definition bare (region type : string) : Operation :=
  mkOperation (Some region) (Some type) None None None None None None.

(** The measurement dict with the key ["jaw_asymmetry"] set. *)
Definition with_jaw (m : Measurements) (j : Q) : Measurements :=
  mkMeasurements (symmetry_score m) (nose_to_ipd_ratio m) (Some j)
    (chin_projection m) (facial_thirds m).

(** A small image of 50 rows and 50 columns. *)
Definition thumbnail : Traced := mkTraced (50%N, 50%N) [].

(** A record with an asymmetric face and jaw. *)
Definition asymmetric : Measurements :=
  mkMeasurements (Some 0.7) (Some 0.75) (Some 3) (Some 0) None.

(** A test double for the face mesh: a face is found in every image
    that has rows, and its measurements are those of scenario A. *)
#[export] Instance traced_mesh : FaceAnalyzer.FaceMesh Traced unit := {|
  FaceAnalyzer.process image :=
    match fst (traced_shape image) with
    | 0%N => None
    | _ => Some tt
    end;
  FaceAnalyzer._calculate_measurements _ _ := scenario_A
|}.

(** Uploads used as test inputs. *)
Definition portrait : Main.UploadFile Traced :=
  Main.mkUploadFile Traced (Some "image/jpeg"%string) "face.jpg"%string
    (Some photo).

Definition document : Main.UploadFile Traced :=
  Main.mkUploadFile Traced (Some "application/pdf"%string) "cv.pdf"%string
    None.

Definition no_files : ImageProcessor.Files Traced := fun _ => None.

(** The path of the temporary copy of an upload. *)
Definition temp_path {Image : Type} (upload : Main.UploadFile Image) : string :=
  Main.upload_path ("temp_" ++ Main.filename upload).

(** The path an upload is renamed to once it is served. *)
Definition before_path {Image : Type} (upload : Main.UploadFile Image) : string :=
  Main.upload_path ("before_" ++ Main.filename upload).

(** The files once a face was found in the upload [image] and the plan
    for [m] was rendered, before the temporary copy is renamed. *)
Definition rendered {Image : Type} {cv : ImageProcessor.Cv2 Image}
    (files : ImageProcessor.Files Image) (upload : Main.UploadFile Image)
    (image : Image) (m : Measurements) : ImageProcessor.Files Image :=
  ImageProcessor.write (Main.store files (temp_path upload) (Some image))
    (ImageProcessor.output_path_of (temp_path upload))
    (ImageProcessor.jpeg
       (fold_left ImageProcessor._apply_single_operation
          (plan_changes m) image)).

(** A file system where every file can be created, and one where no
    file can. *)
Definition writable : string -> bool := fun _ => true.
Definition read_only : string -> bool := fun _ => false.

(** The files once a face was found in the upload [image] and the plan
    for [m] was rendered: the output is written and the temporary copy
    is renamed. *)
Definition served {Image : Type} {cv : ImageProcessor.Cv2 Image}
    (files : ImageProcessor.Files Image) (upload : Main.UploadFile Image)
    (image : Image) (m : Measurements) : ImageProcessor.Files Image :=
  Main.rename
    (ImageProcessor.write (Main.store files (temp_path upload) (Some image))
       (ImageProcessor.output_path_of (temp_path upload))
       (ImageProcessor.jpeg
          (fold_left ImageProcessor._apply_single_operation
             (plan_changes m) image)))
    (temp_path upload)
    (Main.upload_path ("before_" ++ Main.filename upload)).

(** ** Vocabulary of the binary64 statements *)

Module Binary64Spec.
Import Binary64 Binary64.BeautyRulesEngine.

Local Open Scope float_scope.

(** Operations of one region. *)
Definition in_region (r : string) (op : Operation) : bool :=
  String.eqb (Py.get (region op) EmptyString) r.

(** What each tier of the planner emits on its own. *)
Definition symmetry_ops (m : Measurements) : list Operation := plan_symmetry m [].
Definition nose_ops (m : Measurements) : list Operation := plan_nose m [].
Definition jaw_ops (m : Measurements) : list Operation := plan_jaw m [].
Definition chin_ops (m : Measurements) : list Operation := plan_chin m [].
Definition thirds_ops (m : Measurements) : list Operation := plan_thirds m [].

(** The operation dicts as the specification lists their keys. *)
Definition symmetry_operation (delta : float) : Operation :=
  {| region := Some "face"%string; type := Some "symmetry"%string;
     amount := Some delta; factor := None; mm := None;
     current := None; target := None; priority := Some 1%Z |}.

Definition nose_operation (kind : string) (f : float) : Operation :=
  {| region := Some "nose"%string; type := Some kind;
     amount := None; factor := Some f; mm := None;
     current := None; target := None; priority := Some 2%Z |}.

Definition jaw_operation (correction : float) : Operation :=
  {| region := Some "jaw"%string; type := Some "balance"%string;
     amount := None; factor := None; mm := Some correction;
     current := None; target := None; priority := Some 3%Z |}.

Definition chin_operation (a : float) : Operation :=
  {| region := Some "chin"%string; type := Some "enhance"%string;
     amount := Some a; factor := None; mm := None;
     current := None; target := None; priority := Some 4%Z |}.

Definition third_operation (kind : string) (cur ideal : float) : Operation :=
  {| region := Some "face"%string; type := Some kind;
     amount := None; factor := None; mm := None;
     current := Some cur; target := Some ideal; priority := Some 5%Z |}.

(** An operation as the planner can write it. *)
Inductive planner_written : Operation -> Prop :=
| written_symmetry delta : planner_written (symmetry_operation delta)
| written_shrink_width f : planner_written (nose_operation "shrink_width" f)
| written_refine_tip f : planner_written (nose_operation "refine_tip" f)
| written_refine_bridge f : planner_written (nose_operation "refine_bridge" f)
| written_jaw correction : planner_written (jaw_operation correction)
| written_chin a : planner_written (chin_operation a)
| written_upper cur ideal :
    planner_written (third_operation "adjust_upper_third" cur ideal)
| written_middle cur ideal :
    planner_written (third_operation "adjust_middle_third" cur ideal)
| written_lower cur ideal :
    planner_written (third_operation "adjust_lower_third" cur ideal).

(** The measurement dict with every key present. *)
Definition measured (s r j c u mi lo : float) : Measurements :=
  mkMeasurements (Some s) (Some r) (Some j) (Some c)
    (Some (mkFacialThirds (Some u) (Some mi) (Some lo))).

(** A record whose nose is 15% wider than the ideal in decimal
    arithmetic, and one whose lower third is 0.05 under its ideal. *)
Definition wide_nose : Measurements :=
  measured 0.95 0.8625 0 0 0.33 0.33 0.34.

Definition short_lower_third : Measurements :=
  measured 0.95 0.75 0 0 0.33 0.33 0.29.

(** All fields near ideal, every comparison and every deviation
    computed in binary64 as the planner computes it: symmetry at least
    0.9, nose ratio within [0.85 * 0.75, 0.75], jaw asymmetry at most
    1.0, chin projection outside (0, 20), every third within 0.05 of its
    ideal. *)
Definition near_ideal (s r j c u mi lo : float) : Prop :=
  (0.9 <=? s) = true
  /\ ((0.85 * 0.75 <=? r) = true /\ (r <=? 0.75) = true)
  /\ (j <=? 1.0) = true
  /\ ~ ((0 <? c) = true /\ (c <? 20) = true)
  /\ (PrimFloat.abs (u - 0.33) <=? 0.05) = true
  /\ (PrimFloat.abs (mi - 0.33) <=? 0.05) = true
  /\ (PrimFloat.abs (lo - 0.34) <=? 0.05) = true.

(** The disclosure of a planned list, as the specification words it. *)
Section Disclosure.
Variable fmt_1f : float -> string.
Variable fmt_pct : float -> string.

Local Open Scope string_scope.

(** An integer in decimal, as an f-string prints it. *)
Definition decimal (n : Z) : string := NilZero.string_of_int (Z.to_int n).

(** The arrow U+2192, in UTF-8 and between two spaces, that stands
    between the current and the target share of a third. *)
Definition becomes : string :=
  String " "
    (String (ascii_of_nat 226)
       (String (ascii_of_nat 134) (String (ascii_of_nat 146) " "))).

(** The sentence or the phrase of one planned operation. *)
Definition disclosure (op : Operation) : Disclosure :=
  let r := Py.get (region op) EmptyString in
  let t := Py.get (type op) EmptyString in
  let cur := Py.get (current op) 0%float in
  let tgt := Py.get (target op) 0%float in
  if r =? "nose" then
    if t =? "shrink_width" then
      RhinoplastyPhrase
        (decimal (Py64.int ((1 - Py.get (factor op) 1.0) * 100)%float)
         ++ "% overall nasal width reduction")
    else if t =? "refine_tip" then
      RhinoplastyPhrase "nasal tip refinement and definition"
    else if t =? "refine_bridge" then
      RhinoplastyPhrase "nasal bridge narrowing"
    else Undisclosed
  else if (r =? "face") && (t =? "symmetry") then
    let a := Py.get (amount op) 0%float in
    OwnSentence
      ("Facial Symmetry Correction: Balance left/right facial features ("
       ++ decimal (if (0 <? a)%float then Py64.int (a * 100)%float else 0%Z)
       ++ "% AI-enhanced symmetry adjustment) - improves overall facial harmony")
  else if (r =? "jaw") && (t =? "balance") then
    OwnSentence
      ("Jawline Contouring: Correct jaw asymmetry ("
       ++ fmt_1f (Py.get (mm op) 0%float)
       ++ "mm lateral adjustment) - improves facial symmetry and balance")
  else if (r =? "chin") && (t =? "enhance") then
    OwnSentence
      ("Chin Enhancement: Increase chin projection ("
       ++ decimal (Py64.int (Py.get (amount op) 0 * 100)%float)
       ++ "% forward projection) - improves profile definition")
  else if (r =? "face") && (t =? "adjust_upper_third") then
    if (PrimFloat.abs (tgt - cur) <=? 0.02)%float then
      OwnSentence
        ("Upper Third Optimization: Minimal Botox brow lift effect ("
         ++ fmt_pct cur ++ becomes ++ fmt_pct tgt ++ ", ~"
         ++ fmt_1f (PrimFloat.abs (tgt - cur) * 100)%float
         ++ "% change) - very subtle, Botox can only lift brows 1-3mm maximum")
    else
      OwnSentence
        ("Upper Third Optimization: Requires surgical brow lift or forehead reduction ("
         ++ fmt_pct cur ++ becomes ++ fmt_pct tgt
         ++ ") - beyond Botox capability, would need surgery")
  else if (r =? "face") && (t =? "adjust_middle_third") then
    OwnSentence
      ("Middle Third Enhancement: Cheek/midface augmentation with dermal fillers ("
       ++ fmt_pct cur ++ becomes ++ fmt_pct tgt ++ ", ~"
       ++ fmt_1f (PrimFloat.abs (tgt - cur) * 100)%float
       ++ "% change) - adds volume and forward projection to midface (NOT achievable with Botox alone)")
  else if (r =? "face") && (t =? "adjust_lower_third") then
    OwnSentence
      ("Lower Third Optimization: Combined jaw and chin contouring ("
       ++ fmt_pct cur ++ becomes ++ fmt_pct tgt
       ++ ") - complements existing chin enhancement procedures")
  else Undisclosed.

Definition own_sentence (op : Operation) : list string :=
  match disclosure op with
  | OwnSentence sentence => [sentence]
  | _ => []
  end.

Definition rhinoplasty_phrase (op : Operation) : list string :=
  match disclosure op with
  | RhinoplastyPhrase phrase => [phrase]
  | _ => []
  end.

(** The sentences, and the phrases, of a list of operations, in list
    order. *)
Definition sentences (ops : list Operation) : list string :=
  flat_map own_sentence ops.

Definition phrases (ops : list Operation) : list string :=
  flat_map rhinoplasty_phrase ops.

(** How an operation is disclosed, by its region: a nose operation as
    a phrase, any other as a sentence. *)
Definition disclosed_by_region (op : Operation) : Prop :=
  if in_region "nose" op
  then exists phrase, disclosure op = RhinoplastyPhrase phrase
  else exists sentence, disclosure op = OwnSentence sentence.
End Disclosure.

(** The items of a list, separated by a comma and a space. *)
Fixpoint comma_separated (items : list string) : string :=
  match items with
  | [] => EmptyString
  | [item] => item
  | item :: rest => (item ++ ", " ++ comma_separated rest)%string
  end.

(** The merged sentence of the nose operations. *)
Definition rhinoplasty_sentence (phrases : list string) : string :=
  ("Comprehensive Rhinoplasty: " ++ comma_separated phrases
   ++ " - creates more refined, elegant nasal proportions for enhanced facial harmony")%string.

(** One string is a part of another. *)
Definition occurs_in (part whole : string) : Prop :=
  exists before after, whole = (before ++ part ++ after)%string.

End Binary64Spec.

(** * Properties *)

(** ** The built-ins *)

Section PyFacts.

Lemma lt_true (x y : Q) : Py.lt x y = true <-> x < y.
Proof.
  unfold Py.lt. rewrite negb_true_iff.
  split; intro H.
  - apply Qnot_le_lt. intro Hle. apply Qle_bool_iff in Hle. congruence.
  - destruct (Qle_bool y x) eqn:E; [|reflexivity].
    apply Qle_bool_iff in E. exfalso. exact (Qlt_not_le _ _ H E).
Qed.

Lemma lt_false (x y : Q) : Py.lt x y = false <-> y <= x.
Proof.
  unfold Py.lt. rewrite negb_false_iff. apply Qle_bool_iff.
Qed.

Lemma gt_true (x y : Q) : Py.gt x y = true <-> y < x.
Proof. apply lt_true. Qed.

Lemma gt_false (x y : Q) : Py.gt x y = false <-> x <= y.
Proof. apply lt_false. Qed.

Lemma le_true (x y : Q) : Py.le x y = true <-> x <= y.
Proof. apply Qle_bool_iff. Qed.

Lemma ge_true (x y : Q) : Py.ge x y = true <-> y <= x.
Proof. apply Qle_bool_iff. Qed.

Lemma ge_false (x y : Q) : Py.ge x y = false <-> x < y.
Proof.
  unfold Py.ge. split; intro H.
  - apply Qnot_le_lt. intro Hle. apply Qle_bool_iff in Hle. congruence.
  - destruct (Qle_bool y x) eqn:E; [|reflexivity].
    apply Qle_bool_iff in E. exfalso. exact (Qlt_not_le _ _ H E).
Qed.

Lemma eq_true (x y : Q) : Py.eq x y = true <-> x == y.
Proof. apply Qeq_bool_iff. Qed.

(** [int] is monotone. *)
Lemma int_floor (x : Q) : 0 <= x -> Py.int x = Qfloor x.
Proof.
  destruct x as [n d]. unfold Qle, Py.int, Qfloor. simpl. intro H.
  apply Z.quot_div_nonneg; lia.
Qed.

Lemma int_ceiling (x : Q) : x <= 0 -> Py.int x = Qceiling x.
Proof.
  destruct x as [n d]. unfold Qle, Py.int, Qceiling, Qfloor. simpl. intro H.
  rewrite <- (Z.opp_involutive n) at 1.
  rewrite Z.quot_opp_l by lia.
  f_equal. apply Z.quot_div_nonneg; lia.
Qed.

Lemma int_monotone (x y : Q) : x <= y -> (Py.int x <= Py.int y)%Z.
Proof.
  intro H.
  destruct (Qlt_le_dec x 0) as [Hx|Hx]; destruct (Qlt_le_dec y 0) as [Hy|Hy].
  - rewrite !int_ceiling by (apply Qlt_le_weak; assumption).
    apply Qceiling_resp_le; assumption.
  - rewrite int_ceiling by (apply Qlt_le_weak; assumption).
    rewrite int_floor by assumption.
    apply Z.le_trans with 0%Z.
    + change 0%Z with (Qceiling 0). apply Qceiling_resp_le.
      apply Qlt_le_weak; assumption.
    + change 0%Z with (Qfloor 0). apply Qfloor_resp_le; assumption.
  - exfalso. apply (Qlt_irrefl 0).
    apply Qle_lt_trans with y; [|assumption].
    apply Qle_trans with x; assumption.
  - rewrite !int_floor by assumption. apply Qfloor_resp_le; assumption.
Qed.

End PyFacts.

(** The modelled sort orders by key, permutes, and is stable. *)
Section SortFacts.
Context {A : Type} (key : A -> Z).

Lemma insert_perm (x : A) (l : list A) :
  Permutation (x :: l) (Py.insert key x l).
Proof.
  induction l as [|y l IH]; simpl.
  - apply Permutation_refl.
  - destruct (key x <=? key y)%Z.
    + apply Permutation_refl.
    + eapply perm_trans; [apply perm_swap|].
      apply perm_skip. exact IH.
Qed.

Lemma sort_perm (l : list A) : Permutation l (Py.sort key l).
Proof.
  induction l as [|x l IH]; simpl.
  - apply perm_nil.
  - eapply perm_trans; [apply perm_skip; exact IH|]. apply insert_perm.
Qed.

Lemma insert_sorted (x : A) (l : list A) :
  StronglySorted (key_le key) l -> StronglySorted (key_le key) (Py.insert key x l).
Proof.
  induction 1 as [|y l Hs IH Hall]; simpl.
  - constructor; constructor.
  - destruct (key x <=? key y)%Z eqn:E.
    + apply Z.leb_le in E.
      constructor; [constructor; assumption|].
      constructor; [exact E|].
      eapply Forall_impl; [|exact Hall].
      unfold key_le. intros; lia.
    + apply Z.leb_gt in E.
      constructor; [exact IH|].
      apply (Permutation_Forall (insert_perm x l)).
      constructor; [unfold key_le; lia | exact Hall].
Qed.

Lemma sort_sorted (l : list A) : StronglySorted (key_le key) (Py.sort key l).
Proof.
  induction l as [|x l IH]; simpl.
  - constructor.
  - apply insert_sorted. exact IH.
Qed.

(** The elements of one key keep their order. *)
Lemma insert_stable (p : Z) (x : A) (l : list A) :
  filter (has_key key p) (Py.insert key x l) = filter (has_key key p) (x :: l).
Proof.
  induction l as [|y l IH]; [reflexivity|].
  cbn [Py.insert].
  destruct (key x <=? key y)%Z eqn:E; [reflexivity|].
  apply Z.leb_gt in E.
  cbn [filter] in *. rewrite IH.
  unfold has_key.
  destruct (key x =? p)%Z eqn:Ex; destruct (key y =? p)%Z eqn:Ey;
    try reflexivity.
  apply Z.eqb_eq in Ex, Ey. lia.
Qed.

Lemma sort_stable (p : Z) (l : list A) :
  filter (has_key key p) (Py.sort key l) = filter (has_key key p) l.
Proof.
  induction l as [|x l IH]; [reflexivity|].
  cbn [Py.sort]. rewrite insert_stable.
  cbn [filter]. rewrite IH. reflexivity.
Qed.

(** A list already in key order is returned as it is. *)
Lemma sort_sorted_id (l : list A) :
  StronglySorted (key_le key) l -> Py.sort key l = l.
Proof.
  induction 1 as [|x l Hs IH Hall]; [reflexivity|].
  cbn [Py.sort]. rewrite IH.
  destruct l as [|y l']; [reflexivity|].
  cbn [Py.insert].
  inversion Hall as [|? ? Hxy _]; subst.
  unfold key_le in Hxy. apply Z.leb_le in Hxy. rewrite Hxy. reflexivity.
Qed.

Lemma sorted_app (l1 l2 : list A) :
  StronglySorted (key_le key) l1 -> StronglySorted (key_le key) l2 ->
  (forall a b, In a l1 -> In b l2 -> (key_le key) a b) ->
  StronglySorted (key_le key) (l1 ++ l2).
Proof.
  induction 1 as [|x l Hs IH Hall]; intros H2 Hcross; simpl.
  - exact H2.
  - constructor.
    + apply IH; [exact H2|]. intros a b Ha Hb. apply Hcross; simpl; auto.
    + apply Forall_app. split; [exact Hall|].
      apply Forall_forall. intros b Hb. apply Hcross; simpl; auto.
Qed.

Lemma constant_key_sorted (p : Z) (l : list A) :
  Forall (fun a => key a = p) l -> StronglySorted (key_le key) l.
Proof.
  induction 1 as [|x l Hx Hl IH]; constructor.
  - exact IH.
  - eapply Forall_impl; [|exact Hl].
    unfold key_le. intros a Ha. simpl in Ha. lia.
Qed.

(** A tier of one key before a sorted list of greater keys. *)
Lemma sorted_tiers (p q : Z) (l1 l2 : list A) :
  (p <= q)%Z ->
  Forall (fun a => key a = p) l1 ->
  Forall (fun a => (q <= key a)%Z) l2 ->
  StronglySorted (key_le key) l2 ->
  StronglySorted (key_le key) (l1 ++ l2)
  /\ Forall (fun a => (p <= key a)%Z) (l1 ++ l2).
Proof.
  intros Hpq H1 H2 Hs. split.
  - apply sorted_app; [eapply constant_key_sorted; exact H1 | exact Hs |].
    intros a b Ha Hb. unfold key_le.
    rewrite Forall_forall in H1, H2.
    rewrite (H1 a Ha). specialize (H2 b Hb). lia.
  - apply Forall_app. split.
    + eapply Forall_impl; [|exact H1]. intros a Ha. simpl in Ha. lia.
    + eapply Forall_impl; [|exact H2]. intros a Ha. simpl in Ha. lia.
Qed.
End SortFacts.

(** ** The planner *)

Section PlannerFacts.
Variable m : Measurements.

(** Every block appends to the list it is given. *)
Lemma plan_symmetry_app (acc : list Operation) :
  plan_symmetry m acc = acc ++ symmetry_ops m.
Proof.
  unfold symmetry_ops, plan_symmetry. cbv zeta.
  destruct (Py.lt _ _); [reflexivity | now rewrite app_nil_r].
Qed.

Lemma plan_nose_app (acc : list Operation) :
  plan_nose m acc = acc ++ nose_ops m.
Proof.
  unfold nose_ops, plan_nose. cbv zeta.
  destruct (Py.gt (Py.get _ _) _).
  - destruct (Py.gt _ 0.15); destruct (Py.gt _ 0.12);
      rewrite <- ?app_assoc; reflexivity.
  - destruct (Py.lt _ _); rewrite <- ?app_assoc; reflexivity.
Qed.

Lemma plan_jaw_app (acc : list Operation) :
  plan_jaw m acc = acc ++ jaw_ops m.
Proof.
  unfold jaw_ops, plan_jaw. cbv zeta.
  destruct (Py.gt _ _); [reflexivity | now rewrite app_nil_r].
Qed.

Lemma plan_chin_app (acc : list Operation) :
  plan_chin m acc = acc ++ chin_ops m.
Proof.
  unfold chin_ops, plan_chin. cbv zeta.
  destruct (Py.gt _ _); [destruct (Py.lt _ _)|];
    try reflexivity; now rewrite app_nil_r.
Qed.

Lemma plan_thirds_app (acc : list Operation) :
  plan_thirds m acc = acc ++ thirds_ops m.
Proof.
  unfold thirds_ops, plan_thirds. cbv zeta.
  destruct (thirds_truthy _); [reflexivity | now rewrite app_nil_r].
Qed.

(** The emission order of [plan_changes], tier by tier. *)
Lemma planned_tiers :
  planned m =
  symmetry_ops m ++ nose_ops m ++ jaw_ops m ++ chin_ops m ++ thirds_ops m.
Proof.
  unfold planned.
  rewrite plan_thirds_app, plan_chin_app, plan_jaw_app, plan_nose_app.
  fold (symmetry_ops m). rewrite <- !app_assoc. reflexivity.
Qed.

(** Every tier writes one priority. *)
Lemma symmetry_priority :
  Forall (fun op => priority_key op = 1%Z) (symmetry_ops m).
Proof.
  unfold symmetry_ops, plan_symmetry. cbv zeta.
  destruct (Py.lt _ _); repeat constructor.
Qed.

Lemma nose_priority :
  Forall (fun op => priority_key op = 2%Z) (nose_ops m).
Proof.
  unfold nose_ops, plan_nose. cbv zeta.
  destruct (Py.gt (Py.get _ _) _).
  - destruct (Py.gt _ 0.15); destruct (Py.gt _ 0.12); repeat constructor.
  - destruct (Py.lt _ _); repeat constructor.
Qed.

Lemma jaw_priority :
  Forall (fun op => priority_key op = 3%Z) (jaw_ops m).
Proof.
  unfold jaw_ops, plan_jaw. cbv zeta.
  destruct (Py.gt _ _); repeat constructor.
Qed.

Lemma chin_priority :
  Forall (fun op => priority_key op = 4%Z) (chin_ops m).
Proof.
  unfold chin_ops, plan_chin. cbv zeta.
  destruct (Py.gt _ _); [destruct (Py.lt _ _)|]; repeat constructor.
Qed.

Lemma check_third_app (ft : FacialThirds) (acc : list Operation) third :
  check_third ft acc third = acc ++ check_third ft [] third.
Proof.
  destruct third as [[get_third third_name] ideal].
  unfold check_third.
  destruct (Py.gt _ _); [reflexivity | now rewrite app_nil_r].
Qed.

Lemma analyze_facial_thirds_tiers (ft : FacialThirds) :
  _analyze_facial_thirds ft =
  check_third ft [] (upper, "upper"%string, BEAUTY_RULES.facial_thirds.ideal_upper)
  ++ check_third ft [] (middle, "middle"%string, BEAUTY_RULES.facial_thirds.ideal_middle)
  ++ check_third ft [] (lower, "lower"%string, BEAUTY_RULES.facial_thirds.ideal_lower).
Proof.
  unfold _analyze_facial_thirds. cbn [fold_left].
  rewrite (check_third_app ft (check_third ft _ _)).
  rewrite (check_third_app ft (check_third ft _ _)).
  rewrite <- app_assoc. reflexivity.
Qed.

Lemma check_third_priority (ft : FacialThirds) third :
  Forall (fun op => priority_key op = 5%Z) (check_third ft [] third).
Proof.
  destruct third as [[get_third third_name] ideal].
  unfold check_third.
  destruct (Py.gt _ _); repeat constructor.
Qed.

Lemma thirds_priority :
  Forall (fun op => priority_key op = 5%Z) (thirds_ops m).
Proof.
  unfold thirds_ops, plan_thirds. cbv zeta.
  destruct (thirds_truthy _); [|constructor].
  rewrite app_nil_l, analyze_facial_thirds_tiers.
  repeat (apply Forall_app; split); apply check_third_priority.
Qed.

Lemma tiers_sorted (p q : Z) (l1 l2 : list Operation) :
  (p <= q)%Z ->
  Forall (fun op => priority_key op = p) l1 ->
  Forall (fun op => (q <= priority_key op)%Z) l2 ->
  StronglySorted (key_le priority_key) l2 ->
  StronglySorted (key_le priority_key) (l1 ++ l2)
  /\ Forall (fun op => (p <= priority_key op)%Z) (l1 ++ l2).
Proof.
  intros Hpq H1 H2 Hs. split.
  - apply sorted_app; [eapply constant_key_sorted; exact H1 | exact Hs |].
    intros a b Ha Hb. unfold key_le.
    rewrite Forall_forall in H1, H2.
    rewrite (H1 a Ha). specialize (H2 b Hb). lia.
  - apply Forall_app. split.
    + eapply Forall_impl; [|exact H1]. intros a Ha. simpl in Ha. lia.
    + eapply Forall_impl; [|exact H2]. intros a Ha. simpl in Ha. lia.
Qed.

Lemma planned_sorted : StronglySorted (key_le priority_key) (planned m).
Proof.
  rewrite planned_tiers.
  assert (H5 : StronglySorted (key_le priority_key) (thirds_ops m)
               /\ Forall (fun op => (5 <= priority_key op)%Z) (thirds_ops m)).
  { split; [eapply constant_key_sorted; apply thirds_priority|].
    eapply Forall_impl; [|apply thirds_priority].
    intros a Ha. simpl in Ha. lia. }
  destruct H5 as [S5 F5].
  destruct (tiers_sorted 4 5 _ _ ltac:(lia) chin_priority F5 S5) as [S4 F4].
  destruct (tiers_sorted 3 4 _ _ ltac:(lia) jaw_priority F4 S4) as [S3 F3].
  destruct (tiers_sorted 2 3 _ _ ltac:(lia) nose_priority F3 S3) as [S2 F2].
  destruct (tiers_sorted 1 2 _ _ ltac:(lia) symmetry_priority F2 S2) as [S1 _].
  exact S1.
Qed.

(** The final sort finds the list in order and returns it as emitted. *)
Lemma plan_changes_planned : plan_changes m = planned m.
Proof. apply sort_sorted_id. apply planned_sorted. Qed.

(** The types a nose tier can hold, in emission order. *)
Lemma nose_types :
  let types := map (fun op => Py.get (type op) EmptyString) (nose_ops m) in
  types = ["shrink_width"; "refine_tip"; "refine_bridge"]%string
  \/ types = ["shrink_width"; "refine_tip"]%string
  \/ types = ["shrink_width"; "refine_bridge"]%string
  \/ types = ["shrink_width"]%string
  \/ types = ["refine_tip"; "refine_bridge"]%string
  \/ types = ["refine_tip"]%string.
Proof.
  unfold nose_ops, plan_nose. cbv zeta.
  destruct (Py.gt (Py.get _ _) _).
  - destruct (Py.gt _ 0.15); destruct (Py.gt _ 0.12); cbn; tauto.
  - destruct (Py.lt _ _); cbn; tauto.
Qed.
End PlannerFacts.

(** C7. For every measurement record, the list returned by
    [plan_changes] is sorted by non-decreasing priority, and the sort is
    stable: for every priority, the operations of that priority come in
    the order of their emission.  The list is the concatenation of the
    tiers in the order symmetry, nose, jaw, chin, facial thirds, and the
    types of the nose tier are an in-order selection of shrink_width,
    refine_tip, refine_bridge. *)
Theorem C7_plan_changes_sorted_stable (m : Measurements) :
  StronglySorted (key_le priority_key) (plan_changes m)
  /\ (forall p : Z,
        filter (has_key priority_key p) (plan_changes m)
        = filter (has_key priority_key p) (planned m))
  /\ plan_changes m
     = symmetry_ops m ++ nose_ops m ++ jaw_ops m ++ chin_ops m ++ thirds_ops m
  /\ (exists keep : string -> bool,
        map (fun op => Py.get (type op) EmptyString) (nose_ops m)
        = filter keep ["shrink_width"; "refine_tip"; "refine_bridge"]%string).
Proof.
  split; [apply sort_sorted|].
  split; [intro p; apply sort_stable|].
  split; [rewrite plan_changes_planned; apply planned_tiers|].
  destruct (nose_types m) as [H|[H|[H|[H|[H|H]]]]]; rewrite H.
  - exists (fun _ => true). reflexivity.
  - exists (fun s => negb (s =? "refine_bridge")%string). reflexivity.
  - exists (fun s => negb (s =? "refine_tip")%string). reflexivity.
  - exists (fun s => (s =? "shrink_width")%string). reflexivity.
  - exists (fun s => negb (s =? "shrink_width")%string). reflexivity.
  - exists (fun s => (s =? "refine_tip")%string). reflexivity.
Qed.

(** The nose operations of a plan are the nose tier. *)
Section Regions.
Variable m : Measurements.

Lemma filter_none {A : Type} (f : A -> bool) (l : list A) :
  Forall (fun a => f a = false) l -> filter f l = [].
Proof.
  induction 1 as [|a l Ha _ IH]; [reflexivity|].
  cbn [filter]. rewrite Ha. exact IH.
Qed.

Lemma filter_all {A : Type} (f : A -> bool) (l : list A) :
  Forall (fun a => f a = true) l -> filter f l = l.
Proof.
  induction 1 as [|a l Ha _ IH]; [reflexivity|].
  cbn [filter]. rewrite Ha, IH. reflexivity.
Qed.

Lemma symmetry_region :
  Forall (fun op => in_region "face" op = true
                    /\ of_type "symmetry" op = true) (symmetry_ops m).
Proof.
  unfold symmetry_ops, plan_symmetry. cbv zeta.
  destruct (Py.lt _ _); repeat constructor.
Qed.

Lemma nose_region :
  Forall (fun op => in_region "nose" op = true) (nose_ops m).
Proof.
  unfold nose_ops, plan_nose. cbv zeta.
  destruct (Py.gt (Py.get _ _) _).
  - destruct (Py.gt _ 0.15); destruct (Py.gt _ 0.12); repeat constructor.
  - destruct (Py.lt _ _); repeat constructor.
Qed.

Lemma jaw_region :
  Forall (fun op => in_region "jaw" op = true
                    /\ of_type "balance" op = true) (jaw_ops m).
Proof.
  unfold jaw_ops, plan_jaw. cbv zeta.
  destruct (Py.gt _ _); repeat constructor.
Qed.

Lemma chin_region :
  Forall (fun op => in_region "chin" op = true
                    /\ of_type "enhance" op = true) (chin_ops m).
Proof.
  unfold chin_ops, plan_chin. cbv zeta.
  destruct (Py.gt _ _); [destruct (Py.lt _ _)|]; repeat constructor.
Qed.

Lemma check_third_ops (ft : FacialThirds) get_third third_name ideal :
  In (third_name, ideal)
     [("upper", 0.33); ("middle", 0.33); ("lower", 0.34)]%string ->
  Forall third_op (check_third ft [] (get_third, third_name, ideal)).
Proof.
  intro Hin. unfold check_third.
  destruct (Py.gt _ _) eqn:E; [|constructor].
  constructor; [|constructor].
  exists third_name, (Py.get (get_third ft) ideal), ideal.
  split; [reflexivity|]. split; [exact Hin|].
  apply gt_true in E. exact E.
Qed.

Lemma thirds_region : Forall third_op (thirds_ops m).
Proof.
  unfold thirds_ops, plan_thirds. cbv zeta.
  destruct (thirds_truthy _); [|constructor].
  rewrite app_nil_l, analyze_facial_thirds_tiers.
  repeat (apply Forall_app; split); apply check_third_ops; simpl; auto.
Qed.

Lemma third_op_face (op : Operation) :
  third_op op ->
  in_region "face" op = true /\ of_type "symmetry" op = false
  /\ Py.contains "third" (Py.get (type op) EmptyString) = true.
Proof.
  intros (third_name & cur & ideal & -> & Hin & _).
  simpl in Hin.
  destruct Hin as [H|[H|[H|[]]]]; inversion H; subst; repeat split.
Qed.

Lemma nose_filter :
  filter (in_region "nose") (plan_changes m) = nose_ops m.
Proof.
  rewrite plan_changes_planned, planned_tiers, !filter_app.
  rewrite (filter_all _ _ nose_region).
  rewrite (filter_none _ (symmetry_ops m)),
          (filter_none _ (jaw_ops m)),
          (filter_none _ (chin_ops m)),
          (filter_none _ (thirds_ops m)).
  - rewrite app_nil_r. reflexivity.
  - eapply Forall_impl; [|apply thirds_region].
    intros op (third_name & cur & ideal & -> & _). reflexivity.
  - eapply Forall_impl; [|apply chin_region].
    intros op [H _]. unfold in_region in *.
    apply String.eqb_eq in H. rewrite H. reflexivity.
  - eapply Forall_impl; [|apply jaw_region].
    intros op [H _]. unfold in_region in *.
    apply String.eqb_eq in H. rewrite H. reflexivity.
  - eapply Forall_impl; [|apply symmetry_region].
    intros op [H _]. unfold in_region in *.
    apply String.eqb_eq in H. rewrite H. reflexivity.
Qed.
End Regions.

Lemma py_min_Qmin (a b : Q) : Py.min a b = Qmin a b.
Proof.
  unfold Py.min, Py.lt, Qle_bool, Qmin, GenericMinMax.gmin, Qcompare, Z.leb.
  destruct (Z.compare _ _); reflexivity.
Qed.

Lemma py_max_Qmax (a b : Q) : Py.max a b = Qmax a b.
Proof.
  unfold Py.max, Py.gt, Py.lt, Qle_bool, Qmax, GenericMinMax.gmax, Qcompare, Z.leb.
  rewrite (Z.compare_antisym (Qnum a * QDen b) (Qnum b * QDen a)).
  destruct (Z.compare _ _); reflexivity.
Qed.

(** ** The order of binary64 *)

Section Binary64Order.

Lemma SFcompare_antisym (a b : spec_float) :
  SFcompare b a = option_map CompOpp (SFcompare a b).
Proof.
  destruct a as [sa|sa| |sa ma ea], b as [sb|sb| |sb mb eb];
    try destruct sa; try destruct sb; try reflexivity; cbn;
    rewrite (Z.compare_antisym ea eb);
    destruct (Z.compare ea eb); cbn; try reflexivity;
    rewrite (Pos.compare_cont_antisym ma mb Eq); cbn;
    try rewrite CompOpp_involutive; reflexivity.
Qed.

(** [a <= b] excludes [b < a]. *)
Lemma leb_not_ltb (a b : float) :
  PrimFloat.leb a b = true -> PrimFloat.ltb b a = false.
Proof.
  rewrite leb_spec, ltb_spec. unfold SFleb, SFltb.
  rewrite (SFcompare_antisym (Prim2SF a) (Prim2SF b)).
  destruct (SFcompare (Prim2SF a) (Prim2SF b)) as [[| |]|]; cbn; congruence.
Qed.

Lemma ltb_asym (a b : float) :
  PrimFloat.ltb a b = true -> PrimFloat.ltb b a = false.
Proof.
  rewrite !ltb_spec. unfold SFltb.
  rewrite (SFcompare_antisym (Prim2SF a) (Prim2SF b)).
  destruct (SFcompare (Prim2SF a) (Prim2SF b)) as [[| |]|]; cbn; congruence.
Qed.

Lemma SFltb_trans (a b c : spec_float) :
  SFltb a b = true -> SFltb b c = true -> SFltb a c = true.
Proof.
  unfold SFltb.
  destruct a as [sa|sa| |sa ma ea], b as [sb|sb| |sb mb eb],
           c as [sc|sc| |sc mc ec];
    try destruct sa; try destruct sb; try destruct sc; cbn;
    try congruence;
    rewrite ?Pos.compare_cont_spec; cbn;
    repeat match goal with
           | |- context [Z.compare ?x ?y] => destruct (Z.compare_spec x y)
           | |- context [Pos.compare ?x ?y] => destruct (Pos.compare_spec x y)
           end; cbn; try congruence; try lia.
Qed.

Lemma ltb_trans (a b c : float) :
  PrimFloat.ltb a b = true -> PrimFloat.ltb b c = true ->
  PrimFloat.ltb a c = true.
Proof. rewrite !ltb_spec. apply SFltb_trans. Qed.
End Binary64Order.

(** ** The planner in binary64 *)

Section Binary64Planner.
Import Binary64 Binary64.BeautyRulesEngine Binary64Spec.
Local Open Scope float_scope.
Variable m : Measurements.

(** Every block appends to the list it is given. *)
Lemma plan_symmetry_app64 (acc : list Operation) :
  plan_symmetry m acc = acc ++ symmetry_ops m.
Proof.
  unfold symmetry_ops, plan_symmetry. cbv zeta.
  destruct (Py64.lt _ _); [reflexivity | now rewrite app_nil_r].
Qed.

Lemma plan_nose_app64 (acc : list Operation) :
  plan_nose m acc = acc ++ nose_ops m.
Proof.
  unfold nose_ops, plan_nose. cbv zeta.
  destruct (Py64.gt (Py.get _ _) _).
  - destruct (Py64.gt _ 0.15); destruct (Py64.gt _ 0.12);
      rewrite <- ?app_assoc; reflexivity.
  - destruct (Py64.lt _ _); rewrite <- ?app_assoc; reflexivity.
Qed.

Lemma plan_jaw_app64 (acc : list Operation) :
  plan_jaw m acc = acc ++ jaw_ops m.
Proof.
  unfold jaw_ops, plan_jaw. cbv zeta.
  destruct (Py64.gt _ _); [reflexivity | now rewrite app_nil_r].
Qed.

Lemma plan_chin_app64 (acc : list Operation) :
  plan_chin m acc = acc ++ chin_ops m.
Proof.
  unfold chin_ops, plan_chin. cbv zeta.
  destruct (Py64.gt _ _); [destruct (Py64.lt _ _)|];
    try reflexivity; now rewrite app_nil_r.
Qed.

Lemma plan_thirds_app64 (acc : list Operation) :
  plan_thirds m acc = acc ++ thirds_ops m.
Proof.
  unfold thirds_ops, plan_thirds. cbv zeta.
  destruct (thirds_truthy _); [reflexivity | now rewrite app_nil_r].
Qed.

(** The emission order of [plan_changes], tier by tier. *)
Lemma planned_tiers64 :
  planned m =
  symmetry_ops m ++ nose_ops m ++ jaw_ops m ++ chin_ops m ++ thirds_ops m.
Proof.
  unfold planned.
  rewrite plan_thirds_app64, plan_chin_app64, plan_jaw_app64, plan_nose_app64.
  fold (symmetry_ops m). rewrite <- !app_assoc. reflexivity.
Qed.

Lemma check_third_app64 (ft : FacialThirds) (acc : list Operation) third :
  check_third ft acc third = acc ++ check_third ft [] third.
Proof.
  destruct third as [[get_third third_name] ideal].
  unfold check_third.
  destruct (Py64.gt _ _); [reflexivity | now rewrite app_nil_r].
Qed.

Lemma analyze_facial_thirds_tiers64 (ft : FacialThirds) :
  _analyze_facial_thirds ft =
  check_third ft [] (upper, "upper"%string, BEAUTY_RULES.facial_thirds.ideal_upper)
  ++ check_third ft [] (middle, "middle"%string, BEAUTY_RULES.facial_thirds.ideal_middle)
  ++ check_third ft [] (lower, "lower"%string, BEAUTY_RULES.facial_thirds.ideal_lower).
Proof.
  unfold _analyze_facial_thirds. cbn [fold_left].
  rewrite (check_third_app64 ft (check_third ft _ _)).
  rewrite (check_third_app64 ft (check_third ft _ _)).
  rewrite <- app_assoc. reflexivity.
Qed.

(** Every tier writes operations of its own shape, region and
    priority. *)
Lemma symmetry_written :
  Forall (fun op => planner_written op /\ in_region "nose" op = false
                    /\ priority_key op = 1%Z) (symmetry_ops m).
Proof.
  unfold symmetry_ops, plan_symmetry. cbv zeta.
  destruct (Py64.lt _ _); repeat constructor.
Qed.

Lemma nose_written :
  Forall (fun op => planner_written op /\ in_region "nose" op = true
                    /\ priority_key op = 2%Z) (nose_ops m).
Proof.
  unfold nose_ops, plan_nose. cbv zeta.
  destruct (Py64.gt (Py.get _ _) _).
  - destruct (Py64.gt _ 0.15); destruct (Py64.gt _ 0.12); repeat constructor.
  - destruct (Py64.lt _ _); repeat constructor.
Qed.

Lemma jaw_written :
  Forall (fun op => planner_written op /\ in_region "nose" op = false
                    /\ priority_key op = 3%Z) (jaw_ops m).
Proof.
  unfold jaw_ops, plan_jaw. cbv zeta.
  destruct (Py64.gt _ _); repeat constructor.
Qed.

Lemma chin_written :
  Forall (fun op => planner_written op /\ in_region "nose" op = false
                    /\ priority_key op = 4%Z) (chin_ops m).
Proof.
  unfold chin_ops, plan_chin. cbv zeta.
  destruct (Py64.gt _ _); [destruct (Py64.lt _ _)|]; repeat constructor.
Qed.

Lemma thirds_written :
  Forall (fun op => planner_written op /\ in_region "nose" op = false
                    /\ priority_key op = 5%Z) (thirds_ops m).
Proof.
  unfold thirds_ops, plan_thirds. cbv zeta.
  destruct (thirds_truthy _); [|constructor].
  rewrite app_nil_l, analyze_facial_thirds_tiers64.
  unfold check_third.
  repeat (apply Forall_app; split);
    destruct (Py64.gt _ _); repeat constructor.
Qed.

Lemma planned_sorted64 : StronglySorted (key_le priority_key) (planned m).
Proof.
  rewrite planned_tiers64.
  assert (P : forall p b (l : list Operation),
             Forall (fun op => planner_written op
                               /\ in_region "nose" op = b
                               /\ priority_key op = p) l ->
             Forall (fun op => priority_key op = p) l).
  { intros p b l H. eapply Forall_impl; [|exact H]. intros a Ha. apply Ha. }
  assert (H5 : StronglySorted (key_le priority_key) (thirds_ops m)
               /\ Forall (fun op => (5 <= priority_key op)%Z) (thirds_ops m)).
  { split; [eapply constant_key_sorted; apply (P _ _ _ thirds_written)|].
    eapply Forall_impl; [|apply (P _ _ _ thirds_written)].
    intros a Ha. simpl in Ha. lia. }
  destruct H5 as [S5 F5].
  destruct (sorted_tiers priority_key 4 5 _ _ ltac:(lia) (P _ _ _ chin_written) F5 S5)
    as [S4 F4].
  destruct (sorted_tiers priority_key 3 4 _ _ ltac:(lia) (P _ _ _ jaw_written) F4 S4)
    as [S3 F3].
  destruct (sorted_tiers priority_key 2 3 _ _ ltac:(lia) (P _ _ _ nose_written) F3 S3)
    as [S2 F2].
  destruct (sorted_tiers priority_key 1 2 _ _ ltac:(lia) (P _ _ _ symmetry_written) F2 S2)
    as [S1 _].
  exact S1.
Qed.

(** The final sort finds the list in order and returns it as emitted. *)
Lemma plan_changes_tiers64 :
  plan_changes m =
  symmetry_ops m ++ nose_ops m ++ jaw_ops m ++ chin_ops m ++ thirds_ops m.
Proof.
  unfold plan_changes.
  rewrite (sort_sorted_id _ _ planned_sorted64). apply planned_tiers64.
Qed.

(** The nose operations of a plan are the nose tier. *)
Lemma nose_filter64 :
  filter (in_region "nose") (plan_changes m) = nose_ops m.
Proof.
  rewrite plan_changes_tiers64, !filter_app.
  rewrite (filter_all _ (nose_ops m)).
  - rewrite (filter_none _ (symmetry_ops m)),
            (filter_none _ (jaw_ops m)),
            (filter_none _ (chin_ops m)),
            (filter_none _ (thirds_ops m)).
    + rewrite app_nil_r. reflexivity.
    + eapply Forall_impl; [|apply thirds_written]. intros a Ha. apply Ha.
    + eapply Forall_impl; [|apply chin_written]. intros a Ha. apply Ha.
    + eapply Forall_impl; [|apply jaw_written]. intros a Ha. apply Ha.
    + eapply Forall_impl; [|apply symmetry_written]. intros a Ha. apply Ha.
  - eapply Forall_impl; [|apply nose_written]. intros a Ha. apply Ha.
Qed.

Lemma plan_written : Forall planner_written (plan_changes m).
Proof.
  rewrite plan_changes_tiers64.
  repeat (apply Forall_app; split).
  - eapply Forall_impl; [|apply symmetry_written]. intros a Ha. apply Ha.
  - eapply Forall_impl; [|apply nose_written]. intros a Ha. apply Ha.
  - eapply Forall_impl; [|apply jaw_written]. intros a Ha. apply Ha.
  - eapply Forall_impl; [|apply chin_written]. intros a Ha. apply Ha.
  - eapply Forall_impl; [|apply thirds_written]. intros a Ha. apply Ha.
Qed.

(** The nose tier is never empty. *)
Lemma nose_tier_first :
  exists op rest, nose_ops m = op :: rest.
Proof.
  unfold nose_ops, plan_nose. cbv zeta.
  destruct (Py64.gt (Py.get _ _) _).
  - destruct (Py64.gt _ 0.15); destruct (Py64.gt _ 0.12);
      eexists; eexists; reflexivity.
  - destruct (Py64.lt _ _); eexists; eexists; reflexivity.
Qed.
End Binary64Planner.

Section Binary64Regimes.
Import Binary64 Binary64.BeautyRulesEngine Binary64Spec.
Local Open Scope float_scope.

(** The nose tier in each regime of the ratio. *)
Lemma nose_ops_wide (m : Measurements) (ratio : float) :
  nose_to_ipd_ratio m = Some ratio ->
  (0.75 <? ratio) = true ->
  let excess := ratio / 0.75 - 1.0 in
  let shrink := if 0.30 <? excess then 0.30 else excess in
  nose_ops m =
  nose_operation "shrink_width" (1 - shrink)
  :: (if 0.15 <? shrink then [nose_operation "refine_tip" (1 - 0.15)] else [])
  ++ (if 0.12 <? shrink then [nose_operation "refine_bridge" (1 - 0.10)] else []).
Proof.
  intros Hr Hwide excess shrink.
  unfold nose_ops, plan_nose. rewrite Hr. cbv zeta. cbn [Py.get app].
  unfold Py64.gt, Py64.min, Py64.lt,
    BEAUTY_RULES.nose.ideal_nose_to_ipd, BEAUTY_RULES.nose.max_reduction,
    BEAUTY_RULES.nose.tip_refinement, BEAUTY_RULES.nose.bridge_refinement.
  rewrite Hwide. fold excess. fold shrink.
  destruct (0.15 <? shrink); destruct (0.12 <? shrink); reflexivity.
Qed.

Lemma nose_ops_narrow (m : Measurements) (ratio : float) :
  nose_to_ipd_ratio m = Some ratio ->
  (ratio <? 0.85 * 0.75) = true ->
  nose_ops m =
  [ nose_operation "refine_tip" (1 - 0.15 * 0.5);
    nose_operation "refine_bridge" (1 - 0.10 * 0.5) ].
Proof.
  intros Hr Hnarrow.
  assert (Hnot : (0.75 <? ratio) = false).
  { apply ltb_asym. apply ltb_trans with (0.85 * 0.75); [exact Hnarrow|].
    reflexivity. }
  unfold nose_ops, plan_nose. rewrite Hr. cbv zeta. cbn [Py.get app].
  unfold Py64.gt, Py64.lt,
    BEAUTY_RULES.nose.ideal_nose_to_ipd,
    BEAUTY_RULES.nose.tip_refinement, BEAUTY_RULES.nose.bridge_refinement.
  rewrite Hnot.
  change (0.75 * 0.85) with (0.85 * 0.75). rewrite Hnarrow. reflexivity.
Qed.

Lemma nose_ops_near (m : Measurements) (ratio : float) :
  nose_to_ipd_ratio m = Some ratio ->
  (0.75 <? ratio) = false ->
  (ratio <? 0.85 * 0.75) = false ->
  nose_ops m = [ nose_operation "refine_tip" (1 - 0.15 * 0.7) ].
Proof.
  intros Hr Hnot Hnear.
  unfold nose_ops, plan_nose. rewrite Hr. cbv zeta. cbn [Py.get app].
  unfold Py64.gt, Py64.lt,
    BEAUTY_RULES.nose.ideal_nose_to_ipd, BEAUTY_RULES.nose.tip_refinement.
  rewrite Hnot.
  change (0.75 * 0.85) with (0.85 * 0.75). rewrite Hnear. reflexivity.
Qed.

(** C3. For every measurement record with nose_to_ipd_ratio present, the
    nose operations of the plan are exactly those of the regime the
    ratio selects against the ideal 0.75, every number a binary64 float
    computed as the code computes it: above the ideal, shrink_width with
    factor 1 - min(ratio/ideal - 1, 0.30), then refine_tip (factor
    1 - 0.15) iff the shrink magnitude exceeds 0.15, then refine_bridge
    (factor 1 - 0.10) iff it exceeds 0.12; below 0.85 * ideal, refine_tip
    and refine_bridge at half strength; otherwise, and so for every
    ratio within [0.85 * ideal, ideal], exactly one refine_tip at 70%
    strength and nothing else. *)
Theorem C3_nose_tier_regimes (m : Measurements) (ratio : float) :
  nose_to_ipd_ratio m = Some ratio ->
  let emitted := filter (in_region "nose") (plan_changes m) in
  let excess := ratio / 0.75 - 1.0 in
  let shrink := if 0.30 <? excess then 0.30 else excess in
  ((0.75 <? ratio) = true ->
     emitted =
       nose_operation "shrink_width" (1 - shrink)
       :: (if 0.15 <? shrink
           then [nose_operation "refine_tip" (1 - 0.15)] else [])
       ++ (if 0.12 <? shrink
           then [nose_operation "refine_bridge" (1 - 0.10)] else []))
  /\ ((ratio <? 0.85 * 0.75) = true ->
      emitted = [ nose_operation "refine_tip" (1 - 0.15 * 0.5);
                  nose_operation "refine_bridge" (1 - 0.10 * 0.5) ])
  /\ ((0.75 <? ratio) = false -> (ratio <? 0.85 * 0.75) = false ->
      emitted = [ nose_operation "refine_tip" (1 - 0.15 * 0.7) ])
  /\ ((0.85 * 0.75 <=? ratio) = true -> (ratio <=? 0.75) = true ->
      emitted = [ nose_operation "refine_tip" (1 - 0.15 * 0.7) ]).
Proof.
  intros Hr emitted excess shrink.
  unfold emitted. rewrite nose_filter64.
  split; [|split; [|split]].
  - intro H. exact (nose_ops_wide m ratio Hr H).
  - intro H. exact (nose_ops_narrow m ratio Hr H).
  - intros H1 H2. exact (nose_ops_near m ratio Hr H1 H2).
  - intros H1 H2.
    exact (nose_ops_near m ratio Hr (leb_not_ltb _ _ H2) (leb_not_ltb _ _ H1)).
Qed.

(** The witness of C3: at the ratio 0.8625 the excess over the ideal,
    0.15 in decimal arithmetic, is 0.15000000000000013 in binary64, so
    the tip refinement is emitted with the width reduction. *)
Lemma C3_nose_tier_regimes_witness :
  nose_to_ipd_ratio wide_nose = Some 0.8625
  /\ (0.75 <? 0.8625) = true
  /\ filter (in_region "nose") (plan_changes wide_nose)
     = [ nose_operation "shrink_width" (1 - (0.8625 / 0.75 - 1.0));
         nose_operation "refine_tip" (1 - 0.15);
         nose_operation "refine_bridge" (1 - 0.10) ].
Proof.
  split; [exact eq_refl|]. split; [exact eq_refl|].
  exact (proj1 (C3_nose_tier_regimes wide_nose 0.8625 eq_refl) eq_refl).
Defined.

(** The claim C2 as it is written fails: scenario A is near ideal in
    every field and its plan is not empty. *)
Lemma C2_counterexample_scenario_A :
  near_ideal 0.95 0.75 0 0 0.33 0.33 0.34
  /\ plan_changes (measured 0.95 0.75 0 0 0.33 0.33 0.34) <> [].
Proof.
  split.
  - unfold near_ideal.
    repeat split; try reflexivity.
    intros [H _]. vm_compute in H. discriminate H.
  - vm_compute. discriminate.
Qed.

(** C2, amended. For every measurement record whose fields are all near
    ideal, the comparisons and the deviations of the thirds taken in
    binary64 as the code computes them, [plan_changes] returns the
    one-element list holding nose/refine_tip at 70% strength (factor
    1 - 0.15 * 0.7, priority 2): the near-ideal nose regime always emits
    it, and no other tier emits anything. *)
Theorem C2_near_ideal_plan (s r j c u mi lo : float) :
  near_ideal s r j c u mi lo ->
  plan_changes (measured s r j c u mi lo)
  = [ {| region := Some "nose"%string; type := Some "refine_tip"%string;
         amount := None; factor := Some (1 - 0.15 * 0.7); mm := None;
         current := None; target := None; priority := Some 2%Z |} ].
Proof.
  intros (Hs & [Hr1 Hr2] & Hj & Hc & Hu & Hm & Hl).
  rewrite plan_changes_tiers64.
  assert (E1 : symmetry_ops (measured s r j c u mi lo) = []).
  { unfold symmetry_ops, plan_symmetry. cbn [measured symmetry_score Py.get].
    cbv zeta.
    unfold Py64.lt, BEAUTY_RULES.global.target_symmetry.
    rewrite (leb_not_ltb _ _ Hs). reflexivity. }
  assert (E2 : nose_ops (measured s r j c u mi lo)
               = [ nose_operation "refine_tip" (1 - 0.15 * 0.7) ]).
  { apply (nose_ops_near (measured s r j c u mi lo) r eq_refl);
      apply leb_not_ltb; assumption. }
  assert (E3 : jaw_ops (measured s r j c u mi lo) = []).
  { unfold jaw_ops, plan_jaw. cbn [measured jaw_asymmetry Py.get]. cbv zeta.
    unfold Py64.gt, Py64.lt.
    rewrite (leb_not_ltb _ _ Hj). reflexivity. }
  assert (E4 : chin_ops (measured s r j c u mi lo) = []).
  { unfold chin_ops, plan_chin. cbn [measured chin_projection Py.get].
    cbv zeta. unfold Py64.gt, Py64.lt.
    destruct (0 <? c) eqn:G; [|reflexivity].
    destruct (c <? 20) eqn:L; [|reflexivity].
    exfalso. apply Hc. split; reflexivity. }
  assert (E5 : thirds_ops (measured s r j c u mi lo) = []).
  { unfold thirds_ops, plan_thirds. cbn [measured facial_thirds Py.get].
    cbv zeta. cbn [thirds_truthy upper middle lower].
    rewrite analyze_facial_thirds_tiers64.
    unfold check_third. cbn [upper middle lower Py.get].
    unfold Py64.gt, Py64.lt, Py64.abs,
      BEAUTY_RULES.facial_thirds.ideal_upper,
      BEAUTY_RULES.facial_thirds.ideal_middle,
      BEAUTY_RULES.facial_thirds.ideal_lower,
      BEAUTY_RULES.facial_thirds.tolerance.
    rewrite (leb_not_ltb _ _ Hu), (leb_not_ltb _ _ Hm), (leb_not_ltb _ _ Hl).
    reflexivity. }
  rewrite E1, E2, E3, E4, E5. reflexivity.
Qed.

Lemma C2_near_ideal_plan_witness :
  near_ideal 0.95 0.75 0 0 0.33 0.33 0.34
  /\ plan_changes (measured 0.95 0.75 0 0 0.33 0.33 0.34)
     = [ nose_operation "refine_tip" (1 - 0.15 * 0.7) ].
Proof.
  assert (H : near_ideal 0.95 0.75 0 0 0.33 0.33 0.34).
  { unfold near_ideal. repeat split; try reflexivity.
    intros [H _]. vm_compute in H. discriminate H. }
  split; [exact H | exact (C2_near_ideal_plan _ _ _ _ _ _ _ H)].
Defined.

(** A lower third of 0.29 is not near ideal in binary64: its deviation
    from 0.34 is computed as 0.050000000000000044, above the tolerance,
    and the planner adjusts it. *)
Lemma lower_third_rounding :
  (PrimFloat.abs (0.29 - 0.34) <=? 0.05) = false
  /\ plan_changes short_lower_third
     = [ nose_operation "refine_tip" (1 - 0.15 * 0.7);
         third_operation "adjust_lower_third" 0.29 0.34 ].
Proof. split; vm_compute; reflexivity. Qed.
End Binary64Regimes.

(** ** Missing keys *)

(** C1, evaluated at the record with no key.  The planner reads an
    absent nose_to_ipd_ratio as 1.0, above the ideal 0.75: the plan holds
    the three operations of the wide-nose regime, where the ideal ratio
    gives the single 70% tip refinement.  The scorer reads an absent
    symmetry_score as 0.8: the record scores 87, as with symmetry 0.8,
    where symmetry 1.0 scores 95. *)
Theorem C1_missing_keys_evaluated :
  plan_changes no_measurements
  = [ op_nose "shrink_width" (1 - 0.30);
      op_nose "refine_tip" (1 - 0.15);
      op_nose "refine_bridge" (1 - 0.10) ]
  /\ plan_changes (mkMeasurements None (Some 0.75) None None None)
     = [ op_nose "refine_tip" (1 - 0.15 * 0.7) ]
  /\ calculate_harmony_score no_measurements (plan_changes no_measurements)
     = 87%Z
  /\ calculate_harmony_score (with_symmetry no_measurements 0.8)
       (plan_changes no_measurements) = 87%Z
  /\ calculate_harmony_score (with_symmetry no_measurements 1.0)
       (plan_changes no_measurements) = 95%Z.
Proof. repeat split; vm_compute; reflexivity. Qed.

(** The other defaults are neutral: an absent symmetry_score,
    jaw_asymmetry, chin_projection or facial_thirds makes the planner
    emit nothing in its tier, and the scorer reads an absent nose ratio
    as the ideal one and an absent jaw_asymmetry as 0. *)
Lemma neutral_defaults (m : Measurements) :
  (symmetry_score m = None -> symmetry_ops m = [])
  /\ (jaw_asymmetry m = None -> jaw_ops m = [])
  /\ (chin_projection m = None -> chin_ops m = [])
  /\ (facial_thirds m = None -> thirds_ops m = [])
  /\ (forall ops,
        nose_to_ipd_ratio m = None ->
        harmony_scores m ops
        = harmony_scores
            (mkMeasurements (symmetry_score m) (Some 0.75) (jaw_asymmetry m)
               (chin_projection m) (facial_thirds m)) ops)
  /\ (forall ops,
        jaw_asymmetry m = None ->
        harmony_scores m ops
        = harmony_scores
            (mkMeasurements (symmetry_score m) (nose_to_ipd_ratio m) (Some 0)
               (chin_projection m) (facial_thirds m)) ops).
Proof.
  repeat split.
  - intro H. unfold symmetry_ops, plan_symmetry. rewrite H. reflexivity.
  - intro H. unfold jaw_ops, plan_jaw. rewrite H. reflexivity.
  - intro H. unfold chin_ops, plan_chin. rewrite H. reflexivity.
  - intro H. unfold thirds_ops, plan_thirds. rewrite H. reflexivity.
  - intros ops H. unfold harmony_scores. rewrite H. reflexivity.
  - intros ops H. unfold harmony_scores. rewrite H. reflexivity.
Qed.

(** ** The harmony score *)

Lemma clamp_monotone (a b : Z) :
  (a <= b)%Z ->
  (Py.maxZ 0 (Py.minZ 100 a) <= Py.maxZ 0 (Py.minZ 100 b))%Z.
Proof.
  intro H. unfold Py.maxZ, Py.minZ.
  repeat match goal with
         | |- context [(?x <? ?y)%Z] => destruct (Z.ltb_spec x y)
         | |- context [(?x >? ?y)%Z] =>
             rewrite (Z.gtb_ltb x y); destruct (Z.ltb_spec y x)
         end; lia.
Qed.

Lemma clamp_range (a : Z) :
  (0 <= Py.maxZ 0 (Py.minZ 100 a) <= 100)%Z.
Proof.
  unfold Py.maxZ, Py.minZ.
  repeat match goal with
         | |- context [(?x <? ?y)%Z] => destruct (Z.ltb_spec x y)
         | |- context [(?x >? ?y)%Z] =>
             rewrite (Z.gtb_ltb x y); destruct (Z.ltb_spec y x)
         end; lia.
Qed.

(** The score is an integer of [0, 100]. *)
Lemma harmony_score_range (m : Measurements) (ops : list Operation) :
  (0 <= calculate_harmony_score m ops <= 100)%Z.
Proof. apply clamp_range. Qed.

Lemma int_compat (x y : Q) : x == y -> Py.int x = Py.int y.
Proof.
  intro H.
  destruct (Qlt_le_dec x 0) as [Hx|Hx].
  - rewrite !int_ceiling by lra. apply Qceiling_comp. exact H.
  - rewrite !int_floor by lra. apply Qfloor_comp. exact H.
Qed.

Lemma clamp_maxZ_minZ (h : Z) : Py.maxZ 0 (Py.minZ 100 h) = clamp 0 100 h.
Proof.
  unfold Py.maxZ, Py.minZ, clamp.
  repeat match goal with
         | |- context [(?x <? ?y)%Z] => destruct (Z.ltb_spec x y)
         | |- context [(?x >? ?y)%Z] =>
             rewrite (Z.gtb_ltb x y); destruct (Z.ltb_spec y x)
         end; lia.
Qed.

Lemma operations_score_spec (n : nat) :
  operations_score (Z.of_nat n) = spec_enhancement n.
Proof.
  destruct n as [|[|[|n]]]; try reflexivity.
  unfold operations_score, spec_enhancement.
  replace (Z.of_nat (S (S (S n))) =? 0)%Z with false
    by (symmetry; apply Z.eqb_neq; lia).
  replace (Z.of_nat (S (S (S n))) =? 1)%Z with false
    by (symmetry; apply Z.eqb_neq; lia).
  replace (Z.of_nat (S (S (S n))) =? 2)%Z with false
    by (symmetry; apply Z.eqb_neq; lia).
  apply py_max_Qmax.
Qed.

(** With the four scored keys present, the sum of the code is the
    weighted sum of the five sub-scores as the specification words
    them, and the score is its hundredfold, truncated and clamped. *)
Lemma harmony_score_formula (s r j c : Q) (ft : option FacialThirds)
    (ops : list Operation) :
  let m := mkMeasurements (Some s) (Some r) (Some j) (Some c) ft in
  total_score (harmony_scores m ops)
  == spec_weighted_sum s r j c (List.length ops)
  /\ calculate_harmony_score m ops
     = clamp 0 100
         (Py.int (100 * spec_weighted_sum s r j c (List.length ops))).
Proof.
  intro m.
  assert (E : total_score (harmony_scores m ops)
              == spec_weighted_sum s r j c (List.length ops)).
  { unfold m, harmony_scores, total_score, spec_weighted_sum.
    cbn [symmetry_score nose_to_ipd_ratio jaw_asymmetry chin_projection
         Py.get fold_left].
    cbv zeta.
    rewrite operations_score_spec, !py_max_Qmax.
    change BEAUTY_RULES.nose.ideal_nose_to_ipd with 0.75.
    unfold Py.abs.
    assert (En : Qmax 0 (1 - Qabs (r - 0.75) / 0.75 * 2)
                 == Qmax 0 (1 - 2 * Qabs (r - 0.75) / 0.75))
      by (apply Q.max_compat; [reflexivity | field]).
    assert (Ej : Qmax 0 (1 - j / 10.0) == Qmax 0 (1 - j / 10))
      by (apply Q.max_compat; [reflexivity | field]).
    assert (Ec : (if Py.gt c 0 then Py.min 1.0 (c / 20.0) else 0.7)
                 == (if Qlt_le_dec 0 c then Qmin 1 (c / 20) else 0.7)).
    { destruct (Qlt_le_dec 0 c) as [Hc|Hc].
      - apply gt_true in Hc. rewrite Hc, py_min_Qmin.
        apply Q.min_compat; [reflexivity | field].
      - apply gt_false in Hc. rewrite Hc. reflexivity. }
    rewrite En, Ej, Ec. ring. }
  split; [exact E|].
  unfold calculate_harmony_score. rewrite clamp_maxZ_minZ.
  f_equal. apply int_compat. rewrite E. ring.
Qed.

(** C4, evaluated at scenario A with its own plan.  The weighted sum
    times 100 is 92.75; the code truncates it to 92, where rounding, as
    the claim and the comment in the code word it, gives 93. *)
Theorem C4_score_truncates_scenario_A :
  plan_changes scenario_A = [ op_nose "refine_tip" (1 - 0.15 * 0.7) ]
  /\ total_score (harmony_scores scenario_A (plan_changes scenario_A)) * 100
     == 92.75
  /\ 100 * spec_weighted_sum 0.95 0.75 0 0 1 == 92.75
  /\ calculate_harmony_score scenario_A (plan_changes scenario_A) = 92%Z
  /\ spec_harmony_score 0.95 0.75 0 0 1 = 93%Z.
Proof. repeat split; vm_compute; reflexivity. Qed.

(** The claim C5 as it is written fails: lowering symmetry_score from
    0.95 to 0.94 in scenario A leaves the score at 92. *)
Lemma C5_counterexample_equal_scores :
  0.94 < 0.95
  /\ ~ (calculate_harmony_score (with_symmetry scenario_A 0.94)
          (plan_changes scenario_A)
        < calculate_harmony_score (with_symmetry scenario_A 0.95)
            (plan_changes scenario_A))%Z.
Proof.
  split; [reflexivity|].
  vm_compute. intro H. discriminate H.
Qed.

(** C5, amended. For every fixed operation list and every pair of
    measurement records identical except in symmetry_score, the score of
    the record with the smaller symmetry_score is not larger: the score
    never increases as symmetry_score decreases (it is an integer, so it
    stays equal over small changes). *)
Theorem C5_score_monotone_in_symmetry
    (m : Measurements) (ops : list Operation) (s1 s2 : Q) :
  s1 <= s2 ->
  (calculate_harmony_score (with_symmetry m s1) ops
   <= calculate_harmony_score (with_symmetry m s2) ops)%Z.
Proof.
  intro H. unfold calculate_harmony_score.
  apply clamp_monotone, int_monotone.
  unfold harmony_scores, total_score.
  cbn [with_symmetry symmetry_score nose_to_ipd_ratio jaw_asymmetry
       chin_projection Py.get fold_left].
  cbv zeta.
  generalize (Py.max 0
    (1 - Py.abs (Py.get (nose_to_ipd_ratio m) BEAUTY_RULES.nose.ideal_nose_to_ipd
                 - BEAUTY_RULES.nose.ideal_nose_to_ipd)
         / BEAUTY_RULES.nose.ideal_nose_to_ipd * 2)).
  generalize (Py.max 0 (1 - Py.get (jaw_asymmetry m) 0 / 10.0)).
  generalize (if Py.gt (Py.get (chin_projection m) 0) 0
              then Py.min 1.0 (Py.get (chin_projection m) 0 / 20.0)
              else 0.7).
  generalize (operations_score (Z.of_nat (List.length ops))).
  intros e c j n. lra.
Qed.

Lemma C5_score_monotone_in_symmetry_witness :
  0.5 <= 0.95
  /\ (calculate_harmony_score (with_symmetry scenario_A 0.5)
        (plan_changes scenario_A)
      <= calculate_harmony_score (with_symmetry scenario_A 0.95)
           (plan_changes scenario_A))%Z.
Proof.
  assert (H : 0.5 <= 0.95) by discriminate.
  split; [exact H|].
  exact (C5_score_monotone_in_symmetry scenario_A (plan_changes scenario_A)
           0.5 0.95 H).
Defined.

(** ** The renderers *)

Import ImageProcessor.

Section RendererGuards.
Context {Image : Type} {cv : Cv2 Image}.
Variable image : Image.

Lemma height_nonneg : (0 <= height image)%Z.
Proof. unfold height. lia. Qed.

Lemma int_of_nonneg (x : Q) : 0 <= x -> (0 <= Py.int x)%Z.
Proof. intro H. apply (int_monotone 0 x H). Qed.

Lemma int_of_nonpos (x : Q) : x <= 0 -> (Py.int x <= 0)%Z.
Proof. intro H. apply (int_monotone x 0 H). Qed.

Lemma shrink_nose_width_guard (op : Operation) (f : Q) :
  factor op = Some f -> f < 0.70 \/ 1.0 <= f ->
  _shrink_nose_width image op = image.
Proof.
  intros Hf Hout. unfold _shrink_nose_width. rewrite Hf. cbn [Py.get].
  replace (Py.ge f 1.0 || Py.lt f 0.70) with true; [reflexivity|].
  symmetry. apply orb_true_iff.
  destruct Hout as [H|H]; [right; apply lt_true | left; apply ge_true];
    exact H.
Qed.

Lemma refine_nose_tip_guard (op : Operation) (f : Q) :
  factor op = Some f -> f < 0.80 \/ 1.0 <= f ->
  _refine_nose_tip image op = image.
Proof.
  intros Hf Hout. unfold _refine_nose_tip. rewrite Hf. cbn [Py.get].
  replace (Py.ge f 1.0 || Py.lt f 0.80) with true; [reflexivity|].
  symmetry. apply orb_true_iff.
  destruct Hout as [H|H]; [right; apply lt_true | left; apply ge_true];
    exact H.
Qed.

Lemma refine_nose_bridge_guard (op : Operation) (f : Q) :
  factor op = Some f -> f < 0.85 \/ 1.0 <= f ->
  _refine_nose_bridge image op = image.
Proof.
  intros Hf Hout. unfold _refine_nose_bridge. rewrite Hf. cbn [Py.get].
  replace (Py.ge f 1.0 || Py.lt f 0.85) with true; [reflexivity|].
  symmetry. apply orb_true_iff.
  destruct Hout as [H|H]; [right; apply lt_true | left; apply ge_true];
    exact H.
Qed.

Lemma balance_jaw_guard (op : Operation) (x : Q) :
  mm op = Some x -> x == 0 \/ 2.0 < x ->
  _balance_jaw image op = image.
Proof.
  intros Hx Hout. unfold _balance_jaw. rewrite Hx. cbn [Py.get].
  replace (Py.eq x 0 || Py.gt x 2.0) with true; [reflexivity|].
  symmetry. apply orb_true_iff.
  destruct Hout as [H|H]; [left; apply eq_true | right; apply gt_true];
    exact H.
Qed.

Lemma improve_symmetry_guard (op : Operation) (a : Q) :
  amount op = Some a -> a == 0 \/ 0.15 < a ->
  _improve_symmetry image op = image.
Proof.
  intros Ha Hout. unfold _improve_symmetry. rewrite Ha. cbn [Py.get].
  replace (Py.eq a 0 || Py.gt a 0.15) with true; [reflexivity|].
  symmetry. apply orb_true_iff.
  destruct Hout as [H|H]; [left; apply eq_true | right; apply gt_true];
    exact H.
Qed.

(** A negative chin amount passes the first guard and is stopped by
    the second: the stretch it gives is below one pixel. *)
Lemma enhance_chin_guard (op : Operation) (a : Q) :
  amount op = Some a -> a <= 0 \/ 0.2 < a ->
  _enhance_chin image op = image.
Proof.
  intros Ha Hout. unfold _enhance_chin. rewrite Ha. cbn [Py.get].
  destruct (Py.eq a 0 || Py.gt a 0.2) eqn:G; [reflexivity|].
  apply orb_false_iff in G. destruct G as [_ G]. apply gt_false in G.
  destruct Hout as [Hneg|Hbig]; [|lra].
  cbv zeta.
  set (chin_height := Py.int (inject_Z (height image) * 0.15)).
  assert (Hh : (0 <= chin_height)%Z).
  { apply int_of_nonneg.
    assert (H0 : 0 <= inject_Z (height image)).
    { change 0 with (inject_Z 0). rewrite <- Zle_Qle. apply height_nonneg. }
    lra. }
  assert (Hs : (Py.int (inject_Z chin_height * a * 0.5) <= 0)%Z).
  { apply int_of_nonpos.
    assert (H0 : 0 <= inject_Z chin_height).
    { change 0 with (inject_Z 0). rewrite <- Zle_Qle. exact Hh. }
    assert (H1 : inject_Z chin_height * a <= 0).
    { nra. }
    lra. }
  replace (Py.int (inject_Z chin_height * a * 0.5) <? 1)%Z with true;
    [reflexivity|].
  symmetry. apply Z.ltb_lt. lia.
Qed.
End RendererGuards.

(** The claim C6 as it is written fails for jaw/balance and
    face/symmetry: a negative parameter is outside the window and is
    rendered.  On a 1000 x 1000 image, mm = -5 gives a pixel correction
    of -30 and the left jaw quadrilateral is warped outward by 21
    pixels; amount = -0.1 blends the columns 350 to 650 with their
    mirror image at strength -0.04. *)
Lemma C6_counterexample_negative_parameters :
  (~ (0 < -5 /\ -5 <= 2.0)
   /\ _balance_jaw photo (with_mm (-5)) <> photo
   /\ _balance_jaw photo (with_mm (-5))
      = trace photo
          (CallPerspective
             (Polygon [(300, 700); (500, 700); (500, 900); (300, 900)]%Z) 21
             (quad (inject_Z 300) (inject_Z 500) (inject_Z 700) (inject_Z 900))
             (quad (inject_Z 300 - inject_Z 30 * 0.7)
                   (inject_Z 500 + inject_Z 30 * 0.7)
                   (inject_Z 700) (inject_Z 900))))
  /\ (~ (0 < -0.1 /\ -0.1 <= 0.15)
      /\ _improve_symmetry photo (with_amount "face" "symmetry" (-0.1)) <> photo
      /\ _improve_symmetry photo (with_amount "face" "symmetry" (-0.1))
         = trace photo
             (CallMirror (Ellipse (500, 500) (300, 350))%Z 25 350 650
                (-0.1 * 0.4))).
Proof.
  split; split.
  - intros [H _]. discriminate H.
  - split; [|vm_compute; reflexivity].
    intro H. apply (f_equal calls) in H. vm_compute in H. discriminate H.
  - intros [H _]. discriminate H.
  - split; [|vm_compute; reflexivity].
    intro H. apply (f_equal calls) in H. vm_compute in H. discriminate H.
Qed.

(** C6, amended. For every image buffer and every operation, the
    renderer returns the input image unchanged when: the shrink_width
    factor is outside [0.70, 1.0); the refine_tip factor is outside
    [0.80, 1.0); the refine_bridge factor is outside [0.85, 1.0); the
    jaw/balance mm is 0 or above 2.0; the face/symmetry amount is 0 or
    above 0.15; the chin/enhance amount is outside (0, 0.2]. *)
Theorem C6_renderer_guards {Image : Type} {cv : Cv2 Image}
    (image : Image) (op : Operation) :
  (forall f, factor op = Some f -> ~ (0.70 <= f /\ f < 1.0) ->
             _shrink_nose_width image op = image)
  /\ (forall f, factor op = Some f -> ~ (0.80 <= f /\ f < 1.0) ->
                _refine_nose_tip image op = image)
  /\ (forall f, factor op = Some f -> ~ (0.85 <= f /\ f < 1.0) ->
                _refine_nose_bridge image op = image)
  /\ (forall x, mm op = Some x -> x == 0 \/ 2.0 < x ->
                _balance_jaw image op = image)
  /\ (forall a, amount op = Some a -> a == 0 \/ 0.15 < a ->
                _improve_symmetry image op = image)
  /\ (forall a, amount op = Some a -> ~ (0 < a /\ a <= 0.2) ->
                _enhance_chin image op = image).
Proof.
  assert (window : forall lo hi f : Q,
             ~ (lo <= f /\ f < hi) -> f < lo \/ hi <= f).
  { intros lo hi f H.
    destruct (Qlt_le_dec f lo) as [Hlo|Hlo]; [left; exact Hlo|].
    destruct (Qlt_le_dec f hi) as [Hhi|Hhi]; [|right; exact Hhi].
    exfalso. apply H. split; assumption. }
  repeat split.
  - intros f Hf H. apply (shrink_nose_width_guard image op f Hf).
    apply window. exact H.
  - intros f Hf H. apply (refine_nose_tip_guard image op f Hf).
    apply window. exact H.
  - intros f Hf H. apply (refine_nose_bridge_guard image op f Hf).
    apply window. exact H.
  - intros x Hx H. exact (balance_jaw_guard image op x Hx H).
  - intros a Ha H. exact (improve_symmetry_guard image op a Ha H).
  - intros a Ha H. apply (enhance_chin_guard image op a Ha).
    destruct (Qlt_le_dec 0 a) as [Hpos|Hneg]; [|left; exact Hneg].
    destruct (Qlt_le_dec 0.2 a) as [Hbig|Hsmall]; [right; exact Hbig|].
    exfalso. apply H. split; assumption.
Qed.

Lemma C6_renderer_guards_witness :
  (factor (with_factor "nose" "shrink_width" 0.5) = Some 0.5
   /\ ~ (0.70 <= 0.5 /\ 0.5 < 1.0)
   /\ _shrink_nose_width photo (with_factor "nose" "shrink_width" 0.5) = photo)
  /\ (mm (with_mm 3) = Some 3 /\ (3 == 0 \/ 2.0 < 3)
      /\ _balance_jaw photo (with_mm 3) = photo)
  /\ (amount (with_amount "chin" "enhance" (-0.1)) = Some (-0.1)
      /\ ~ (0 < -0.1 /\ -0.1 <= 0.2)
      /\ _enhance_chin photo (with_amount "chin" "enhance" (-0.1)) = photo).
Proof.
  assert (H1 : ~ (0.70 <= 0.5 /\ 0.5 < 1.0)).
  { intros [H _]. apply H. reflexivity. }
  assert (H2 : 3 == 0 \/ 2.0 < 3) by (right; reflexivity).
  assert (H3 : ~ (0 < -0.1 /\ -0.1 <= 0.2)).
  { intros [H _]. discriminate H. }
  split; [|split]; (split; [exact eq_refl|]); (split; [assumption|]).
  - exact (proj1 (C6_renderer_guards photo (with_factor "nose" "shrink_width" 0.5))
             0.5 eq_refl H1).
  - exact (proj1 (proj2 (proj2 (proj2
             (C6_renderer_guards photo (with_mm 3))))) 3 eq_refl H2).
  - exact (proj2 (proj2 (proj2 (proj2 (proj2
             (C6_renderer_guards photo (with_amount "chin" "enhance" (-0.1)))))))
             (-0.1) eq_refl H3).
Defined.

(** ** Upper-third operations of the planner *)

Section UpperThird.
Context {Image : Type} {cv : Cv2 Image}.

(** The upper-third renderer returns its input beyond the Botox
    limit. *)
Lemma adjust_upper_third_beyond (image : Image) (deviation : Q) :
  0.02 < Qabs deviation -> _adjust_upper_third image deviation = image.
Proof.
  intro H. unfold _adjust_upper_third. cbv zeta.
  replace (Py.gt (Py.abs deviation) 0.02) with true; [reflexivity|].
  symmetry. apply gt_true. exact H.
Qed.

Lemma nose_not_third (m : Measurements) :
  Forall (fun op => of_type "adjust_upper_third" op = false) (nose_ops m).
Proof.
  unfold nose_ops, plan_nose. cbv zeta.
  destruct (Py.gt (Py.get _ _) _).
  - destruct (Py.gt _ 0.15); destruct (Py.gt _ 0.12); repeat constructor.
  - destruct (Py.lt _ _); repeat constructor.
Qed.

Lemma of_type_excludes (t1 t2 : string) (op : Operation) :
  of_type t1 op = true -> (t1 =? t2)%string = false -> of_type t2 op = false.
Proof.
  unfold of_type. intros H1 H2. apply String.eqb_eq in H1.
  rewrite H1. exact H2.
Qed.

(** An upper-third operation of a plan carries the ideal 0.33 as its
    target and a current value further than 0.05 from it. *)
Lemma planned_upper_third (m : Measurements) (op : Operation) :
  In op (plan_changes m) -> of_type "adjust_upper_third" op = true ->
  exists cur, op = op_third "upper" cur 0.33 /\ 0.05 < Qabs (cur - 0.33).
Proof.
  rewrite plan_changes_planned, planned_tiers, !in_app_iff.
  intros Hin Ht.
  assert (Hthird : third_op op).
  { destruct Hin as [H|[H|[H|[H|H]]]].
    - pose proof (symmetry_region m) as F. rewrite Forall_forall in F.
      destruct (F op H) as [_ F2].
      rewrite (of_type_excludes _ "adjust_upper_third" _ F2 eq_refl) in Ht.
      discriminate Ht.
    - pose proof (nose_not_third m) as F. rewrite Forall_forall in F.
      rewrite (F op H) in Ht. discriminate Ht.
    - pose proof (jaw_region m) as F. rewrite Forall_forall in F.
      destruct (F op H) as [_ F2].
      rewrite (of_type_excludes _ "adjust_upper_third" _ F2 eq_refl) in Ht.
      discriminate Ht.
    - pose proof (chin_region m) as F. rewrite Forall_forall in F.
      destruct (F op H) as [_ F2].
      rewrite (of_type_excludes _ "adjust_upper_third" _ F2 eq_refl) in Ht.
      discriminate Ht.
    - pose proof (thirds_region m) as F. rewrite Forall_forall in F.
      exact (F op H). }
  destruct Hthird as (third_name & cur & ideal & -> & Hname & Hdev).
  simpl in Hname.
  destruct Hname as [E|[E|[E|[]]]]; inversion E; subst;
    try discriminate Ht.
  exists cur. split; [reflexivity | exact Hdev].
Qed.
End UpperThird.

(** C9. For every measurement record and every image buffer, every
    face/adjust_upper_third operation of the plan is rendered as the
    identity: the planner emits it only with [|current - ideal| > 0.05],
    the upper-third renderer returns its input whenever the deviation
    exceeds 0.02 in absolute value, and so [_apply_single_operation]
    returns the image it was given. *)
Theorem C9_planned_upper_third_identity {Image : Type} {cv : Cv2 Image}
    (m : Measurements) (image : Image) (op : Operation) :
  In op (plan_changes m) ->
  of_type "adjust_upper_third" op = true ->
  (exists cur, op = op_third "upper" cur 0.33 /\ 0.05 < Qabs (cur - 0.33))
  /\ (forall deviation, 0.02 < Qabs deviation ->
                        _adjust_upper_third image deviation = image)
  /\ _apply_single_operation image op = image.
Proof.
  intros Hin Ht.
  destruct (planned_upper_third m op Hin Ht) as (cur & -> & Hdev).
  split; [exists cur; split; [reflexivity | exact Hdev]|].
  split; [intros d Hd; apply adjust_upper_third_beyond; exact Hd|].
  unfold _apply_single_operation.
  cbn [op_third region type Py.get].
  change (("face" =? "nose")%string) with false.
  change (("face" =? "jaw")%string) with false.
  change (("face" =? "chin")%string) with false.
  change (("face" =? "face")%string) with true.
  change ((("adjust_" ++ "upper" ++ "_third") =? "symmetry")%string) with false.
  change (Py.contains "third" ("adjust_" ++ "upper" ++ "_third")) with true.
  cbn [andb].
  unfold _adjust_facial_third.
  cbn [op_third type current target Py.get].
  cbv zeta.
  destruct (Py.lt (Py.abs (0.33 - cur)) 0.01); [reflexivity|].
  change (Py.contains "upper" ("adjust_" ++ "upper" ++ "_third")) with true.
  cbv iota.
  apply adjust_upper_third_beyond.
  rewrite Qabs_Qminus. lra.
Qed.

Lemma C9_planned_upper_third_identity_witness :
  In (op_third "upper" 0.2 0.33)
     (plan_changes (measured 0.95 0.75 0 0 0.2 0.33 0.34))
  /\ of_type "adjust_upper_third" (op_third "upper" 0.2 0.33) = true
  /\ _apply_single_operation photo (op_third "upper" 0.2 0.33) = photo.
Proof.
  assert (Hin : In (op_third "upper" 0.2 0.33)
                   (plan_changes (measured 0.95 0.75 0 0 0.2 0.33 0.34))).
  { vm_compute. right. left. reflexivity. }
  split; [exact Hin|]. split; [exact eq_refl|].
  exact (proj2 (proj2 (C9_planned_upper_third_identity
                         (measured 0.95 0.75 0 0 0.2 0.33 0.34) photo
                         (op_third "upper" 0.2 0.33) Hin eq_refl))).
Defined.

(** ** The compositor entry point *)

(** C10. For every image path, [apply_operations] returns [None] when
    the operation list is empty or when the image cannot be loaded, and
    leaves the files as they are; it returns an output path only for a
    non-empty operation list on a loadable image, and then the path is
    the one derived from the image path and the file written there
    holds the image after all operations, in list order. *)
Theorem C10_apply_operations_result {Image : Type} {cv : Cv2 Image}
    (files : Files Image) (image_path : string) (ops : list Operation) :
  (ops = [] \/ files image_path = None ->
     apply_operations files image_path ops = (None, files))
  /\ (forall out files',
        apply_operations files image_path ops = (Some out, files') ->
        ops <> [] /\ exists image, files image_path = Some image)
  /\ (forall image,
        ops <> [] -> files image_path = Some image ->
        apply_operations files image_path ops
        = (Some (output_path_of image_path),
           write files (output_path_of image_path)
             (jpeg (fold_left _apply_single_operation ops image)))).
Proof.
  unfold apply_operations. split; [|split].
  - intros [H|H].
    + rewrite H. reflexivity.
    + rewrite H. destruct ops; reflexivity.
  - intros out files' H.
    destruct ops as [|op ops']; [discriminate H|].
    split; [discriminate|].
    destruct (files image_path) as [image|]; [|discriminate H].
    exists image. reflexivity.
  - intros image Hops Hfile. rewrite Hfile.
    destruct ops; [contradiction Hops; reflexivity | reflexivity].
Qed.

Lemma C10_apply_operations_result_witness :
  (@nil Operation = [] \/
   (fun _ : string => Some photo) "face.jpg"%string = None)
  /\ apply_operations (fun _ => Some photo) "face.jpg" []
     = (None, fun _ => Some photo).
Proof.
  assert (H : @nil Operation = [] \/
              (fun _ : string => Some photo) "face.jpg"%string = None)
    by (left; reflexivity).
  split; [exact H|].
  exact (proj1 (C10_apply_operations_result (fun _ => Some photo)
                  "face.jpg" []) H).
Defined.

(** ** The recommendations *)

Section RecommendationFacts.
Variable fmt_1f : Q -> string.
Variable fmt_pct : Q -> string.

(** One turn of the loop appends what the operation discloses. *)
Lemma describe_disclosure (recs nose : list string) (op : Operation) :
  describe fmt_1f fmt_pct (recs, nose) op
  = (recs ++ own_sentence fmt_1f fmt_pct op,
     nose ++ rhinoplasty_phrase fmt_1f fmt_pct op).
Proof.
  unfold describe, own_sentence, rhinoplasty_phrase, disclosure.
  cbv zeta.
  destruct (String.eqb_spec (Py.get (region op) EmptyString) "nose") as [Hn|Hn].
  - rewrite Hn. cbn [String.eqb Ascii.eqb Bool.eqb andb].
    destruct (Py.get (type op) EmptyString =? "shrink_width")%string;
      [rewrite ?app_nil_r; reflexivity|].
    destruct (Py.get (type op) EmptyString =? "refine_tip")%string;
      [rewrite ?app_nil_r; reflexivity|].
    destruct (Py.get (type op) EmptyString =? "refine_bridge")%string;
      rewrite ?app_nil_r; reflexivity.
  - destruct (String.eqb_spec (Py.get (region op) EmptyString) "face") as [Hf|Hf].
    + rewrite Hf. cbn [String.eqb Ascii.eqb Bool.eqb andb].
      destruct (Py.get (type op) EmptyString =? "symmetry")%string;
        [rewrite ?app_nil_r; reflexivity|].
      destruct (Py.contains "third" (Py.get (type op) EmptyString));
        rewrite ?app_nil_r; reflexivity.
    + cbn [andb].
      destruct ((Py.get (region op) EmptyString =? "jaw")%string
                && (Py.get (type op) EmptyString =? "balance")%string);
        [rewrite ?app_nil_r; reflexivity|].
      destruct ((Py.get (region op) EmptyString =? "chin")%string
                && (Py.get (type op) EmptyString =? "enhance")%string);
        rewrite ?app_nil_r; reflexivity.
Qed.

Lemma loop_disclosure (ops : list Operation) (recs nose : list string) :
  fold_left (describe fmt_1f fmt_pct) ops (recs, nose)
  = (recs ++ sentences fmt_1f fmt_pct ops,
     nose ++ phrases fmt_1f fmt_pct ops).
Proof.
  revert recs nose.
  induction ops as [|op ops IH]; intros recs nose.
  - cbn. rewrite !app_nil_r. reflexivity.
  - cbn [fold_left]. rewrite describe_disclosure, IH.
    unfold sentences, phrases.
    cbn [flat_map]. rewrite <- !app_assoc. reflexivity.
Qed.

End RecommendationFacts.

(** ** The disclosure of a plan, in binary64 *)

Section Binary64Disclosure.
Import Binary64 Binary64.BeautyRulesEngine Binary64Spec.
Variable fmt_1f : float -> string.
Variable fmt_pct : float -> string.

(** One turn of the loop, on an operation the planner can write,
    appends what the specification discloses of it. *)
Lemma describe_written (recs nose : list string) (op : Operation) :
  planner_written op ->
  describe fmt_1f fmt_pct (recs, nose) op
  = (recs ++ own_sentence fmt_1f fmt_pct op,
     nose ++ rhinoplasty_phrase fmt_1f fmt_pct op).
Proof.
  destruct 1; unfold describe, own_sentence, rhinoplasty_phrase, disclosure;
    cbv zeta;
    cbn [region type Py.get symmetry_operation nose_operation jaw_operation
         chin_operation third_operation String.eqb Ascii.eqb Bool.eqb andb];
    rewrite ?app_nil_r; try reflexivity;
    unfold third_caption, Py64.le, Py64.abs; cbv zeta;
    cbn [current target Py.get third_operation];
    try reflexivity.
  change (Py.contains "third" "adjust_upper_third") with true.
  change (Py.contains "upper" "adjust_upper_third") with true.
  cbv iota.
  destruct (PrimFloat.leb _ _); rewrite app_nil_r; reflexivity.
Qed.

Lemma loop_written (ops : list Operation) (recs nose : list string) :
  Forall planner_written ops ->
  fold_left (describe fmt_1f fmt_pct) ops (recs, nose)
  = (recs ++ sentences fmt_1f fmt_pct ops,
     nose ++ phrases fmt_1f fmt_pct ops).
Proof.
  intro H. revert recs nose.
  induction H as [|op ops Hop _ IH]; intros recs nose.
  - cbn. rewrite !app_nil_r. reflexivity.
  - cbn [fold_left]. rewrite (describe_written _ _ _ Hop), IH.
    unfold sentences, phrases.
    cbn [flat_map]. rewrite <- !app_assoc. reflexivity.
Qed.

(** An operation the planner can write is disclosed: as a phrase when
    its region is the nose, as a sentence otherwise; either way it gives
    one string. *)
Lemma written_disclosed (op : Operation) :
  planner_written op -> disclosed_by_region fmt_1f fmt_pct op.
Proof.
  destruct 1; unfold disclosed_by_region, in_region, disclosure;
    cbv zeta;
    cbn [region type Py.get symmetry_operation nose_operation jaw_operation
         chin_operation third_operation String.eqb Ascii.eqb Bool.eqb andb];
    try (eexists; reflexivity).
  destruct (PrimFloat.leb _ _); eexists; reflexivity.
Qed.

Lemma disclosed_one_string (op : Operation) :
  disclosed_by_region fmt_1f fmt_pct op ->
  (List.length (own_sentence fmt_1f fmt_pct op)
   + List.length (rhinoplasty_phrase fmt_1f fmt_pct op))%nat = 1%nat.
Proof.
  unfold disclosed_by_region, own_sentence, rhinoplasty_phrase.
  destruct (in_region "nose" op); intros [s Hs]; rewrite Hs; reflexivity.
Qed.

Lemma disclosed_strings (ops : list Operation) :
  Forall (disclosed_by_region fmt_1f fmt_pct) ops ->
  (List.length (sentences fmt_1f fmt_pct ops)
   + List.length (phrases fmt_1f fmt_pct ops))%nat
  = List.length ops.
Proof.
  induction 1 as [|op ops Hop _ IH]; [reflexivity|].
  pose proof (disclosed_one_string op Hop) as H1.
  unfold sentences, phrases in *.
  cbn [flat_map]. rewrite !length_app. cbn [List.length].
  lia.
Qed.

(** The nose tier is never empty, so a plan always has a phrase. *)
Lemma plan_has_phrase (m : Measurements) :
  phrases fmt_1f fmt_pct (plan_changes m) <> [].
Proof.
  rewrite plan_changes_tiers64.
  unfold phrases. rewrite !flat_map_app.
  destruct (nose_tier_first m) as (op & rest & Hnose).
  pose proof (nose_written m) as Hw. rewrite Hnose in Hw.
  inversion Hw as [|? ? [Hop [Hregion _]] _]; subst.
  pose proof (written_disclosed op Hop) as Hd.
  unfold disclosed_by_region in Hd. rewrite Hregion in Hd.
  destruct Hd as [phrase Hphrase].
  assert (E : rhinoplasty_phrase fmt_1f fmt_pct op = [phrase]).
  { unfold rhinoplasty_phrase. rewrite Hphrase. reflexivity. }
  rewrite Hnose. cbn [flat_map]. rewrite E. cbn [app].
  intro H. apply app_eq_nil in H. destruct H as [_ H].
  discriminate H.
Qed.
End Binary64Disclosure.

Section MergedSentence.
Import Binary64Spec.

Lemma string_app_assoc (a b c : string) :
  ((a ++ b) ++ c = a ++ b ++ c)%string.
Proof.
  induction a as [|ch a IH]; [reflexivity|].
  cbn. rewrite IH. reflexivity.
Qed.

Lemma string_app_empty (a : string) : (a ++ EmptyString)%string = a.
Proof.
  induction a as [|ch a IH]; [reflexivity|].
  cbn. rewrite IH. reflexivity.
Qed.

(** [", ".join] separates by a comma and a space. *)
Lemma join_comma_separated (items : list string) :
  Py.join ", " items = comma_separated items.
Proof.
  unfold Py.join.
  induction items as [|item [|next rest] IH]; [reflexivity | reflexivity |].
  cbn [String.concat comma_separated] in *. rewrite IH. reflexivity.
Qed.

(** Every item is a part of the separated list, and so of the merged
    sentence. *)
Lemma item_occurs (items : list string) (item : string) :
  In item items -> occurs_in item (comma_separated items).
Proof.
  induction items as [|first rest IH]; [contradiction|].
  intros [->|Hin].
  - destruct rest as [|next rest].
    + exists EmptyString, EmptyString.
      cbn [comma_separated append]. symmetry. apply string_app_empty.
    + exists EmptyString, (", " ++ comma_separated (next :: rest))%string.
      reflexivity.
  - destruct rest as [|next rest]; [contradiction|].
    destruct (IH Hin) as (before & after & Heq).
    exists (first ++ ", " ++ before)%string, after.
    change (comma_separated (first :: next :: rest))
      with (first ++ ", " ++ comma_separated (next :: rest))%string.
    rewrite Heq.
    rewrite (string_app_assoc first), (string_app_assoc ", ").
    reflexivity.
Qed.

Lemma phrase_occurs (items : list string) (item : string) :
  In item items -> occurs_in item (rhinoplasty_sentence items).
Proof.
  intro Hin. destruct (item_occurs items item Hin) as (before & after & Heq).
  unfold rhinoplasty_sentence. rewrite Heq.
  exists ("Comprehensive Rhinoplasty: " ++ before)%string,
    (after ++ " - creates more refined, elegant nasal proportions for enhanced facial harmony")%string.
  rewrite !string_app_assoc. reflexivity.
Qed.
End MergedSentence.

Section Binary64FullDisclosure.
Import Binary64 Binary64.BeautyRulesEngine Binary64Spec.

(** C8. For every operation list produced by [plan_changes], every
    operation produces or contributes to exactly one string of
    [get_readable_recommendations]: each nose operation gives one phrase,
    and the phrases, separated by commas, make the single comprehensive
    rhinoplasty sentence placed at the front, so that every phrase is a
    part of the first string; every other operation gives exactly one
    sentence, and the sentences follow in list order; the empty
    operation list gives exactly the fixed two lines. *)
Theorem C8_full_disclosure (fmt_1f fmt_pct : float -> string)
    (m : Measurements) :
  let ops := plan_changes m in
  let out := get_readable_recommendations fmt_1f fmt_pct ops in
  Forall (disclosed_by_region fmt_1f fmt_pct) ops
  /\ (List.length (sentences fmt_1f fmt_pct ops)
      + List.length (phrases fmt_1f fmt_pct ops))%nat = List.length ops
  /\ phrases fmt_1f fmt_pct ops <> []
  /\ out = rhinoplasty_sentence (phrases fmt_1f fmt_pct ops)
           :: sentences fmt_1f fmt_pct ops
  /\ Forall (fun phrase => occurs_in phrase (hd EmptyString out))
       (phrases fmt_1f fmt_pct ops)
  /\ tl out = sentences fmt_1f fmt_pct ops
  /\ get_readable_recommendations fmt_1f fmt_pct []
     = [ "Your facial features are already well-balanced!";
         "No enhancements recommended - your facial harmony is optimal"
       ]%string.
Proof.
  intros ops out.
  assert (Hd : Forall (disclosed_by_region fmt_1f fmt_pct) ops).
  { eapply Forall_impl; [|apply plan_written].
    apply written_disclosed. }
  assert (Hp : phrases fmt_1f fmt_pct ops <> []) by apply plan_has_phrase.
  assert (Hout : out = rhinoplasty_sentence (phrases fmt_1f fmt_pct ops)
                       :: sentences fmt_1f fmt_pct ops).
  { unfold out, get_readable_recommendations.
    rewrite (loop_written fmt_1f fmt_pct ops [] [] (plan_written m)).
    cbn [app].
    destruct (phrases fmt_1f fmt_pct ops) as [|phrase rest] eqn:E;
      [contradiction Hp; reflexivity|].
    rewrite join_comma_separated. reflexivity. }
  split; [exact Hd|].
  split; [apply disclosed_strings; exact Hd|].
  split; [exact Hp|].
  split; [exact Hout|].
  split.
  { rewrite Hout. cbn [hd]. apply Forall_forall.
    intros phrase Hin. apply phrase_occurs. exact Hin. }
  split; [rewrite Hout; reflexivity | reflexivity].
Qed.

(** At the ratio 0.9 the width reduction is printed as 19%: the factor
    is computed as 0.8 and (1 - 0.8) * 100 as 19.999999999999996. *)
Lemma disclosure_at_ratio_09 :
  get_readable_recommendations (fun _ => EmptyString) (fun _ => EmptyString)
    (plan_changes (measured 0.95 0.9 0 0 0.33 0.33 0.34))
  = [ "Comprehensive Rhinoplasty: 19% overall nasal width reduction, nasal tip refinement and definition, nasal bridge narrowing - creates more refined, elegant nasal proportions for enhanced facial harmony"
    ]%string.
Proof. vm_compute. reflexivity. Qed.
End Binary64FullDisclosure.

(** * Further properties of the code *)

(** ** The plan *)

Section PlanShape.
Variable m : Measurements.

(** An operation of the plan belongs to one tier. *)
Lemma plan_tier (op : Operation) :
  In op (plan_changes m) ->
  In op (symmetry_ops m) \/ In op (nose_ops m) \/ In op (jaw_ops m)
  \/ In op (chin_ops m) \/ In op (thirds_ops m).
Proof.
  rewrite plan_changes_planned, planned_tiers, !in_app_iff. tauto.
Qed.

Lemma symmetry_length : (List.length (symmetry_ops m) <= 1)%nat.
Proof.
  unfold symmetry_ops, plan_symmetry. cbv zeta.
  destruct (Py.lt _ _); cbn; lia.
Qed.

Lemma nose_length : (1 <= List.length (nose_ops m) <= 3)%nat.
Proof.
  unfold nose_ops, plan_nose. cbv zeta.
  destruct (Py.gt (Py.get _ _) _).
  - destruct (Py.gt _ 0.15); destruct (Py.gt _ 0.12); cbn; lia.
  - destruct (Py.lt _ _); cbn; lia.
Qed.

Lemma jaw_length : (List.length (jaw_ops m) <= 1)%nat.
Proof.
  unfold jaw_ops, plan_jaw. cbv zeta.
  destruct (Py.gt _ _); cbn; lia.
Qed.

Lemma chin_length : (List.length (chin_ops m) <= 1)%nat.
Proof.
  unfold chin_ops, plan_chin. cbv zeta.
  destruct (Py.gt _ _); [destruct (Py.lt _ _)|]; cbn; lia.
Qed.

Lemma check_third_length (ft : FacialThirds) third :
  (List.length (check_third ft [] third) <= 1)%nat.
Proof.
  destruct third as [[get_third third_name] ideal]. unfold check_third.
  destruct (Py.gt _ _); cbn; lia.
Qed.

Lemma thirds_length : (List.length (thirds_ops m) <= 3)%nat.
Proof.
  unfold thirds_ops, plan_thirds. cbv zeta.
  destruct (thirds_truthy _); [|cbn; lia].
  rewrite app_nil_l, analyze_facial_thirds_tiers, !length_app.
  pose proof (check_third_length (Py.get (facial_thirds m)
    (mkFacialThirds None None None))) as H.
  pose proof (H (upper, "upper"%string, BEAUTY_RULES.facial_thirds.ideal_upper)).
  pose proof (H (middle, "middle"%string, BEAUTY_RULES.facial_thirds.ideal_middle)).
  pose proof (H (lower, "lower"%string, BEAUTY_RULES.facial_thirds.ideal_lower)).
  lia.
Qed.
End PlanShape.

Lemma plan_length (m : Measurements) :
  (1 <= List.length (plan_changes m) <= 9)%nat.
Proof.
  rewrite plan_changes_planned, planned_tiers, !length_app.
  pose proof (symmetry_length m). pose proof (nose_length m).
  pose proof (jaw_length m). pose proof (chin_length m).
  pose proof (thirds_length m). lia.
Qed.

(** X1. A plan is never empty and never longer than nine operations:
    the nose tier gives one to three operations for every record, the
    symmetry, jaw and chin tiers at most one each, the facial thirds at
    most three. *)
Theorem plan_changes_size (m : Measurements) :
  (1 <= List.length (plan_changes m) <= 9)%nat
  /\ (1 <= List.length (filter (in_region "nose") (plan_changes m)) <= 3)%nat.
Proof.
  rewrite nose_filter, plan_changes_planned, planned_tiers, !length_app.
  pose proof (symmetry_length m). pose proof (nose_length m).
  pose proof (jaw_length m). pose proof (chin_length m).
  pose proof (thirds_length m). lia.
Qed.

Section PlanWindows.
Variable m : Measurements.

Lemma symmetry_ops_window : Forall symmetry_window (symmetry_ops m).
Proof.
  unfold symmetry_ops, plan_symmetry. cbv zeta.
  destruct (Py.lt _ _) eqn:E; [|constructor].
  apply lt_true in E.
  constructor; [|constructor].
  eexists. split; [reflexivity|].
  rewrite py_min_Qmin.
  change BEAUTY_RULES.global.target_symmetry with 0.9 in *.
  change BEAUTY_RULES.global.max_symmetry_delta with 0.15.
  split.
  - apply Q.min_glb_lt; lra.
  - apply Q.le_min_r.
Qed.

Lemma jaw_ops_window : Forall jaw_window (jaw_ops m).
Proof.
  unfold jaw_ops, plan_jaw. cbv zeta.
  destruct (Py.gt _ _) eqn:E; [|constructor].
  apply gt_true in E.
  constructor; [|constructor].
  eexists. split; [reflexivity|].
  rewrite py_min_Qmin.
  change BEAUTY_RULES.jaw.max_asymmetry_correction with 2.0.
  split.
  - apply Q.min_glb_lt; [exact E | reflexivity].
  - apply Q.le_min_r.
Qed.

Lemma nose_ops_window : Forall nose_window (nose_ops m).
Proof.
  unfold nose_ops, plan_nose. cbv zeta.
  destruct (Py.gt (Py.get _ _) _) eqn:E.
  - apply gt_true in E.
    change BEAUTY_RULES.nose.ideal_nose_to_ipd with 0.75 in *.
    change BEAUTY_RULES.nose.max_reduction with 0.30.
    set (r := Py.get (nose_to_ipd_ratio m) 1.0) in *.
    assert (Hex : 0 < r / 0.75 - 1.0).
    { unfold Qdiv. change (/ 0.75) with (100 # 75). lra. }
    assert (Hshrink : nose_window
              (op_nose "shrink_width" (1 - Py.min (r / 0.75 - 1.0) 0.30))).
    { eexists. split; [reflexivity|]. left. split; [reflexivity|].
      rewrite py_min_Qmin.
      assert (H1 : Qmin (r / 0.75 - 1.0) 0.30 <= 0.30) by apply Q.le_min_r.
      assert (H2 : 0 < Qmin (r / 0.75 - 1.0) 0.30)
        by (apply Q.min_glb_lt; [exact Hex | reflexivity]).
      split; lra. }
    assert (Htip : nose_window
              (op_nose "refine_tip" (1 - BEAUTY_RULES.nose.tip_refinement))).
    { eexists. split; [reflexivity|]. right. left.
      split; [reflexivity|]. split; [discriminate | reflexivity]. }
    assert (Hbridge : nose_window
              (op_nose "refine_bridge" (1 - BEAUTY_RULES.nose.bridge_refinement))).
    { eexists. split; [reflexivity|]. right. right.
      split; [reflexivity|]. split; [discriminate | reflexivity]. }
    destruct (Py.gt _ 0.15); destruct (Py.gt _ 0.12); cbn [app];
      repeat (constructor; [assumption|]); constructor.
  - destruct (Py.lt _ _); cbn [app]; repeat constructor;
      eexists; (split; [reflexivity|]);
      first [ right; left; split; [reflexivity|];
              split; [discriminate | reflexivity]
            | right; right; split; [reflexivity|];
              split; [discriminate | reflexivity] ].
Qed.
End PlanWindows.

(** X2. Every face/symmetry operation of a plan carries an amount in
    (0, 0.15], the window of the symmetry renderer. *)
Theorem planned_symmetry_in_window (m : Measurements) (op : Operation) :
  In op (plan_changes m) ->
  in_region "face" op = true -> of_type "symmetry" op = true ->
  symmetry_window op.
Proof.
  intros Hin Hr Ht.
  destruct (plan_tier m op Hin) as [H|[H|[H|[H|H]]]].
  - pose proof (symmetry_ops_window m) as F. rewrite Forall_forall in F.
    exact (F op H).
  - pose proof (nose_region m) as F. rewrite Forall_forall in F.
    specialize (F op H). unfold in_region in *.
    apply String.eqb_eq in F. rewrite F in Hr. discriminate Hr.
  - pose proof (jaw_region m) as F. rewrite Forall_forall in F.
    destruct (F op H) as [F1 _]. unfold in_region in *.
    apply String.eqb_eq in F1. rewrite F1 in Hr. discriminate Hr.
  - pose proof (chin_region m) as F. rewrite Forall_forall in F.
    destruct (F op H) as [F1 _]. unfold in_region in *.
    apply String.eqb_eq in F1. rewrite F1 in Hr. discriminate Hr.
  - pose proof (thirds_region m) as F. rewrite Forall_forall in F.
    destruct (third_op_face op (F op H)) as (_ & F2 & _).
    rewrite F2 in Ht. discriminate Ht.
Qed.

(** X3. Every nose operation of a plan carries a factor inside the
    window of its renderer: shrink_width in [0.70, 1.0), refine_tip in
    [0.80, 1.0), refine_bridge in [0.85, 1.0). *)
Theorem planned_nose_in_window (m : Measurements) (op : Operation) :
  In op (plan_changes m) -> in_region "nose" op = true -> nose_window op.
Proof.
  intros Hin Hr.
  assert (H : In op (filter (in_region "nose") (plan_changes m)))
    by (apply filter_In; split; assumption).
  rewrite nose_filter in H.
  pose proof (nose_ops_window m) as F. rewrite Forall_forall in F.
  exact (F op H).
Qed.

(** X4. Every jaw operation of a plan carries a correction in
    (1.0, 2.0]: above the 1 mm trigger and capped at the maximal
    correction, inside the window of the jaw renderer. *)
Theorem planned_jaw_in_window (m : Measurements) (op : Operation) :
  In op (plan_changes m) -> in_region "jaw" op = true -> jaw_window op.
Proof.
  intros Hin Hr.
  destruct (plan_tier m op Hin) as [H|[H|[H|[H|H]]]].
  - pose proof (symmetry_region m) as F. rewrite Forall_forall in F.
    destruct (F op H) as [F1 _]. unfold in_region in *.
    apply String.eqb_eq in F1. rewrite F1 in Hr. discriminate Hr.
  - pose proof (nose_region m) as F. rewrite Forall_forall in F.
    specialize (F op H). unfold in_region in *.
    apply String.eqb_eq in F. rewrite F in Hr. discriminate Hr.
  - pose proof (jaw_ops_window m) as F. rewrite Forall_forall in F.
    exact (F op H).
  - pose proof (chin_region m) as F. rewrite Forall_forall in F.
    destruct (F op H) as [F1 _]. unfold in_region in *.
    apply String.eqb_eq in F1. rewrite F1 in Hr. discriminate Hr.
  - pose proof (thirds_region m) as F. rewrite Forall_forall in F.
    destruct (third_op_face op (F op H)) as (F1 & _).
    unfold in_region in *.
    apply String.eqb_eq in F1. rewrite F1 in Hr. discriminate Hr.
Qed.

(** ** The sub-scores *)

Section SubScores.

Lemma max0_bounds (x : Q) : x <= 1 -> 0 <= Py.max 0 x /\ Py.max 0 x <= 1.
Proof.
  intro H. rewrite py_max_Qmax. split.
  - apply Q.le_max_l.
  - apply Q.max_lub; [discriminate | exact H].
Qed.

Lemma operations_score_bounds (n : nat) :
  0.5 <= operations_score (Z.of_nat n)
  /\ operations_score (Z.of_nat n) <= 1.0
  /\ ((1 <= n)%nat -> operations_score (Z.of_nat n) <= 0.9).
Proof.
  rewrite operations_score_spec.
  destruct n as [|[|[|n]]].
  - repeat split; try discriminate. intro H. lia.
  - repeat split; discriminate.
  - repeat split; discriminate.
  - unfold spec_enhancement.
    assert (Hk : 1 <= inject_Z (Z.of_nat (S (S (S n))) - 2)).
    { change 1 with (inject_Z 1). rewrite <- Zle_Qle. lia. }
    assert (Hle : Qmax 0.5 (1.0 - inject_Z (Z.of_nat (S (S (S n))) - 2) * 0.1)
                  <= 0.9)
      by (apply Q.max_lub; [discriminate | lra]).
    split; [apply Q.le_max_l|].
    split; [lra | intros _; exact Hle].
Qed.

(** From three operations on the fifth sub-score only falls. *)
Lemma operations_score_antitone (a b : nat) :
  (3 <= a <= b)%nat ->
  operations_score (Z.of_nat b) <= operations_score (Z.of_nat a).
Proof.
  intros [Ha Hab]. rewrite !operations_score_spec.
  destruct a as [|[|[|a]]]; try lia.
  destruct b as [|[|[|b]]]; try lia.
  unfold spec_enhancement.
  apply Q.max_le_compat_l.
  assert (H : inject_Z (Z.of_nat (S (S (S a))) - 2)
              <= inject_Z (Z.of_nat (S (S (S b))) - 2))
    by (rewrite <- Zle_Qle; lia).
  lra.
Qed.

Lemma chin_score_bounds (c : Q) :
  let chin_score :=
    if Py.gt c 0 then Py.min 1.0 (c / 20.0) else 0.7 in
  0 <= chin_score /\ chin_score <= 1.
Proof.
  cbv zeta. destruct (Py.gt c 0) eqn:E; [|split; discriminate].
  apply gt_true in E. rewrite py_min_Qmin. split.
  - apply Q.min_glb; [discriminate|].
    unfold Qdiv. change (/ 20.0) with (10 # 200). lra.
  - apply Qle_trans with 1.0; [apply Q.le_min_l | discriminate].
Qed.

(** The score follows the fifth sub-score. *)
Lemma score_by_operations_score (m : Measurements) (o1 o2 : list Operation) :
  operations_score (Z.of_nat (List.length o1))
  <= operations_score (Z.of_nat (List.length o2)) ->
  (calculate_harmony_score m o1 <= calculate_harmony_score m o2)%Z.
Proof.
  intro H. unfold calculate_harmony_score.
  apply clamp_monotone, int_monotone.
  unfold harmony_scores, total_score. cbn [fold_left]. cbv zeta.
  revert H.
  generalize (operations_score (Z.of_nat (List.length o1))).
  generalize (operations_score (Z.of_nat (List.length o2))).
  generalize (Py.max 0
    (1 - Py.abs (Py.get (nose_to_ipd_ratio m) BEAUTY_RULES.nose.ideal_nose_to_ipd
                 - BEAUTY_RULES.nose.ideal_nose_to_ipd)
         / BEAUTY_RULES.nose.ideal_nose_to_ipd * 2)).
  generalize (Py.max 0 (1 - Py.get (jaw_asymmetry m) 0 / 10.0)).
  generalize (if Py.gt (Py.get (chin_projection m) 0) 0
              then Py.min 1.0 (Py.get (chin_projection m) 0 / 20.0)
              else 0.7).
  generalize (Py.get (symmetry_score m) 0.8).
  intros s c j n e2 e1 H. lra.
Qed.

(** The hundredfold sum of a record with symmetry in [0, 1] and a
    non-negative jaw asymmetry. *)
Lemma total_bounds (m : Measurements) (ops : list Operation) :
  0 <= Py.get (symmetry_score m) 0.8 -> Py.get (symmetry_score m) 0.8 <= 1 ->
  0 <= Py.get (jaw_asymmetry m) 0 ->
  let t := total_score (harmony_scores m ops) * 100 in
  7.5 <= t /\ t <= 100
  /\ ((1 <= List.length ops)%nat -> t <= 98.5).
Proof.
  intros Hs0 Hs1 Hj. cbv zeta.
  unfold harmony_scores, total_score. cbn [fold_left]. cbv zeta.
  assert (Hn : 1 - Py.abs (Py.get (nose_to_ipd_ratio m)
                             BEAUTY_RULES.nose.ideal_nose_to_ipd
                           - BEAUTY_RULES.nose.ideal_nose_to_ipd)
                   / BEAUTY_RULES.nose.ideal_nose_to_ipd * 2 <= 1).
  { change BEAUTY_RULES.nose.ideal_nose_to_ipd with 0.75.
    unfold Py.abs, Qdiv. change (/ 0.75) with (100 # 75).
    pose proof (Qabs_nonneg (Py.get (nose_to_ipd_ratio m) 0.75 - 0.75)).
    lra. }
  assert (Hjs : 1 - Py.get (jaw_asymmetry m) 0 / 10.0 <= 1).
  { unfold Qdiv. change (/ 10.0) with (10 # 100). lra. }
  destruct (max0_bounds _ Hn) as [Hn0 Hn1].
  destruct (max0_bounds _ Hjs) as [Hj0 Hj1].
  destruct (chin_score_bounds (Py.get (chin_projection m) 0)) as [Hc0 Hc1].
  destruct (operations_score_bounds (List.length ops)) as (He0 & He1 & He2).
  revert Hn0 Hn1 Hj0 Hj1 Hc0 Hc1 He0 He1 He2.
  generalize (operations_score (Z.of_nat (List.length ops))).
  generalize (Py.max 0
    (1 - Py.abs (Py.get (nose_to_ipd_ratio m) BEAUTY_RULES.nose.ideal_nose_to_ipd
                 - BEAUTY_RULES.nose.ideal_nose_to_ipd)
         / BEAUTY_RULES.nose.ideal_nose_to_ipd * 2)).
  generalize (Py.max 0 (1 - Py.get (jaw_asymmetry m) 0 / 10.0)).
  generalize (if Py.gt (Py.get (chin_projection m) 0) 0
              then Py.min 1.0 (Py.get (chin_projection m) 0 / 20.0)
              else 0.7).
  revert Hs0 Hs1.
  generalize (Py.get (symmetry_score m) 0.8).
  intros s Hs0 Hs1 c j n e Hn0 Hn1 Hj0 Hj1 Hc0 Hc1 He0 He1 He2.
  split; [lra|]. split; [lra|].
  intro H. specialize (He2 H). lra.
Qed.
End SubScores.

Lemma valid_score_unclamped (m : Measurements) (ops : list Operation) :
  0 <= Py.get (symmetry_score m) 0.8 -> Py.get (symmetry_score m) 0.8 <= 1 ->
  0 <= Py.get (jaw_asymmetry m) 0 ->
  calculate_harmony_score m ops
  = Py.int (total_score (harmony_scores m ops) * 100).
Proof.
  intros Hs0 Hs1 Hj.
  destruct (total_bounds m ops Hs0 Hs1 Hj) as (Hlo & Hhi & _).
  pose proof (int_monotone _ _ Hlo) as H7.
  pose proof (int_monotone _ _ Hhi) as H100.
  change (Py.int 7.5) with 7%Z in H7.
  change (Py.int 100) with 100%Z in H100.
  unfold calculate_harmony_score.
  rewrite clamp_maxZ_minZ. unfold clamp. lia.
Qed.

(** X5. For a record with symmetry_score in [0, 1] (0.8 when absent)
    and a non-negative jaw_asymmetry, the final clamp never acts: the
    score is the truncated hundredfold weighted sum itself, and it lies
    between 7 and 100. *)
Theorem harmony_score_valid_record (m : Measurements) (ops : list Operation) :
  0 <= Py.get (symmetry_score m) 0.8 -> Py.get (symmetry_score m) 0.8 <= 1 ->
  0 <= Py.get (jaw_asymmetry m) 0 ->
  calculate_harmony_score m ops
  = Py.int (total_score (harmony_scores m ops) * 100)
  /\ (7 <= calculate_harmony_score m ops <= 100)%Z.
Proof.
  intros Hs0 Hs1 Hj.
  destruct (total_bounds m ops Hs0 Hs1 Hj) as (Hlo & Hhi & _).
  pose proof (int_monotone _ _ Hlo) as H7.
  pose proof (int_monotone _ _ Hhi) as H100.
  change (Py.int 7.5) with 7%Z in H7.
  change (Py.int 100) with 100%Z in H100.
  rewrite (valid_score_unclamped m ops Hs0 Hs1 Hj).
  split; [reflexivity | lia].
Qed.

(** X6. Scored with its own plan, such a record never reaches 99: a
    plan holds at least one operation, and the fifth sub-score is then
    at most 0.9. *)
Theorem harmony_score_of_own_plan (m : Measurements) :
  0 <= Py.get (symmetry_score m) 0.8 -> Py.get (symmetry_score m) 0.8 <= 1 ->
  0 <= Py.get (jaw_asymmetry m) 0 ->
  (calculate_harmony_score m (plan_changes m) <= 98)%Z.
Proof.
  intros Hs0 Hs1 Hj.
  destruct (total_bounds m (plan_changes m) Hs0 Hs1 Hj) as (_ & _ & Hhi).
  destruct (plan_length m) as [Hlen _].
  specialize (Hhi Hlen).
  pose proof (int_monotone _ _ Hhi) as H98.
  change (Py.int 98.5) with 98%Z in H98.
  rewrite (valid_score_unclamped m (plan_changes m) Hs0 Hs1 Hj).
  exact H98.
Qed.

(** X7. From three operations on, a longer operation list never scores
    higher than a shorter one on the same record. *)
Theorem harmony_score_falls_from_three (m : Measurements)
    (o1 o2 : list Operation) :
  (3 <= List.length o1)%nat -> (List.length o1 <= List.length o2)%nat ->
  (calculate_harmony_score m o2 <= calculate_harmony_score m o1)%Z.
Proof.
  intros H3 Hle. apply score_by_operations_score.
  apply operations_score_antitone. split; assumption.
Qed.

(** X8. The score is not monotone in the number of operations: on every
    record a list of exactly three operations scores at least as high as
    any list of one or two operations (the fifth sub-score is 0.85 for
    one, 0.70 for two and 0.90 for three operations). *)
Theorem harmony_score_three_beats_fewer (m : Measurements)
    (few three : list Operation) :
  List.length three = 3%nat ->
  (1 <= List.length few <= 2)%nat ->
  (calculate_harmony_score m few <= calculate_harmony_score m three)%Z.
Proof.
  intros H3 Hfew. apply score_by_operations_score. rewrite H3.
  destruct (List.length few) as [|[|[|n]]]; try lia; discriminate.
Qed.

(** X9. For every fixed operation list and every pair of records
    identical except in jaw_asymmetry, the record with the larger
    jaw_asymmetry never scores higher. *)
Theorem harmony_score_antitone_in_jaw (m : Measurements)
    (ops : list Operation) (j1 j2 : Q) :
  j1 <= j2 ->
  (calculate_harmony_score (with_jaw m j2) ops
   <= calculate_harmony_score (with_jaw m j1) ops)%Z.
Proof.
  intro H. unfold calculate_harmony_score.
  apply clamp_monotone, int_monotone.
  unfold harmony_scores, total_score.
  cbn [with_jaw symmetry_score nose_to_ipd_ratio jaw_asymmetry
       chin_projection Py.get fold_left].
  cbv zeta.
  assert (Hj : Py.max 0 (1 - j2 / 10.0) <= Py.max 0 (1 - j1 / 10.0)).
  { rewrite !py_max_Qmax. apply Q.max_le_compat_l.
    unfold Qdiv. change (/ 10.0) with (10 # 100). lra. }
  revert Hj.
  generalize (Py.max 0 (1 - j2 / 10.0)), (Py.max 0 (1 - j1 / 10.0)).
  generalize (Py.max 0
    (1 - Py.abs (Py.get (nose_to_ipd_ratio m) BEAUTY_RULES.nose.ideal_nose_to_ipd
                 - BEAUTY_RULES.nose.ideal_nose_to_ipd)
         / BEAUTY_RULES.nose.ideal_nose_to_ipd * 2)).
  generalize (if Py.gt (Py.get (chin_projection m) 0) 0
              then Py.min 1.0 (Py.get (chin_projection m) 0 / 20.0)
              else 0.7).
  generalize (operations_score (Z.of_nat (List.length ops))).
  generalize (Py.get (symmetry_score m) 0.8).
  intros s e c n b2 b1 Hj. lra.
Qed.

(** ** Recommendations and labels of arbitrary lists *)

Section AnyList.
Variable fmt_1f : Q -> string.
Variable fmt_pct : Q -> string.

Lemma disclosed_at_most_once (ops : list Operation) :
  (List.length (sentences fmt_1f fmt_pct ops)
   + List.length (phrases fmt_1f fmt_pct ops) <= List.length ops)%nat.
Proof.
  induction ops as [|op ops IH]; [cbn; lia|].
  unfold sentences, phrases in *.
  cbn [flat_map]. rewrite !length_app. cbn [List.length].
  assert (List.length (own_sentence fmt_1f fmt_pct op)
          + List.length (rhinoplasty_phrase fmt_1f fmt_pct op) <= 1)%nat.
  { unfold own_sentence, rhinoplasty_phrase.
    destruct (disclosure fmt_1f fmt_pct op); cbn; lia. }
  lia.
Qed.

Lemma unknown_undisclosed (op : Operation) :
  unknown_region op -> disclosure fmt_1f fmt_pct op = Undisclosed.
Proof.
  unfold unknown_region, disclosure. cbv zeta.
  intros (Hf & Hn & Hj & Hc).
  apply String.eqb_neq in Hf, Hn, Hj, Hc.
  rewrite Hf, Hn, Hj, Hc. reflexivity.
Qed.

Lemma unknown_silent (ops : list Operation) :
  Forall unknown_region ops ->
  sentences fmt_1f fmt_pct ops = [] /\ phrases fmt_1f fmt_pct ops = [].
Proof.
  induction 1 as [|op ops Hop _ [IH1 IH2]]; [split; reflexivity|].
  unfold sentences, phrases in *. cbn [flat_map].
  rewrite IH1, IH2.
  unfold own_sentence, rhinoplasty_phrase.
  rewrite (unknown_undisclosed op Hop). split; reflexivity.
Qed.

Lemma label_app (labels : list string) (op : Operation) :
  label labels op = labels ++ label [] op.
Proof.
  unfold label. cbv zeta.
  repeat match goal with
         | |- context [if ?c then _ else _] => destruct c
         end;
    rewrite <- ?app_assoc, ?app_nil_r; reflexivity.
Qed.

Lemma labels_from (ops : list Operation) (labels : list string) :
  fold_left label ops labels = labels ++ get_procedure_labels ops.
Proof.
  unfold get_procedure_labels. revert labels.
  induction ops as [|op ops IH]; intro labels; cbn [fold_left].
  - rewrite app_nil_r. reflexivity.
  - rewrite IH, (IH (label [] op)), (label_app labels).
    rewrite <- app_assoc. reflexivity.
Qed.

Lemma labels_cons (op : Operation) (ops : list Operation) :
  get_procedure_labels (op :: ops) = label [] op ++ get_procedure_labels ops.
Proof.
  unfold get_procedure_labels at 1. cbn [fold_left]. apply labels_from.
Qed.

Lemma thirds_unlabelled (ops : list Operation) :
  Forall third_op ops -> get_procedure_labels ops = [].
Proof.
  induction 1 as [|op ops Hop _ IH]; [reflexivity|].
  rewrite labels_cons, IH, app_nil_r.
  destruct Hop as (third_name & cur & ideal & -> & Hin & _).
  simpl in Hin.
  destruct Hin as [H|[H|[H|[]]]]; inversion H; subst; reflexivity.
Qed.

Lemma label_at_most_two (op : Operation) :
  (List.length (label [] op) <= 2)%nat.
Proof.
  unfold label. cbv zeta.
  repeat match goal with
         | |- context [if ?c then _ else _] => destruct c
         end; cbn; lia.
Qed.

Lemma unknown_unlabelled (op : Operation) :
  unknown_region op -> label [] op = [].
Proof.
  unfold unknown_region, label. cbv zeta.
  intros (Hf & Hn & Hj & Hc).
  apply String.eqb_neq in Hf, Hn, Hj, Hc.
  rewrite Hf, Hn, Hj, Hc. reflexivity.
Qed.
End AnyList.

(** X10. For every operation list, known operations or not, the
    recommendation list is never empty, and it holds at most one string
    per operation, or the two fixed lines. *)
Theorem recommendations_never_empty (fmt_1f fmt_pct : Q -> string)
    (ops : list Operation) :
  let result := get_readable_recommendations fmt_1f fmt_pct ops in
  result <> []
  /\ (List.length result <= Nat.max 2 (List.length ops))%nat.
Proof.
  cbv zeta. unfold get_readable_recommendations.
  rewrite loop_disclosure. cbn [app].
  pose proof (disclosed_at_most_once fmt_1f fmt_pct ops) as H.
  destruct (phrases fmt_1f fmt_pct ops) as [|phrase rest].
  - destruct (sentences fmt_1f fmt_pct ops) as [|sentence more].
    + split; [discriminate|].
      unfold text_balanced. cbn [List.length]. lia.
    + split; [discriminate|]. cbn [List.length plus] in *. lia.
  - split; [discriminate|]. cbn [List.length plus] in *. lia.
Qed.

(** X11. Operations whose region is none of face, nose, jaw and chin
    are dropped without a trace: a list of such operations, however
    long, is described by the two fixed already-balanced lines and gets
    no procedure label. *)
Theorem unknown_operations_dropped (fmt_1f fmt_pct : Q -> string)
    (ops : list Operation) :
  Forall unknown_region ops ->
  get_readable_recommendations fmt_1f fmt_pct ops
  = [ "Your facial features are already well-balanced!";
      "No enhancements recommended - your facial harmony is optimal"
    ]%string
  /\ get_procedure_labels ops = [].
Proof.
  intro H. split.
  - unfold get_readable_recommendations. rewrite loop_disclosure.
    destruct (unknown_silent fmt_1f fmt_pct ops H) as [E1 E2].
    rewrite E1, E2. reflexivity.
  - induction H as [|op ops Hop _ IH]; [reflexivity|].
    rewrite labels_cons, (unknown_unlabelled op Hop). exact IH.
Qed.

Lemma unknown_operations_dropped_witness :
  Forall unknown_region [bare "lips" "augment"; bare "brow" "lift"]
  /\ get_readable_recommendations (fun _ => EmptyString) (fun _ => EmptyString)
       [bare "lips" "augment"; bare "brow" "lift"]
     = [ "Your facial features are already well-balanced!";
         "No enhancements recommended - your facial harmony is optimal"
       ]%string.
Proof.
  assert (H : Forall unknown_region
                [bare "lips" "augment"; bare "brow" "lift"]).
  { repeat constructor; discriminate. }
  split; [exact H|].
  exact (proj1 (unknown_operations_dropped _ _ _ H)).
Defined.

(** X12. An upper-third operation of a plan is always described by the
    surgical caption: its deviation exceeds 0.05, so the Botox caption,
    kept for deviations up to 0.02, is never chosen for it. *)
Theorem planned_upper_third_caption (fmt_1f fmt_pct : Q -> string)
    (m : Measurements) (op : Operation) (recs nose : list string) :
  In op (plan_changes m) -> of_type "adjust_upper_third" op = true ->
  exists cur,
    current op = Some cur
    /\ describe fmt_1f fmt_pct (recs, nose) op
       = (recs ++ [text_upper_surgery fmt_pct cur 0.33], nose).
Proof.
  intros Hin Ht.
  destruct (planned_upper_third m op Hin Ht) as (cur & -> & Hdev).
  exists cur. split; [reflexivity|].
  unfold describe. cbn [op_third region type Py.get].
  change (("face" =? "face")%string) with true.
  change (("face" =? "nose")%string) with false.
  change (("face" =? "jaw")%string) with false.
  change (("face" =? "chin")%string) with false.
  change ((("adjust_" ++ "upper" ++ "_third") =? "symmetry")%string) with false.
  change (Py.contains "third" ("adjust_" ++ "upper" ++ "_third")) with true.
  cbn [andb]. cbv iota.
  unfold third_caption. cbn [op_third current target Py.get].
  change (Py.contains "upper" ("adjust_" ++ "upper" ++ "_third")) with true.
  cbv iota zeta.
  replace (Py.le (Py.abs (0.33 - cur)) 0.02) with false; [reflexivity|].
  symmetry. unfold Py.le.
  destruct (Qle_bool (Py.abs (0.33 - cur)) 0.02) eqn:E; [|reflexivity].
  apply Qle_bool_iff in E. unfold Py.abs in E.
  rewrite Qabs_Qminus in E. lra.
Qed.

Lemma planned_upper_third_caption_witness :
  In (op_third "upper" 0.2 0.33)
     (plan_changes (measured 0.95 0.75 0 0 0.2 0.33 0.34))
  /\ of_type "adjust_upper_third" (op_third "upper" 0.2 0.33) = true
  /\ exists cur,
       current (op_third "upper" 0.2 0.33) = Some cur
       /\ describe (fun _ => EmptyString) (fun _ => EmptyString) ([], [])
            (op_third "upper" 0.2 0.33)
          = ([] ++ [text_upper_surgery (fun _ => EmptyString) cur 0.33], []).
Proof.
  assert (Hin : In (op_third "upper" 0.2 0.33)
                   (plan_changes (measured 0.95 0.75 0 0 0.2 0.33 0.34))).
  { vm_compute. right. left. reflexivity. }
  split; [exact Hin|]. split; [exact eq_refl|].
  exact (planned_upper_third_caption _ _ _ _ [] [] Hin eq_refl).
Defined.

(** X13. The labels of a concatenation are the labels of its parts in
    order, and a list gets at most two labels per operation. *)
Theorem procedure_labels_compose (ops1 ops2 : list Operation) :
  get_procedure_labels (ops1 ++ ops2)
  = get_procedure_labels ops1 ++ get_procedure_labels ops2
  /\ (List.length (get_procedure_labels ops1) <= 2 * List.length ops1)%nat.
Proof.
  split.
  - unfold get_procedure_labels at 1. rewrite fold_left_app.
    fold (get_procedure_labels ops1). apply labels_from.
  - induction ops1 as [|op ops IH]; [cbn; lia|].
    rewrite labels_cons, length_app.
    pose proof (label_at_most_two op). cbn [List.length]. lia.
Qed.

(** X14. The facial-thirds operations of a plan are disclosed in the
    recommendations and never labelled: the labels of a plan are those
    of its symmetry, nose, jaw and chin operations, and there is always
    at least one. *)
Theorem planned_thirds_unlabelled (m : Measurements) :
  get_procedure_labels (thirds_ops m) = []
  /\ get_procedure_labels (plan_changes m)
     = get_procedure_labels
         (symmetry_ops m ++ nose_ops m ++ jaw_ops m ++ chin_ops m)
  /\ get_procedure_labels (plan_changes m) <> [].
Proof.
  assert (Ht : get_procedure_labels (thirds_ops m) = [])
    by (apply thirds_unlabelled, thirds_region).
  assert (Happ : forall a b, get_procedure_labels (a ++ b)
                  = get_procedure_labels a ++ get_procedure_labels b).
  { intros a b. unfold get_procedure_labels at 1. rewrite fold_left_app.
    fold (get_procedure_labels a). apply labels_from. }
  split; [exact Ht|].
  rewrite plan_changes_planned, planned_tiers.
  split.
  - rewrite !Happ, Ht, app_nil_r. reflexivity.
  - rewrite !Happ. intro H.
    apply app_eq_nil in H. destruct H as [_ H].
    apply app_eq_nil in H. destruct H as [H _].
    revert H. unfold nose_ops, plan_nose. cbv zeta.
    destruct (Py.gt (Py.get _ _) _).
    + destruct (Py.gt _ 0.15); destruct (Py.gt _ 0.12); discriminate.
    + destruct (Py.lt _ _); discriminate.
Qed.

(** ** Renderers on planned operations *)

Section VisibilityFacts.

(** [int] of a non-negative integer scaled by a fraction. *)
Lemma int_inject (k : Z) : Py.int (inject_Z k) = k.
Proof. unfold Py.int. cbn [inject_Z Qnum Qden]. apply Z.quot_1_r. Qed.

Lemma int_scale (z n : Z) (d : positive) :
  (0 <= z)%Z -> (0 <= n)%Z ->
  Py.int (inject_Z z * (n # d)) = (z * n / Z.pos d)%Z.
Proof.
  intros Hz Hn. unfold Py.int. cbn [Qmult inject_Z Qnum Qden Pos.mul].
  apply Z.quot_div_nonneg; lia.
Qed.

Lemma int_scale2 (z n1 n2 : Z) (d1 d2 : positive) :
  (0 <= z)%Z -> (0 <= n1)%Z -> (0 <= n2)%Z ->
  Py.int (inject_Z z * (n1 # d1) * (n2 # d2))
  = (z * n1 * n2 / Z.pos (d1 * d2))%Z.
Proof.
  intros Hz H1 H2. unfold Py.int. cbn [Qmult inject_Z Qnum Qden Pos.mul].
  apply Z.quot_div_nonneg; nia.
Qed.
End VisibilityFacts.

Section ChinVisibility.
Context {Image : Type} {cv : Cv2 Image}.
Variable image : Image.

Lemma chin_stretch :
  Py.int (inject_Z (Py.int (inject_Z (height image) * 0.15)) * 0.15 * 0.5)
  = (height image * 15 / 100 * 15 * 5 / 1000)%Z.
Proof.
  pose proof (height_nonneg image) as Hh.
  rewrite (int_scale (height image) 15 100) by lia.
  rewrite int_scale2; [reflexivity| |lia|lia].
  apply Z.div_pos; lia.
Qed.
End ChinVisibility.

(** X16. The chin operation of the planner (amount 0.15) shows only on
    images of at least 94 rows: below that its stretch is under one
    pixel and the renderer returns the image unchanged; from 94 rows on
    it reaches the perspective warp. *)
Theorem planned_chin_visibility {Image : Type} {cv : Cv2 Image}
    (image : Image) :
  ((height image < 94)%Z -> _enhance_chin image (op_chin 0.15) = image)
  /\ ((94 <= height image)%Z ->
      exists mask src dst,
        _enhance_chin image (op_chin 0.15)
        = perspective_blend image mask 15 src dst).
Proof.
  pose proof (height_nonneg image) as Hh.
  unfold _enhance_chin. cbn [op_chin amount Py.get].
  change (Py.eq 0.15 0 || Py.gt 0.15 0.2) with false.
  cbv iota zeta. rewrite (chin_stretch image).
  split; intro H.
  - replace (height image * 15 / 100 * 15 * 5 / 1000 <? 1)%Z with true;
      [reflexivity|].
    symmetry. apply Z.ltb_lt.
    Z.to_euclidean_division_equations. lia.
  - replace (height image * 15 / 100 * 15 * 5 / 1000 <? 1)%Z with false.
    + eexists. eexists. eexists. reflexivity.
    + symmetry. apply Z.ltb_ge.
      Z.to_euclidean_division_equations. lia.
Qed.

Section PassThrough.
Context {Image : Type} {cv : Cv2 Image}.

Lemma unknown_single (image : Image) (op : Operation) :
  unknown_region op -> _apply_single_operation image op = image.
Proof.
  unfold unknown_region, _apply_single_operation. cbv zeta.
  intros (Hf & Hn & Hj & Hc).
  apply String.eqb_neq in Hf, Hn, Hj, Hc.
  rewrite Hf, Hn, Hj, Hc. reflexivity.
Qed.

Lemma unknown_fold (ops : list Operation) (image : Image) :
  Forall unknown_region ops ->
  fold_left _apply_single_operation ops image = image.
Proof.
  induction 1 as [|op ops Hop _ IH]; [reflexivity|].
  cbn [fold_left]. rewrite (unknown_single image op Hop). exact IH.
Qed.
End PassThrough.

(** X15. Operations of an unknown region pass the image through
    unchanged, one by one and as a list; [apply_operations] on a
    non-empty list of such operations still reports an output path and
    writes the unchanged image there. *)
Theorem unknown_operations_pass_through {Image : Type} {cv : Cv2 Image}
    (files : Files Image) (image_path : string) (image : Image)
    (ops : list Operation) :
  Forall unknown_region ops ->
  fold_left _apply_single_operation ops image = image
  /\ (ops <> [] -> files image_path = Some image ->
      apply_operations files image_path ops
      = (Some (output_path_of image_path),
         write files (output_path_of image_path) (jpeg image))).
Proof.
  intro H. split; [apply unknown_fold; exact H|].
  intros Hne Hfile. unfold apply_operations. rewrite Hfile.
  destruct ops as [|op ops']; [contradiction Hne; reflexivity|].
  unfold _save_processed_image.
  rewrite (unknown_fold (op :: ops') image H). reflexivity.
Qed.

Lemma unknown_operations_pass_through_witness :
  Forall unknown_region [bare "lips" "augment"]
  /\ fold_left _apply_single_operation [bare "lips" "augment"] photo = photo.
Proof.
  assert (H : Forall unknown_region [bare "lips" "augment"]).
  { repeat constructor; discriminate. }
  split; [exact H|].
  exact (proj1 (unknown_operations_pass_through
                  (fun _ => Some photo) "face.jpg" photo _ H)).
Defined.

(** ** The jaw operation of the planner *)

Section JawFacts.
Context {Image : Type} {cv : Cv2 Image}.
Variable image : Image.

Lemma width_nonneg : (0 <= width image)%Z.
Proof. unfold width. lia. Qed.

(** The jaw tier writes [op_jaw c] with [c] in (1.0, 2.0]. *)
Lemma jaw_ops_shape (m : Measurements) :
  Forall (fun op => exists c, op = op_jaw c /\ 1.0 < c /\ c <= 2.0)
         (jaw_ops m).
Proof.
  unfold jaw_ops, plan_jaw. cbv zeta.
  destruct (Py.gt _ _) eqn:E; [|constructor].
  apply gt_true in E.
  constructor; [|constructor].
  eexists. split; [reflexivity|].
  rewrite py_min_Qmin.
  change BEAUTY_RULES.jaw.max_asymmetry_correction with 2.0.
  split; [apply Q.min_glb_lt; [exact E | reflexivity] | apply Q.le_min_r].
Qed.

Lemma planned_jaw_shape (m : Measurements) (op : Operation) :
  In op (plan_changes m) -> in_region "jaw" op = true ->
  exists c, op = op_jaw c /\ 1.0 < c /\ c <= 2.0.
Proof.
  intros Hin Hr.
  destruct (plan_tier m op Hin) as [H|[H|[H|[H|H]]]].
  - pose proof (symmetry_region m) as F. rewrite Forall_forall in F.
    destruct (F op H) as [F1 _]. unfold in_region in *.
    apply String.eqb_eq in F1. rewrite F1 in Hr. discriminate Hr.
  - pose proof (nose_region m) as F. rewrite Forall_forall in F.
    specialize (F op H). unfold in_region in *.
    apply String.eqb_eq in F. rewrite F in Hr. discriminate Hr.
  - pose proof (jaw_ops_shape m) as F. rewrite Forall_forall in F.
    exact (F op H).
  - pose proof (chin_region m) as F. rewrite Forall_forall in F.
    destruct (F op H) as [F1 _]. unfold in_region in *.
    apply String.eqb_eq in F1. rewrite F1 in Hr. discriminate Hr.
  - pose proof (thirds_region m) as F. rewrite Forall_forall in F.
    destruct (third_op_face op (F op H)) as (F1 & _).
    unfold in_region in *.
    apply String.eqb_eq in F1. rewrite F1 in Hr. discriminate Hr.
Qed.

Lemma jaw_dispatch (c : Q) :
  _apply_single_operation image (op_jaw c) = _balance_jaw image (op_jaw c).
Proof. reflexivity. Qed.

Lemma jaw_first_guard (c : Q) :
  1.0 < c -> c <= 2.0 -> Py.eq c 0 || Py.gt c 2.0 = false.
Proof.
  intros H1 H2. apply orb_false_iff. split.
  - unfold Py.eq. destruct (Qeq_bool c 0) eqn:E; [|reflexivity].
    apply Qeq_bool_iff in E. lra.
  - apply gt_false. exact H2.
Qed.

(** The pixel correction of a planned jaw operation. *)
Lemma jaw_pixels_small (c : Q) :
  1.0 < c -> c <= 2.0 -> (width image <= 166)%Z ->
  (Z.abs (Py.int (c * (inject_Z (width image) * 0.6) / 100)) < 2)%Z.
Proof.
  intros H1 H2 Hw.
  pose proof width_nonneg as H0.
  assert (Q0 : 0 <= inject_Z (width image))
    by (change 0 with (inject_Z 0); rewrite <- Zle_Qle; exact H0).
  assert (Q1 : inject_Z (width image) <= inject_Z 166)
    by (rewrite <- Zle_Qle; exact Hw).
  change (inject_Z 166) with (166 # 1) in Q1.
  set (w := inject_Z (width image)) in *.
  assert (Hlo : 0 <= c * (w * 0.6) / 100).
  { unfold Qdiv. change (/ 100) with (1 # 100). nra. }
  assert (Hhi : c * (w * 0.6) / 100 <= 1.992).
  { unfold Qdiv. change (/ 100) with (1 # 100). nra. }
  pose proof (int_monotone _ _ Hlo) as A.
  pose proof (int_monotone _ _ Hhi) as B.
  change (Py.int 0) with 0%Z in A. change (Py.int 1.992) with 1%Z in B.
  lia.
Qed.

Lemma jaw_pixels_large (c : Q) :
  1.0 < c -> c <= 2.0 -> (334 <= width image)%Z ->
  (2 <= Py.int (c * (inject_Z (width image) * 0.6) / 100))%Z.
Proof.
  intros H1 H2 Hw.
  assert (Q1 : inject_Z 334 <= inject_Z (width image))
    by (rewrite <- Zle_Qle; exact Hw).
  change (inject_Z 334) with (334 # 1) in Q1.
  set (w := inject_Z (width image)) in *.
  assert (Hlo : 2 <= c * (w * 0.6) / 100).
  { unfold Qdiv. change (/ 100) with (1 # 100). nra. }
  pose proof (int_monotone _ _ Hlo) as A.
  change (Py.int 2) with 2%Z in A. exact A.
Qed.
End JawFacts.

(** X17. On an image of at most 166 columns no jaw operation of a plan
    changes anything: its correction is at most 2 mm, which is less than
    two pixels there, and the renderer returns the image it was given. *)
Theorem planned_jaw_invisible_on_narrow_image
    {Image : Type} {cv : Cv2 Image}
    (m : Measurements) (image : Image) (op : Operation) :
  In op (plan_changes m) -> in_region "jaw" op = true ->
  (width image <= 166)%Z ->
  _apply_single_operation image op = image.
Proof.
  intros Hin Hr Hw.
  destruct (planned_jaw_shape m op Hin Hr) as (c & -> & H1 & H2).
  rewrite jaw_dispatch. unfold _balance_jaw.
  cbn [op_jaw mm Py.get]. rewrite (jaw_first_guard c H1 H2).
  cbv iota zeta.
  replace (Z.abs (Py.int (c * (inject_Z (width image) * 0.6) / 100)) <? 2)%Z
    with true; [reflexivity|].
  symmetry. apply Z.ltb_lt. apply jaw_pixels_small; assumption.
Qed.

(** X18. A jaw operation of a plan is always rendered on the right
    half of the image: its correction is positive, so on an image of at
    least 334 columns the renderer warps the quadrilateral whose left
    edge is the centre column, and pulls both its sides inward by a
    positive shift. *)
Theorem planned_jaw_right_side {Image : Type} {cv : Cv2 Image}
    (m : Measurements) (image : Image) (op : Operation) :
  In op (plan_changes m) -> in_region "jaw" op = true ->
  (334 <= width image)%Z ->
  exists (right top bottom shift : Q),
    0 < shift
    /\ _apply_single_operation image op
       = perspective_blend image
           (Polygon (astype_int
              (quad (inject_Z (width image / 2)) right top bottom)))
           21
           (quad (inject_Z (width image / 2)) right top bottom)
           (quad (inject_Z (width image / 2) + shift) (right - shift)
                 top bottom).
Proof.
  intros Hin Hr Hw.
  destruct (planned_jaw_shape m op Hin Hr) as (c & -> & H1 & H2).
  pose proof (jaw_pixels_large image c H1 H2 Hw) as Hpc.
  rewrite jaw_dispatch. unfold _balance_jaw.
  cbn [op_jaw mm Py.get]. rewrite (jaw_first_guard c H1 H2).
  cbv iota zeta.
  set (pc := Py.int (c * (inject_Z (width image) * 0.6) / 100)) in *.
  replace (Z.abs pc <? 2)%Z with false
    by (symmetry; apply Z.ltb_ge; lia).
  replace (pc >? 0)%Z with true
    by (symmetry; apply Z.gtb_lt; lia).
  cbv iota.
  eexists. eexists. eexists. exists (inject_Z (Z.abs pc) * 0.7).
  split; [|reflexivity].
  assert (H : inject_Z 2 <= inject_Z (Z.abs pc))
    by (rewrite <- Zle_Qle; lia).
  change (inject_Z 2) with (2 # 1) in H. lra.
Qed.

(** ** The minimum visible change of the nose renderer *)

Section NoseVisibility.
Context {Image : Type} {cv : Cv2 Image}.
Variable image : Image.

Lemma nose_width_nonneg :
  (0 <= Py.int (inject_Z (width image) * 0.16))%Z.
Proof.
  apply int_of_nonneg.
  assert (H : 0 <= inject_Z (width image)).
  { change 0 with (inject_Z 0). rewrite <- Zle_Qle. apply width_nonneg. }
  lra.
Qed.

(** A width reduced by less than one pixel loses at most one pixel after
    truncation. *)
Lemma reduced_width (nw : Z) (f : Q) :
  (0 <= nw)%Z -> (1.0 - f) * 1.2 * inject_Z nw < 1 ->
  (nw - Py.int (inject_Z nw * (1.0 - (1.0 - f) * 1.2)) < 2)%Z.
Proof.
  intros Hnw Hsmall.
  destruct (Z.eq_dec nw 0) as [->|Hpos].
  - assert (E : inject_Z 0 * (1.0 - (1.0 - f) * 1.2) == 0) by ring.
    rewrite (int_compat _ _ E). change (Py.int 0) with 0%Z. lia.
  - assert (Hle : inject_Z (nw - 1)
                  <= inject_Z nw * (1.0 - (1.0 - f) * 1.2)).
    { unfold Zminus. rewrite inject_Z_plus.
      change (inject_Z (- (1))) with (- (1 # 1)). lra. }
    pose proof (int_monotone _ _ Hle) as H. rewrite int_inject in H. lia.
Qed.
End NoseVisibility.

(** X19. A width reduction below the visibility threshold is skipped:
    whenever the reduction [(1 - factor) * 1.2] of the nose region
    (16% of the image width) comes to less than one pixel, the
    shrink_width renderer returns the image unchanged, although the
    factor may lie inside its window. *)
Theorem shrink_below_one_pixel_skipped {Image : Type} {cv : Cv2 Image}
    (image : Image) (op : Operation) (f : Q) :
  factor op = Some f ->
  (1.0 - f) * 1.2 * inject_Z (Py.int (inject_Z (width image) * 0.16)) < 1 ->
  _shrink_nose_width image op = image.
Proof.
  intros Hf Hsmall. unfold _shrink_nose_width. rewrite Hf. cbn [Py.get].
  destruct (Py.ge f 1.0 || Py.lt f 0.70); [reflexivity|].
  cbv zeta.
  replace (Py.int (inject_Z (width image) * 0.16)
           - Py.int (inject_Z (Py.int (inject_Z (width image) * 0.16))
                     * (1.0 - (1.0 - f) * 1.2)) <? 2)%Z with true;
    [reflexivity|].
  symmetry. apply Z.ltb_lt.
  apply reduced_width; [apply nose_width_nonneg | exact Hsmall].
Qed.

Lemma shrink_below_one_pixel_skipped_witness :
  factor (with_factor "nose" "shrink_width" 0.996) = Some 0.996
  /\ (1.0 - 0.996) * 1.2
     * inject_Z (Py.int (inject_Z (width photo) * 0.16)) < 1
  /\ _shrink_nose_width photo (with_factor "nose" "shrink_width" 0.996)
     = photo.
Proof.
  assert (H : (1.0 - 0.996) * 1.2
              * inject_Z (Py.int (inject_Z (width photo) * 0.16)) < 1)
    by reflexivity.
  split; [exact eq_refl|]. split; [exact H|].
  exact (shrink_below_one_pixel_skipped photo
           (with_factor "nose" "shrink_width" 0.996) 0.996 eq_refl H).
Defined.

(** ** The middle-third operation of the planner *)

Section MiddleThird.
Context {Image : Type} {cv : Cv2 Image}.

Lemma nose_not_middle_third (m : Measurements) :
  Forall (fun op => of_type "adjust_middle_third" op = false) (nose_ops m).
Proof.
  unfold nose_ops, plan_nose. cbv zeta.
  destruct (Py.gt (Py.get _ _) _).
  - destruct (Py.gt _ 0.15); destruct (Py.gt _ 0.12); repeat constructor.
  - destruct (Py.lt _ _); repeat constructor.
Qed.

Lemma planned_middle_third (m : Measurements) (op : Operation) :
  In op (plan_changes m) -> of_type "adjust_middle_third" op = true ->
  exists cur, op = op_third "middle" cur 0.33 /\ 0.05 < Qabs (cur - 0.33).
Proof.
  intros Hin Ht.
  assert (Hthird : third_op op).
  { destruct (plan_tier m op Hin) as [H|[H|[H|[H|H]]]].
    - pose proof (symmetry_region m) as F. rewrite Forall_forall in F.
      destruct (F op H) as [_ F2].
      rewrite (of_type_excludes _ "adjust_middle_third" _ F2 eq_refl) in Ht.
      discriminate Ht.
    - pose proof (nose_not_middle_third m) as F. rewrite Forall_forall in F.
      rewrite (F op H) in Ht. discriminate Ht.
    - pose proof (jaw_region m) as F. rewrite Forall_forall in F.
      destruct (F op H) as [_ F2].
      rewrite (of_type_excludes _ "adjust_middle_third" _ F2 eq_refl) in Ht.
      discriminate Ht.
    - pose proof (chin_region m) as F. rewrite Forall_forall in F.
      destruct (F op H) as [_ F2].
      rewrite (of_type_excludes _ "adjust_middle_third" _ F2 eq_refl) in Ht.
      discriminate Ht.
    - pose proof (thirds_region m) as F. rewrite Forall_forall in F.
      exact (F op H). }
  destruct Hthird as (third_name & cur & ideal & -> & Hname & Hdev).
  simpl in Hname.
  destruct Hname as [E|[E|[E|[]]]]; inversion E; subst;
    try discriminate Ht.
  exists cur. split; [reflexivity | exact Hdev].
Qed.
End MiddleThird.

(** X20. A middle-third operation of a plan whose current proportion
    lies above the ideal is rendered as the identity: the middle-third
    renderer only widens, and returns the image unchanged when the
    target is below the current value. *)
Theorem planned_middle_third_reduction_identity
    {Image : Type} {cv : Cv2 Image}
    (m : Measurements) (image : Image) (op : Operation) (cur : Q) :
  In op (plan_changes m) ->
  of_type "adjust_middle_third" op = true ->
  current op = Some cur -> 0.33 < cur ->
  _apply_single_operation image op = image.
Proof.
  intros Hin Ht Hcur Habove.
  destruct (planned_middle_third m op Hin Ht) as (cur' & -> & Hdev).
  cbn [op_third current] in Hcur. inversion Hcur; subst cur'.
  unfold _apply_single_operation.
  cbn [op_third region type Py.get].
  change (("face" =? "nose")%string) with false.
  change (("face" =? "jaw")%string) with false.
  change (("face" =? "chin")%string) with false.
  change (("face" =? "face")%string) with true.
  change ((("adjust_" ++ "middle" ++ "_third") =? "symmetry")%string) with false.
  change (Py.contains "third" ("adjust_" ++ "middle" ++ "_third")) with true.
  cbn [andb].
  unfold _adjust_facial_third.
  cbn [op_third type current target Py.get].
  cbv zeta.
  destruct (Py.lt (Py.abs (0.33 - cur)) 0.01); [reflexivity|].
  change (Py.contains "upper" ("adjust_" ++ "middle" ++ "_third")) with false.
  change (Py.contains "middle" ("adjust_" ++ "middle" ++ "_third")) with true.
  cbv iota.
  unfold _adjust_middle_third. cbv zeta.
  destruct (Py.lt (Py.abs (0.33 - cur)) 0.02); [reflexivity|].
  replace (Py.gt (0.33 - cur) 0) with false; [reflexivity|].
  symmetry. apply gt_false. lra.
Qed.

Lemma planned_middle_third_reduction_identity_witness :
  In (op_third "middle" 0.5 0.33)
     (plan_changes (measured 0.95 0.75 0 0 0.33 0.5 0.34))
  /\ of_type "adjust_middle_third" (op_third "middle" 0.5 0.33) = true
  /\ current (op_third "middle" 0.5 0.33) = Some 0.5
  /\ 0.33 < 0.5
  /\ _apply_single_operation photo (op_third "middle" 0.5 0.33) = photo.
Proof.
  assert (Hin : In (op_third "middle" 0.5 0.33)
                   (plan_changes (measured 0.95 0.75 0 0 0.33 0.5 0.34))).
  { vm_compute. right. left. reflexivity. }
  assert (H : 0.33 < 0.5) by reflexivity.
  split; [exact Hin|]. split; [exact eq_refl|]. split; [exact eq_refl|].
  split; [exact H|].
  exact (planned_middle_third_reduction_identity
           (measured 0.95 0.75 0 0 0.33 0.5 0.34) photo
           (op_third "middle" 0.5 0.33) 0.5 Hin eq_refl eq_refl H).
Defined.

(** ** Witnesses *)

Lemma planned_symmetry_in_window_witness :
  In (op_symmetry 0.15) (plan_changes asymmetric)
  /\ in_region "face" (op_symmetry 0.15) = true
  /\ of_type "symmetry" (op_symmetry 0.15) = true
  /\ symmetry_window (op_symmetry 0.15).
Proof.
  assert (Hin : In (op_symmetry 0.15) (plan_changes asymmetric)).
  { vm_compute. left. reflexivity. }
  split; [exact Hin|]. split; [exact eq_refl|]. split; [exact eq_refl|].
  exact (planned_symmetry_in_window asymmetric (op_symmetry 0.15)
           Hin eq_refl eq_refl).
Defined.

Lemma planned_nose_in_window_witness :
  In (op_nose "refine_tip" (1 - 0.15 * 0.7)) (plan_changes asymmetric)
  /\ in_region "nose" (op_nose "refine_tip" (1 - 0.15 * 0.7)) = true
  /\ nose_window (op_nose "refine_tip" (1 - 0.15 * 0.7)).
Proof.
  assert (Hin : In (op_nose "refine_tip" (1 - 0.15 * 0.7))
                   (plan_changes asymmetric)).
  { vm_compute. right. left. reflexivity. }
  split; [exact Hin|]. split; [exact eq_refl|].
  exact (planned_nose_in_window asymmetric _ Hin eq_refl).
Defined.

Lemma planned_jaw_in_window_witness :
  In (op_jaw 2.0) (plan_changes asymmetric)
  /\ in_region "jaw" (op_jaw 2.0) = true
  /\ jaw_window (op_jaw 2.0).
Proof.
  assert (Hin : In (op_jaw 2.0) (plan_changes asymmetric)).
  { vm_compute. right. right. left. reflexivity. }
  split; [exact Hin|]. split; [exact eq_refl|].
  exact (planned_jaw_in_window asymmetric _ Hin eq_refl).
Defined.

Lemma harmony_score_valid_record_witness :
  (0 <= Py.get (symmetry_score scenario_A) 0.8
   /\ Py.get (symmetry_score scenario_A) 0.8 <= 1
   /\ 0 <= Py.get (jaw_asymmetry scenario_A) 0)
  /\ calculate_harmony_score scenario_A (plan_changes scenario_A)
     = Py.int (total_score (harmony_scores scenario_A
                              (plan_changes scenario_A)) * 100)
  /\ (7 <= calculate_harmony_score scenario_A (plan_changes scenario_A)
      <= 100)%Z.
Proof.
  assert (H1 : 0 <= Py.get (symmetry_score scenario_A) 0.8) by discriminate.
  assert (H2 : Py.get (symmetry_score scenario_A) 0.8 <= 1) by discriminate.
  assert (H3 : 0 <= Py.get (jaw_asymmetry scenario_A) 0) by discriminate.
  split; [split; [exact H1 | split; [exact H2 | exact H3]]|].
  exact (harmony_score_valid_record scenario_A (plan_changes scenario_A)
           H1 H2 H3).
Defined.

Lemma harmony_score_of_own_plan_witness :
  (0 <= Py.get (symmetry_score (measured 1 0.75 0 20 0.2 0.5 0.34)) 0.8
   /\ Py.get (symmetry_score (measured 1 0.75 0 20 0.2 0.5 0.34)) 0.8 <= 1
   /\ 0 <= Py.get (jaw_asymmetry (measured 1 0.75 0 20 0.2 0.5 0.34)) 0)
  /\ (calculate_harmony_score (measured 1 0.75 0 20 0.2 0.5 0.34)
        (plan_changes (measured 1 0.75 0 20 0.2 0.5 0.34)) <= 98)%Z.
Proof.
  assert (H1 : 0 <= Py.get (symmetry_score
                 (measured 1 0.75 0 20 0.2 0.5 0.34)) 0.8) by discriminate.
  assert (H2 : Py.get (symmetry_score
                 (measured 1 0.75 0 20 0.2 0.5 0.34)) 0.8 <= 1) by discriminate.
  assert (H3 : 0 <= Py.get (jaw_asymmetry
                 (measured 1 0.75 0 20 0.2 0.5 0.34)) 0) by discriminate.
  split; [split; [exact H1 | split; [exact H2 | exact H3]]|].
  exact (harmony_score_of_own_plan (measured 1 0.75 0 20 0.2 0.5 0.34)
           H1 H2 H3).
Defined.

Lemma harmony_score_falls_from_three_witness :
  (3 <= List.length [bare "a" "b"; bare "c" "d"; bare "e" "f"])%nat
  /\ (List.length [bare "a" "b"; bare "c" "d"; bare "e" "f"]
      <= List.length [bare "a" "b"; bare "c" "d"; bare "e" "f";
                      bare "g" "h"])%nat
  /\ (calculate_harmony_score scenario_A
        [bare "a" "b"; bare "c" "d"; bare "e" "f"; bare "g" "h"]
      <= calculate_harmony_score scenario_A
           [bare "a" "b"; bare "c" "d"; bare "e" "f"])%Z.
Proof.
  assert (H1 : (3 <= List.length
                  [bare "a" "b"; bare "c" "d"; bare "e" "f"])%nat)
    by (cbn; lia).
  assert (H2 : (List.length [bare "a" "b"; bare "c" "d"; bare "e" "f"]
                <= List.length [bare "a" "b"; bare "c" "d"; bare "e" "f";
                                bare "g" "h"])%nat)
    by (cbn; lia).
  split; [exact H1|]. split; [exact H2|].
  exact (harmony_score_falls_from_three scenario_A _ _ H1 H2).
Defined.

Lemma harmony_score_three_beats_fewer_witness :
  List.length [bare "a" "b"; bare "c" "d"; bare "e" "f"] = 3%nat
  /\ (1 <= List.length [bare "a" "b"] <= 2)%nat
  /\ (calculate_harmony_score scenario_A [bare "a" "b"]
      <= calculate_harmony_score scenario_A
           [bare "a" "b"; bare "c" "d"; bare "e" "f"])%Z.
Proof.
  assert (H2 : (1 <= List.length [bare "a" "b"] <= 2)%nat) by (cbn; lia).
  split; [exact eq_refl|]. split; [exact H2|].
  exact (harmony_score_three_beats_fewer scenario_A [bare "a" "b"]
           [bare "a" "b"; bare "c" "d"; bare "e" "f"] eq_refl H2).
Defined.

Lemma harmony_score_antitone_in_jaw_witness :
  0 <= 5
  /\ (calculate_harmony_score (with_jaw scenario_A 5) []
      <= calculate_harmony_score (with_jaw scenario_A 0) [])%Z.
Proof.
  assert (H : 0 <= 5) by discriminate.
  split; [exact H|].
  exact (harmony_score_antitone_in_jaw scenario_A [] 0 5 H).
Defined.

Lemma planned_chin_visibility_witness :
  ((height thumbnail < 94)%Z
   /\ _enhance_chin thumbnail (op_chin 0.15) = thumbnail)
  /\ ((94 <= height photo)%Z
      /\ exists mask src dst,
           _enhance_chin photo (op_chin 0.15)
           = perspective_blend photo mask 15 src dst).
Proof.
  assert (H1 : (height thumbnail < 94)%Z) by reflexivity.
  assert (H2 : (94 <= height photo)%Z) by discriminate.
  split.
  - split; [exact H1|]. exact (proj1 (planned_chin_visibility thumbnail) H1).
  - split; [exact H2|]. exact (proj2 (planned_chin_visibility photo) H2).
Defined.

Lemma planned_jaw_invisible_on_narrow_image_witness :
  In (op_jaw 2.0) (plan_changes asymmetric)
  /\ in_region "jaw" (op_jaw 2.0) = true
  /\ (width thumbnail <= 166)%Z
  /\ _apply_single_operation thumbnail (op_jaw 2.0) = thumbnail.
Proof.
  assert (Hin : In (op_jaw 2.0) (plan_changes asymmetric)).
  { vm_compute. right. right. left. reflexivity. }
  assert (Hw : (width thumbnail <= 166)%Z) by discriminate.
  split; [exact Hin|]. split; [exact eq_refl|]. split; [exact Hw|].
  exact (planned_jaw_invisible_on_narrow_image asymmetric thumbnail
           (op_jaw 2.0) Hin eq_refl Hw).
Defined.

Lemma planned_jaw_right_side_witness :
  In (op_jaw 2.0) (plan_changes asymmetric)
  /\ in_region "jaw" (op_jaw 2.0) = true
  /\ (334 <= width photo)%Z
  /\ exists (right top bottom shift : Q),
       0 < shift
       /\ _apply_single_operation photo (op_jaw 2.0)
          = perspective_blend photo
              (Polygon (astype_int
                 (quad (inject_Z (width photo / 2)) right top bottom)))
              21
              (quad (inject_Z (width photo / 2)) right top bottom)
              (quad (inject_Z (width photo / 2) + shift) (right - shift)
                    top bottom).
Proof.
  assert (Hin : In (op_jaw 2.0) (plan_changes asymmetric)).
  { vm_compute. right. right. left. reflexivity. }
  assert (Hw : (334 <= width photo)%Z) by discriminate.
  split; [exact Hin|]. split; [exact eq_refl|]. split; [exact Hw|].
  exact (planned_jaw_right_side asymmetric photo (op_jaw 2.0)
           Hin eq_refl Hw).
Defined.

(** ** The endpoint *)

Section Endpoint.
Context {Image Landmarks : Type}.
Context {cv : Cv2 Image} {mesh : FaceAnalyzer.FaceMesh Image Landmarks}.
Variable fmt_1f : Q -> string.
Variable fmt_pct : Q -> string.
Variable str_exception : Main.Exception -> string.
Variable files : Files Image.
Variable upload : Main.UploadFile Image.

Lemma output_not_temp :
  String.eqb (output_path_of (temp_path upload)) (temp_path upload) = false.
Proof. reflexivity. Qed.

Lemma output_not_before :
  String.eqb (output_path_of (temp_path upload))
    (Main.upload_path ("before_" ++ Main.filename upload)) = false.
Proof. reflexivity. Qed.

Lemma output_not_empty :
  String.eqb (output_path_of (temp_path upload)) EmptyString = false.
Proof. reflexivity. Qed.

Lemma temp_not_before :
  String.eqb (temp_path upload)
    (Main.upload_path ("before_" ++ Main.filename upload)) = false.
Proof. reflexivity. Qed.

(** The analyzer finds landmarks only in a readable file. *)
Lemma landmarks_need_image (fs : Files Image) (path : string) landmarks m :
  FaceAnalyzer.analyze_face fs path = (Some landmarks, m) ->
  exists image, fs path = Some image.
Proof.
  unfold FaceAnalyzer.analyze_face.
  destruct (fs path) as [image|]; [|discriminate].
  intros _. exists image. reflexivity.
Qed.
End Endpoint.

Section EndpointRuns.
Context {Image Landmarks : Type}.
Context {cv : Cv2 Image} {mesh : FaceAnalyzer.FaceMesh Image Landmarks}.
Variable fmt_1f : Q -> string.
Variable fmt_pct : Q -> string.
Variable str_exception : Main.Exception -> string.
Variable can_create : string -> bool.
Variable files : Files Image.
Variable upload : Main.UploadFile Image.

(** The [try] block when the temporary copy cannot be created. *)
Lemma try_open_fails (declared : string) :
  Main.content_type upload = Some declared ->
  String.prefix "image/" declared = true ->
  can_create (temp_path upload) = false ->
  Main.analyze_face_try fmt_1f fmt_pct can_create files upload
  = (inr (Main.OSError (temp_path upload)), files, true).
Proof.
  intros Hct Hprefix Hopen. unfold Main.analyze_face_try.
  rewrite Hct, Hprefix. cbn [negb]. fold (temp_path upload).
  rewrite Hopen. reflexivity.
Qed.

(** The [try] block when the upload is declared an image, its copy is
    written and a face is found in it: up to the renaming of the
    copy. *)
Lemma try_with_face (declared : string) (landmarks : Landmarks)
    (m : Measurements) :
  Main.content_type upload = Some declared ->
  String.prefix "image/" declared = true ->
  can_create (temp_path upload) = true ->
  FaceAnalyzer.analyze_face
    (Main.store files (temp_path upload) (Main.file upload))
    (temp_path upload) = (Some landmarks, m) ->
  exists image,
    Main.file upload = Some image
    /\ Main.analyze_face_try fmt_1f fmt_pct can_create files upload
       = if can_create (before_path upload) then
           match symmetry_score m with
           | None => (inr (Main.KeyError "symmetry_score"),
                      served files upload image m, true)
           | Some symmetry =>
               (inl (Main.AnalyzeResponse.mk symmetry
                       (calculate_harmony_score m (plan_changes m)) m
                       (get_readable_recommendations fmt_1f fmt_pct
                          (plan_changes m))
                       (plan_changes m)
                       (Some (Main.upload_url
                                ("before_" ++ Main.filename upload)))
                       (Some (Main.upload_url
                                (Main.path_name
                                   (output_path_of (temp_path upload)))))),
                served files upload image m, true)
           end
         else (inr (Main.OSError (before_path upload)),
               rendered files upload image m, true).
Proof.
  intros Hct Hprefix Hopen Hface.
  destruct (landmarks_need_image _ _ _ _ Hface) as [image Himage].
  assert (Hfile : Main.file upload = Some image).
  { unfold Main.store in Himage.
    rewrite String.eqb_refl in Himage. exact Himage. }
  exists image. split; [exact Hfile|].
  unfold Main.analyze_face_try. rewrite Hct, Hprefix. cbn [negb].
  fold (temp_path upload). rewrite Hopen. cbn [negb].
  rewrite Hface.
  pose proof (plan_length m) as [Hlen _].
  unfold served, rendered.
  destruct (plan_changes m) as [|op ops] eqn:Eplan;
    [cbn in Hlen; lia|].
  unfold apply_operations.
  rewrite Himage.
  unfold _save_processed_image.
  rewrite output_not_empty. cbn [negb]. cbv beta iota zeta.
  rewrite output_not_empty, output_not_temp. cbn [negb andb].
  cbv beta iota zeta.
  fold (before_path upload).
  rewrite Hfile.
  destruct (can_create (before_path upload)); [|reflexivity].
  destruct (symmetry_score m); reflexivity.
Qed.

(** The [try] block when the declared content type is refused, and when
    no face is found. *)
Lemma try_refused (declared : string) :
  Main.content_type upload = Some declared ->
  String.prefix "image/" declared = false ->
  Main.analyze_face_try fmt_1f fmt_pct can_create files upload
  = (inr (Main.HTTPException 400 "File must be an image"), files, false).
Proof.
  intros Hct Hprefix. unfold Main.analyze_face_try.
  rewrite Hct, Hprefix. reflexivity.
Qed.

Lemma try_without_face (declared : string) (m : Measurements) :
  Main.content_type upload = Some declared ->
  String.prefix "image/" declared = true ->
  can_create (temp_path upload) = true ->
  FaceAnalyzer.analyze_face
    (Main.store files (temp_path upload) (Main.file upload))
    (temp_path upload) = (None, m) ->
  Main.analyze_face_try fmt_1f fmt_pct can_create files upload
  = (inr (Main.HTTPException 400 "No face detected in image"),
     Main.store files (temp_path upload) (Main.file upload), true).
Proof.
  intros Hct Hprefix Hopen Hface. unfold Main.analyze_face_try.
  rewrite Hct, Hprefix. cbn [negb]. fold (temp_path upload).
  rewrite Hopen. cbn [negb].
  rewrite Hface. reflexivity.
Qed.

Lemma served_files (image : Image) (m : Measurements) :
  served files upload image m (temp_path upload) = None
  /\ served files upload image m
       (Main.upload_path ("before_" ++ Main.filename upload)) = Some image
  /\ served files upload image m (output_path_of (temp_path upload))
     = Some (jpeg (fold_left _apply_single_operation (plan_changes m) image)).
Proof.
  unfold served, Main.rename, write, Main.store.
  rewrite temp_not_before, output_not_before, output_not_temp,
    !String.eqb_refl.
  assert (E : String.eqb (temp_path upload)
                (output_path_of (temp_path upload)) = false)
    by reflexivity.
  rewrite E. repeat split; reflexivity.
Qed.

(** The handler removes the temporary copy. *)
Lemma unlinked_temp (fs : Files Image) :
  Main.unlink fs (temp_path upload) (temp_path upload) = None.
Proof.
  unfold Main.unlink, Main.store. rewrite String.eqb_refl. reflexivity.
Qed.
End EndpointRuns.

(** X21. The endpoint never answers with status 400.  Whatever its body
    raises is caught by its own handler and raised again as a 500: an
    upload that is not declared an image, and an image without a face,
    both end as status 500 with the 400 message quoted in the detail;
    in the first case the files are untouched, in the second the
    temporary copy is removed.  An upload whose temporary copy cannot be
    created, as one whose name holds a path separator, ends as a 500
    quoting the error of [open]. *)
Theorem endpoint_errors_are_500 {Image Landmarks : Type}
    {cv : Cv2 Image} {mesh : FaceAnalyzer.FaceMesh Image Landmarks}
    (fmt_1f fmt_pct : Q -> string)
    (str_exception : Main.Exception -> string)
    (can_create : string -> bool)
    (files : Files Image) (upload : Main.UploadFile Image) :
  (forall e files',
     Main.analyze_face fmt_1f fmt_pct str_exception can_create files upload
     = (inr e, files') ->
     exists detail, e = Main.HTTPException 500 detail)
  /\ (forall declared,
        Main.content_type upload = Some declared ->
        String.prefix "image/" declared = false ->
        Main.analyze_face fmt_1f fmt_pct str_exception can_create files upload
        = (inr (Main.HTTPException 500
                  ("Analysis failed: "
                   ++ str_exception
                        (Main.HTTPException 400 "File must be an image"))),
           files))
  /\ (forall declared m,
        Main.content_type upload = Some declared ->
        String.prefix "image/" declared = true ->
        can_create (temp_path upload) = true ->
        FaceAnalyzer.analyze_face
          (Main.store files (temp_path upload) (Main.file upload))
          (temp_path upload) = (None, m) ->
        Main.analyze_face fmt_1f fmt_pct str_exception can_create files upload
        = (inr (Main.HTTPException 500
                  ("Analysis failed: "
                   ++ str_exception
                        (Main.HTTPException 400 "No face detected in image"))),
           Main.unlink
             (Main.store files (temp_path upload) (Main.file upload))
             (temp_path upload)))
  /\ (forall declared,
        Main.content_type upload = Some declared ->
        String.prefix "image/" declared = true ->
        can_create (temp_path upload) = false ->
        Main.analyze_face fmt_1f fmt_pct str_exception can_create files upload
        = (inr (Main.HTTPException 500
                  ("Analysis failed: "
                   ++ str_exception (Main.OSError (temp_path upload)))),
           Main.unlink files (temp_path upload))).
Proof.
  split; [|split; [|split]].
  - intros e files'. unfold Main.analyze_face.
    destruct (Main.analyze_face_try fmt_1f fmt_pct can_create files upload)
      as [[[response|raised] fs] bound]; [discriminate|].
    intro H. inversion H. eexists. reflexivity.
  - intros declared Hct Hprefix. unfold Main.analyze_face.
    rewrite (try_refused fmt_1f fmt_pct can_create files upload declared
               Hct Hprefix).
    reflexivity.
  - intros declared m Hct Hprefix Hopen Hface. unfold Main.analyze_face.
    rewrite (try_without_face fmt_1f fmt_pct can_create files upload
               declared m Hct Hprefix Hopen Hface).
    reflexivity.
  - intros declared Hct Hprefix Hopen. unfold Main.analyze_face.
    rewrite (try_open_fails fmt_1f fmt_pct can_create files upload
               declared Hct Hprefix Hopen).
    reflexivity.
Qed.

Lemma endpoint_errors_are_500_witness :
  Main.content_type document = Some "application/pdf"%string
  /\ String.prefix "image/" "application/pdf" = false
  /\ Main.analyze_face (fun _ => EmptyString) (fun _ => EmptyString)
       (fun _ => "400"%string) writable no_files document
     = (inr (Main.HTTPException 500
               ("Analysis failed: " ++ "400")), no_files).
Proof.
  split; [exact eq_refl|]. split; [exact eq_refl|].
  exact (proj1 (proj2 (endpoint_errors_are_500
                         (fun _ => EmptyString) (fun _ => EmptyString)
                         (fun _ => "400"%string) writable no_files document))
           "application/pdf"%string eq_refl eq_refl).
Defined.


(** X23. Once the declared content type is accepted, the temporary
    copy of the upload never outlives the request: it is renamed on
    success and removed by the handler on every failure. *)
Theorem endpoint_leaves_no_temp_file {Image Landmarks : Type}
    {cv : Cv2 Image} {mesh : FaceAnalyzer.FaceMesh Image Landmarks}
    (fmt_1f fmt_pct : Q -> string)
    (str_exception : Main.Exception -> string)
    (can_create : string -> bool)
    (files : Files Image) (upload : Main.UploadFile Image)
    (declared : string) :
  Main.content_type upload = Some declared ->
  String.prefix "image/" declared = true ->
  snd (Main.analyze_face fmt_1f fmt_pct str_exception can_create files upload)
    (temp_path upload) = None.
Proof.
  intros Hct Hprefix.
  destruct (can_create (temp_path upload)) eqn:Hopen.
  - destruct (FaceAnalyzer.analyze_face
                (Main.store files (temp_path upload) (Main.file upload))
                (temp_path upload)) as [[landmarks|] m] eqn:Hface.
    + destruct (try_with_face fmt_1f fmt_pct can_create files upload declared
                  landmarks m Hct Hprefix Hopen Hface)
        as (image & Hfile & Htry).
      unfold Main.analyze_face. rewrite Htry.
      destruct (can_create (before_path upload)).
      * destruct (symmetry_score m); cbn [snd].
        -- apply served_files.
        -- apply unlinked_temp.
      * cbn [snd]. apply unlinked_temp.
    + unfold Main.analyze_face.
      rewrite (try_without_face fmt_1f fmt_pct can_create files upload
                 declared m Hct Hprefix Hopen Hface).
      cbn [snd]. apply unlinked_temp.
  - unfold Main.analyze_face.
    rewrite (try_open_fails fmt_1f fmt_pct can_create files upload
               declared Hct Hprefix Hopen).
    cbn [snd]. apply unlinked_temp.
Qed.


Lemma endpoint_leaves_no_temp_file_witness :
  Main.content_type portrait = Some "image/jpeg"%string
  /\ String.prefix "image/" "image/jpeg" = true
  /\ snd (Main.analyze_face (fun _ => EmptyString) (fun _ => EmptyString)
            (fun _ => EmptyString) read_only no_files portrait)
       (temp_path portrait) = None.
Proof.
  split; [exact eq_refl|]. split; [exact eq_refl|].
  exact (endpoint_leaves_no_temp_file (fun _ => EmptyString)
           (fun _ => EmptyString) (fun _ => EmptyString) read_only
           no_files portrait "image/jpeg" eq_refl eq_refl).
Defined.
